(** * Bitcoin UTXO dust-attack annotation pipeline: a shallow embedding

    The Python sources under [Data Processing/] are embedded as Rocq
    functions over a small model of the Python values they manipulate
    (JSON documents, insertion-ordered dictionaries, binary64 floats,
    exceptions), and the properties stated for the pipeline are proved
    about those functions. *)

From Stdlib Require Import ZArith List String Ascii Bool Lia.
From Stdlib Require Import Floats.
From Stdlib Require Import Sorted Permutation.
From stdpp Require Import base numbers countable strings.
Import ListNotations.

Local Open Scope string_scope.
Local Open Scope Z_scope.

(** ** Python runtime model *)

(** *** Exceptions and the error monad *)

Inductive exn : Type :=
| TypeError
| ValueError
| AttributeError
| KeyError
| OverflowError
| ZeroDivisionError
| RecursionError
| JSONDecodeError.

Inductive result (A : Type) : Type :=
| Ret (a : A)
| Raise (e : exn).

Arguments Ret {A} a.
Arguments Raise {A} e.

Definition bind {A B : Type} (m : result A) (k : A -> result B) : result B :=
  match m with
  | Ret a => k a
  | Raise e => Raise e
  end.

Notation "'let!' x ':=' m 'in' k" := (bind m (fun x => k))
  (at level 10, x name, m at level 100, k at level 200).
Notation "'let!' ' p ':=' m 'in' k" := (bind m (fun p => k))
  (at level 10, p strict pattern, m at level 100, k at level 200).

(** [try: ... except Exception: handler] *)
Definition try_except {A : Type} (m : result A) (handler : A) : A :=
  match m with
  | Ret a => a
  | Raise _ => handler
  end.

Definition is_ret {A : Type} (m : result A) : bool :=
  match m with Ret _ => true | Raise _ => false end.

(** *** Binary64 floats

    Python's [float] is IEEE 754 binary64, round to nearest even.  The
    carrier is the Standard Library's specification type [spec_float]
    with its operations at precision 53 and maximal exponent 1024. *)

Definition pyfloat : Type := spec_float.

Definition fzero : pyfloat := S754_zero false.
Definition fadd : pyfloat -> pyfloat -> pyfloat := SFadd prec emax.
Definition fsub : pyfloat -> pyfloat -> pyfloat := SFsub prec emax.
Definition fmul : pyfloat -> pyfloat -> pyfloat := SFmul prec emax.
Definition fdiv : pyfloat -> pyfloat -> pyfloat := SFdiv prec emax.
Definition flt : pyfloat -> pyfloat -> bool := SFltb.
Definition fle : pyfloat -> pyfloat -> bool := SFleb.
Definition feq : pyfloat -> pyfloat -> bool := SFeqb.

Definition is_nan (f : pyfloat) : bool :=
  match f with S754_nan => true | _ => false end.

Definition is_finite (f : pyfloat) : bool :=
  match f with S754_zero _ | S754_finite _ _ _ => true | _ => false end.

(** The binary64 value nearest to the rational [sgn * n / d] ([d > 0]),
    ties to even; an infinity when it is out of range.  This is the
    rounding performed by [int / int], [float(int)] and [float(str)]. *)
Definition round_ratio (neg : bool) (n d : Z) : pyfloat :=
  if n =? 0 then S754_zero neg
  else
    let '(q, e, l) := SFdiv_core_binary prec emax n 0 d 0 in
    binary_round_aux prec emax neg q e l.

(** [float(z)] for an [int]: raises OverflowError when out of range. *)
Definition float_of_int (z : Z) : result pyfloat :=
  let f := binary_normalize prec emax z 0 false in
  if is_finite f then Ret f else Raise OverflowError.

(** [a / b] on two [int]s: the correctly rounded quotient. *)
Definition int_truediv (a b : Z) : result pyfloat :=
  if b =? 0 then Raise ZeroDivisionError
  else
    let neg := xorb (a <? 0) (b <? 0) in
    let f := round_ratio neg (Z.abs a) (Z.abs b) in
    if is_finite f then Ret f else Raise OverflowError.

(** [math.ceil(f)]: the least integer not below [f]. *)
Definition math_ceil (f : pyfloat) : result Z :=
  match f with
  | S754_zero _ => Ret 0
  | S754_nan => Raise ValueError
  | S754_infinity _ => Raise OverflowError
  | S754_finite s m e =>
      let sm := if s then Z.neg m else Z.pos m in
      if 0 <=? e then Ret (sm * 2 ^ e)
      else Ret (- ((- sm) / 2 ^ (- e)))
  end.

(** *** JSON documents as Python values *)

Unset Elimination Schemes.
Inductive json : Type :=
| JNull
| JBool (b : bool)
| JInt (z : Z)
| JFloat (f : pyfloat)
| JStr (s : string)
| JList (l : list json)
| JDict (d : list (string * json)).
Set Elimination Schemes.

(** A Python [dict] with [str] keys: an association list in insertion
    order, without duplicate keys. *)
Definition dict : Type := list (string * json).

Fixpoint dict_get (k : string) (d : dict) : option json :=
  match d with
  | [] => None
  | (k', v) :: d' => if String.eqb k k' then Some v else dict_get k d'
  end.

(** [d.get(k, default)] *)
Definition dict_get_default (k : string) (default : json) (d : dict) : json :=
  match dict_get k d with Some v => v | None => default end.

(** [d.get(k)], with [None] for a missing key *)
Definition dict_get_none (k : string) (d : dict) : json :=
  dict_get_default k JNull d.

(** [k in d] *)
Definition dict_mem (k : string) (d : dict) : bool :=
  match dict_get k d with Some _ => true | None => false end.

(** [d[k] = v]: overwrite in place, or append a new key. *)
Fixpoint dict_set (k : string) (v : json) (d : dict) : dict :=
  match d with
  | [] => [(k, v)]
  | (k', v') :: d' =>
      if String.eqb k k' then (k', v) :: d' else (k', v') :: dict_set k v d'
  end.

(** Truth value of a Python object. *)
Definition py_truthy (v : json) : bool :=
  match v with
  | JNull => false
  | JBool b => b
  | JInt z => negb (z =? 0)
  | JFloat f => negb (feq f fzero)
  | JStr s => negb (String.eqb s "")
  | JList l => match l with [] => false | _ => true end
  | JDict d => match d with [] => false | _ => true end
  end.

(** [v is None] *)
Definition is_none (v : json) : bool :=
  match v with JNull => true | _ => false end.

(** [isinstance(v, list)] *)
Definition is_list (v : json) : bool :=
  match v with JList _ => true | _ => false end.

(** [isinstance(v, str)] *)
Definition is_str (v : json) : bool :=
  match v with JStr _ => true | _ => false end.

(** [a or b] *)
Definition py_or (a b : json) : json := if py_truthy a then a else b.

Definition Zlength_str (s : string) : Z := Z.of_nat (String.length s).

(** [len(v)] *)
Definition py_len (v : json) : result Z :=
  match v with
  | JStr s => Ret (Zlength_str s)
  | JList l => Ret (Z.of_nat (List.length l))
  | JDict d => Ret (Z.of_nat (List.length d))
  | _ => Raise TypeError
  end.

Fixpoint chars (s : string) : list json :=
  match s with
  | EmptyString => []
  | String c s' => JStr (String c EmptyString) :: chars s'
  end.

(** The items a [for] loop visits. *)
Definition py_iter (v : json) : result (list json) :=
  match v with
  | JList l => Ret l
  | JStr s => Ret (chars s)
  | JDict d => Ret (map (fun kv => JStr (fst kv)) d)
  | _ => Raise TypeError
  end.

(** A loop body threaded through a list, stopping at the first exception. *)
Fixpoint foldM {A B : Type} (f : B -> A -> result B) (l : list A) (acc : B)
  : result B :=
  match l with
  | [] => Ret acc
  | x :: l' => let! acc' := f acc x in foldM f l' acc'
  end.

(** [s.startswith(p)] *)
Definition startswith (s p : string) : bool := String.prefix p s.

(** *** [str] methods

    Strings are byte strings; the methods below act on their ASCII
    characters, which is all the pipeline's tests (address prefixes, hex
    digits, decimal numerals) look at. *)

Definition is_space (c : ascii) : bool :=
  let n := Z.of_nat (nat_of_ascii c) in
  ((9 <=? n) && (n <=? 13)) || ((28 <=? n) && (n <=? 32)).

Fixpoint lstrip (s : string) : string :=
  match s with
  | EmptyString => EmptyString
  | String c s' => if is_space c then lstrip s' else s
  end.

Fixpoint rstrip (s : string) : string :=
  match s with
  | EmptyString => EmptyString
  | String c s' =>
      match rstrip s' with
      | EmptyString => if is_space c then EmptyString else String c EmptyString
      | r => String c r
      end
  end.

(** [s.strip()] *)
Definition strip (s : string) : string := rstrip (lstrip s).

(** The white space [float()] and [int()] skip around a numeral: the
    ASCII characters C's [isspace] accepts.  Unlike [str.strip], they
    keep the separators 0x1c to 0x1f. *)
Definition is_numeral_space (c : ascii) : bool :=
  let n := Z.of_nat (nat_of_ascii c) in
  ((9 <=? n) && (n <=? 13)) || (n =? 32).

Fixpoint lstrip_numeral (s : string) : string :=
  match s with
  | EmptyString => EmptyString
  | String c s' => if is_numeral_space c then lstrip_numeral s' else s
  end.

Fixpoint rstrip_numeral (s : string) : string :=
  match s with
  | EmptyString => EmptyString
  | String c s' =>
      match rstrip_numeral s' with
      | EmptyString =>
          if is_numeral_space c then EmptyString else String c EmptyString
      | r => String c r
      end
  end.

Definition strip_numeral (s : string) : string :=
  rstrip_numeral (lstrip_numeral s).

Definition map_string (f : ascii -> ascii) : string -> string :=
  fix go (s : string) : string :=
    match s with
    | EmptyString => EmptyString
    | String c s' => String (f c) (go s')
    end.

Definition lower_char (c : ascii) : ascii :=
  let n := nat_of_ascii c in
  if (65 <=? n)%nat && (n <=? 90)%nat then ascii_of_nat (n + 32) else c.

Definition upper_char (c : ascii) : ascii :=
  let n := nat_of_ascii c in
  if (97 <=? n)%nat && (n <=? 122)%nat then ascii_of_nat (n - 32) else c.

(** [s.lower()] and [s.upper()] *)
Definition lower : string -> string := map_string lower_char.
Definition upper : string -> string := map_string upper_char.

(** [needle in hay] *)
Fixpoint contains (needle hay : string) : bool :=
  String.prefix needle hay ||
  match hay with
  | EmptyString => false
  | String _ hay' => contains needle hay'
  end.

Fixpoint string_forallb (p : ascii -> bool) (s : string) : bool :=
  match s with
  | EmptyString => true
  | String c s' => p c && string_forallb p s'
  end.

Definition is_digit (c : ascii) : bool :=
  let n := nat_of_ascii c in (48 <=? n)%nat && (n <=? 57)%nat.

Definition is_hex_digit (c : ascii) : bool :=
  let n := nat_of_ascii c in
  is_digit c || ((65 <=? n)%nat && (n <=? 70)%nat)
             || ((97 <=? n)%nat && (n <=? 102)%nat).

(** A [str] method called on [v]: AttributeError unless [v] is a [str]. *)
Definition as_str (v : json) : result string :=
  match v with
  | JStr s => Ret s
  | _ => Raise AttributeError
  end.

(** [.get] called on [v]: AttributeError unless [v] is a [dict]. *)
Definition as_dict (v : json) : result dict :=
  match v with
  | JDict d => Ret d
  | _ => Raise AttributeError
  end.

(** *** Decimal rendering: [f"{x:.Nf}"] *)

Definition digit_char (d : Z) : ascii := ascii_of_nat (48 + Z.to_nat d).

(** The last [p] decimal digits of [n], most significant first. *)
Fixpoint fixed_digits (p : nat) (n : Z) (acc : string) : string :=
  match p with
  | O => acc
  | S p' => fixed_digits p' (n / 10) (String (digit_char (n mod 10)) acc)
  end.

Fixpoint int_digits (fuel : nat) (n : Z) (acc : string) : string :=
  match fuel with
  | O => acc
  | S fuel' =>
      let acc' := String (digit_char (n mod 10)) acc in
      if n <? 10 then acc' else int_digits fuel' (n / 10) acc'
  end.

(** [num / den] rounded to the nearest integer, ties to even. *)
Definition round_half_even (num den : Z) : Z :=
  let q := num / den in
  match (2 * (num mod den)) ?= den with
  | Lt => q
  | Gt => q + 1
  | Eq => if Z.even q then q else q + 1
  end.

(** [|m * 2^e| * 10^p] rounded to an integer, ties to even. *)
Definition scaled_round (p : nat) (m : positive) (e : Z) : Z :=
  if 0 <=? e then Z.pos m * 2 ^ e * 10 ^ Z.of_nat p
  else round_half_even (Z.pos m * 10 ^ Z.of_nat p) (2 ^ (- e)).

(** [n / 10^p] written with [p] digits after the point. *)
Definition render_fixed (p : nat) (n : Z) : string :=
  let scale := 10 ^ Z.of_nat p in
  let q := n / scale in
  int_digits (S (Z.to_nat (Z.log2 q))) q
    (match p with
     | O => EmptyString
     | _ => String "."%char (fixed_digits p (n mod scale) EmptyString)
     end).

Definition sign_prefix (neg : bool) (s : string) : string :=
  if neg then String "-"%char s else s.

(** [format(f, ".pf")]: the exact value of [f] correctly rounded to [p]
    decimals; the sign is kept on a result that rounds to zero. *)
Definition format_fixed (p : nat) (f : pyfloat) : string :=
  match f with
  | S754_nan => "nan"
  | S754_infinity neg => sign_prefix neg "inf"
  | S754_zero neg => sign_prefix neg (render_fixed p 0)
  | S754_finite neg m e => sign_prefix neg (render_fixed p (scaled_round p m e))
  end.

(** *** Numeric conversions: [float(...)] and [int(...)] *)

(** The longest prefix of characters satisfying [q], and the rest. *)
Fixpoint span_while (q : ascii -> bool) (s : string) : string * string :=
  match s with
  | EmptyString => (EmptyString, EmptyString)
  | String c s' =>
      if q c then
        let '(run, rest) := span_while q s' in (String c run, rest)
      else (EmptyString, s)
  end.

Definition is_digit_or_underscore (c : ascii) : bool :=
  is_digit c || Ascii.eqb c "_"%char.

(** The longest prefix of digits and underscores, and the rest. *)
Definition span_digits : string -> string * string :=
  span_while is_digit_or_underscore.

(** The value of a digit group; an underscore must stand between two
    digits.  [prev] tells whether the previous character was a digit. *)
Fixpoint group_value (s : string) (prev : bool) (acc : Z) : option Z :=
  match s with
  | EmptyString => if prev then Some acc else None
  | String c s' =>
      if is_digit c then
        group_value s' true (10 * acc + (Z.of_nat (nat_of_ascii c) - 48))
      else if prev then group_value s' false acc
      else None
  end.

(** Digits in a group, underscores left out. *)
Fixpoint group_digits (s : string) : Z :=
  match s with
  | EmptyString => 0
  | String c s' => (if is_digit c then 1 else 0) + group_digits s'
  end.

Definition split_sign (s : string) : bool * string :=
  match s with
  | String "-"%char r => (true, r)
  | String "+"%char r => (false, r)
  | _ => (false, s)
  end.

(** A group that may be empty. *)
Definition opt_group (s : string) : option Z :=
  match s with
  | EmptyString => Some 0
  | _ => group_value s false 0
  end.

(** The exponent part [e[+-]digits], or nothing. *)
Definition parse_exponent (s : string) : option Z :=
  match s with
  | EmptyString => Some 0
  | String c r =>
      if Ascii.eqb c "e"%char || Ascii.eqb c "E"%char then
        let '(neg, r1) := split_sign r in
        let '(ds, r2) := span_digits r1 in
        match r2, group_value ds false 0 with
        | EmptyString, Some v => Some (if neg then - v else v)
        | _, _ => None
        end
      else None
  end.

(** A decimal numeral as [n * 10^k]. *)
Definition parse_decimal (s : string) : option (Z * Z) :=
  let '(ip, r1) := span_digits s in
  let '(fp, r2) :=
    match r1 with
    | String "."%char r => span_digits r
    | _ => (EmptyString, r1)
    end in
  match ip, fp with
  | EmptyString, EmptyString => None
  | _, _ =>
      match opt_group ip, opt_group fp, parse_exponent r2 with
      | Some iv, Some fv, Some ev =>
          let nf := group_digits fp in
          Some (iv * 10 ^ nf + fv, ev - nf)
      | _, _, _ => None
      end
  end.

(** The binary64 value nearest to [n * 10^k]. *)
Definition round_decimal (neg : bool) (n k : Z) : pyfloat :=
  if 0 <=? k then round_ratio neg (n * 10 ^ k) 1
  else round_ratio neg n (10 ^ (- k)).

(** [float(s)] for a [str] *)
Definition float_of_string (s : string) : result pyfloat :=
  let '(neg, body) := split_sign (strip_numeral s) in
  let word := lower body in
  if String.eqb word "inf" || String.eqb word "infinity"
  then Ret (S754_infinity neg)
  else if String.eqb word "nan" then Ret S754_nan
  else
    match parse_decimal body with
    | Some (n, k) => Ret (round_decimal neg n k)
    | None => Raise ValueError
    end.

(** Float literals and [float] of a small [int]. *)
Definition float_lit (n d : Z) : pyfloat := round_ratio false n d.

(** [float(v)] *)
Definition py_float (v : json) : result pyfloat :=
  match v with
  | JInt z => float_of_int z
  | JFloat f => Ret f
  | JBool b => Ret (if b then float_lit 1 1 else fzero)
  | JStr s => float_of_string s
  | _ => Raise TypeError
  end.

(** The integer part of a finite float, towards zero. *)
Definition float_trunc (f : pyfloat) : result Z :=
  match f with
  | S754_zero _ => Ret 0
  | S754_nan => Raise ValueError
  | S754_infinity _ => Raise OverflowError
  | S754_finite neg m e =>
      let a := if 0 <=? e then Z.pos m * 2 ^ e else Z.pos m / 2 ^ (- e) in
      Ret (if neg then - a else a)
  end.

(** [int(s)] for a [str], base 10 *)
Definition int_of_string (s : string) : result Z :=
  let '(neg, body) := split_sign (strip_numeral s) in
  let '(ds, rest) := span_digits body in
  match rest, group_value ds false 0 with
  | EmptyString, Some v => Ret (if neg then - v else v)
  | _, _ => Raise ValueError
  end.

(** [int(v)] *)
Definition py_int (v : json) : result Z :=
  match v with
  | JInt z => Ret z
  | JBool b => Ret (if b then 1 else 0)
  | JFloat f => float_trunc f
  | JStr s => int_of_string s
  | _ => Raise TypeError
  end.

(** ['k' in v] for a [str] [k]: a key of a dict, a substring of a
    string, an element of a list; TypeError on the other values. *)
Definition py_in (k : string) (v : json) : result bool :=
  match v with
  | JDict d => Ret (dict_mem k d)
  | JStr s => Ret (contains k s)
  | JList l =>
      Ret (existsb (fun x => match x with
                             | JStr s => String.eqb s k
                             | _ => false
                             end) l)
  | _ => Raise TypeError
  end.

(** *** Dict keys

    A Python [dict] takes any hashable value as a key and finds a key
    that is the object looked up or is [==] to it: a [bool] is the [int]
    0 or 1, an [int] and a [float] are equal when they denote the same
    number.  NaN is [==] to nothing, but [json] decodes every NaN to one
    object ([json.decoder.NaN]), so that a NaN read from a document is
    found under a NaN read from a document. *)

(** [hash(v)] does not raise. *)
Definition hashable (v : json) : bool :=
  match v with
  | JList _ | JDict _ => false
  | _ => true
  end.

(** The float [f] is the integer [z]. *)
Definition float_eq_int (f : pyfloat) (z : Z) : bool :=
  match f with
  | S754_zero _ => z =? 0
  | S754_finite s m e =>
      let sm := if s then Z.neg m else Z.pos m in
      if 0 <=? e then sm * 2 ^ e =? z
      else (sm mod 2 ^ (- e) =? 0) && (sm / 2 ^ (- e) =? z)
  | _ => false
  end.

Definition int_of_bool (b : bool) : Z := if b then 1 else 0.

(** [a is b or a == b] on hashable values read from JSON documents. *)
Definition key_eqb (a b : json) : bool :=
  match a, b with
  | JNull, JNull => true
  | JStr s, JStr t => String.eqb s t
  | JInt x, JInt y => x =? y
  | JInt x, JBool c => x =? int_of_bool c
  | JBool c, JInt y => int_of_bool c =? y
  | JBool c, JBool c' => Bool.eqb c c'
  | JFloat f, JFloat g => feq f g || (is_nan f && is_nan g)
  | JFloat f, JInt y => float_eq_int f y
  | JInt x, JFloat g => float_eq_int g x
  | JFloat f, JBool c => float_eq_int f (int_of_bool c)
  | JBool c, JFloat g => float_eq_int g (int_of_bool c)
  | _, _ => false
  end.

(** ** annotate_utxo_script_bytes.py *)

Module Annotate.

(** [SCRIPT_TYPE_BYTES] *)
Definition SCRIPT_TYPE_BYTES : list (string * Z) :=
  [ ("P2PKH", 34); ("P2SH", 32); ("P2WPKH", 31); ("P2WSH", 43);
    ("P2TR", 43); ("OP_RETURN", 0); ("UNKNOWN", 43) ].

Fixpoint table_get (k : string) (t : list (string * Z)) : option Z :=
  match t with
  | [] => None
  | (k', v) :: t' => if String.eqb k k' then Some v else table_get k t'
  end.

(** [identify_script_type(address)] *)
Definition identify_script_type (address : json) : string :=
  match address with
  | JStr a =>
      if String.eqb a "" then "UNKNOWN"
      else if startswith a "OP_RETURN" then "OP_RETURN"
      else if startswith a "1" then "P2PKH"
      else if startswith a "3" then "P2SH"
      else if startswith a "bc1q" then
        (if Zlength_str a <? 45 then "P2WPKH" else "P2WSH")
      else if startswith a "bc1p" then "P2TR"
      else "UNKNOWN"
  | _ => "UNKNOWN"
  end.

(** [varint_size(n)] *)
Definition varint_size (n : Z) : Z :=
  if n <? 253 then 1
  else if n <? 65536 then 3
  else 5.

(** Line 60: the scriptSig hex payload, [''] unless [scriptSig] is a
    dict. *)
Definition scriptSig_hex (input_item : dict) : json :=
  match dict_get "scriptSig" input_item with
  | Some (JDict sig) => dict_get_default "hex" (JStr "") sig
  | _ => JStr ""
  end.

(** Line 61: [input_item.get('txinwitness') or []] *)
Definition txinwitness (input_item : dict) : json :=
  py_or (dict_get_none "txinwitness" input_item) (JList []).

(** The body of the [for w in witness] loop. *)
Definition witness_step (wsize : Z) (w : json) : result Z :=
  let! len_w := py_len w in
  let wb := len_w / 2 in
  Ret (wsize + (varint_size wb + wb)).

(** [calculate_input_bytes(input_item)] *)
Definition calculate_input_bytes (input_item : dict) : result Z :=
  let base := 32 + 4 + 4 in
  let hexstr := scriptSig_hex input_item in
  let witness := txinwitness input_item in
  if py_truthy witness then
    let! sb := (if py_truthy hexstr
           then (let! n := py_len hexstr in Ret (n / 2))
           else Ret 0) in
    let base_size := base + varint_size sb + sb in
    let! items := py_iter witness in
    let! wsize := foldM witness_step items 1 in
    let weight := base_size * 4 + wsize in
    let! quarter := int_truediv weight 4 in
    math_ceil quarter
  else if py_truthy hexstr then
    let! n := py_len hexstr in
    let sb := n / 2 in
    Ret (base + varint_size sb + sb)
  else Ret (base + 1).

(** Line 86: [item.get('scriptType') or identify_script_type(...)] *)
Definition output_script_type (item : dict) : json :=
  py_or (dict_get_none "scriptType" item)
        (JStr (identify_script_type
                 (dict_get_default "outputHash" (JStr "") item))).

(** [SCRIPT_TYPE_BYTES.get(st, SCRIPT_TYPE_BYTES['UNKNOWN'])]; a list or
    a dict is unhashable, any other key that is not a tag misses. *)
Definition script_type_bytes (st : json) : result Z :=
  match st with
  | JStr name =>
      Ret (match table_get name SCRIPT_TYPE_BYTES with
           | Some b => b
           | None => 43
           end)
  | JList _ => Raise TypeError
  | JDict _ => Raise TypeError
  | _ => Ret 43
  end.

(** [add_bytes_to_item(item, is_input)] *)
Definition add_bytes_to_item (item : dict) (is_input : bool) : result dict :=
  if is_input then
    let! b := calculate_input_bytes item in
    Ret (dict_set "bytes" (JInt b) item)
  else
    let st := output_script_type item in
    let item1 := dict_set "scriptType" st item in
    let! b := script_type_bytes st in
    Ret (dict_set "bytes" (JInt b) item1).

End Annotate.

(** ** script_address_classifier.py *)

Module Classifier.

(** [HEX_RE.fullmatch(s.strip())] for [^[0-9A-Fa-f]*$] *)
Definition is_valid_hex (s : string) : bool :=
  string_forallb is_hex_digit (strip s).

(** [utxo.get('scriptSig', {}).get(k, '').strip().lower()] *)
Definition scriptSig_field (k : string) (utxo : dict) : result string :=
  let! sig := as_dict (dict_get_default "scriptSig" (JDict []) utxo) in
  let! s := as_str (dict_get_default k (JStr "") sig) in
  Ret (lower (strip s)).

(** [len(witness) == 1] *)
Definition taproot_path (witness : json) : result string :=
  let! n := py_len witness in
  Ret (if n =? 1 then "P2TR_key_path" else "P2TR_script_path").

(** The body of [classify_utxo]; [self] stands for the recursive call. *)
Definition classify_body (self : dict -> result string) (utxo : dict)
  : result string :=
  let! addr0 := as_str (dict_get_default "inputHash" (JStr "") utxo) in
  let addr := strip addr0 in
  let! asm := scriptSig_field "asm" utxo in
  let! hex_sig := scriptSig_field "hex" utxo in
  let witness := dict_get_default "txinwitness" (JList []) utxo in
  if startswith addr "1" then Ret "P2PKH"
  else if startswith addr "bc1q" then
    Ret (if Zlength_str addr <? 45 then "P2WPKH" else "P2WSH")
  else if startswith addr "3" then
    let has_sig :=
      negb (String.eqb asm "") && negb (String.eqb hex_sig "")
      && is_valid_hex hex_sig in
    let has_wit := py_truthy witness in
    if (contains "0014" asm || startswith hex_sig "160014") && has_wit
    then Ret "P2SH-P2WPKH"
    else if (contains "0020" asm || startswith hex_sig "220020") && has_wit
    then Ret "P2SH-P2WSH"
    else if has_sig && negb has_wit then Ret "P2SH"
    else Ret "Non-Standard P2SH"
  else if startswith addr "bc1p" then taproot_path witness
  else
    let! st0 := as_str (dict_get_default "scriptType" (JStr "") utxo) in
    let st := upper st0 in
    if String.eqb st "P2SH" then self (dict_set "inputHash" (JStr "3") utxo)
    else if String.eqb st "P2TR" then taproot_path witness
    else Ret "Non-Standard".

(** [classify_utxo(utxo)].  The only recursive call passes the address
    ['3'], which the P2SH branch answers directly, so two unfoldings of
    the body are the whole function. *)
Definition classify_utxo (utxo : dict) : result string :=
  classify_body (classify_body (fun _ => Raise RecursionError)) utxo.

End Classifier.

(** ** The [json] module

    [json.loads] and [json.dumps(..., ensure_ascii=False)] are library
    code; the pipeline only relies on the interface below. *)

Class JsonCodec : Type := {
  loads : string -> option json;
  dumps : json -> string
}.

(** [json.loads(s)]: JSONDecodeError on malformed text. *)
Definition json_loads `{JsonCodec} (s : string) : result json :=
  match loads s with
  | Some v => Ret v
  | None => Raise JSONDecodeError
  end.

(** [records = data if isinstance(data, list) else [data]] *)
Definition records_of (data : json) : list json :=
  match data with
  | JList l => l
  | _ => [data]
  end.

(** [records if isinstance(data, list) else records[0]] *)
Definition data_of (data : json) (records : list json) : json :=
  match data with
  | JList _ => JList records
  | _ => match records with r :: _ => r | [] => JNull end
  end.

(** A loop that rewrites the items of a list while raising on the first
    failure. *)
Fixpoint mapM {A B : Type} (f : A -> result B) (l : list A) : result (list B) :=
  match l with
  | [] => Ret []
  | x :: l' => let! y := f x in let! ys := mapM f l' in Ret (y :: ys)
  end.

(** *** Well-formed documents and the round-trip law

    A document read by [json.loads] has no duplicate key in any of its
    objects, and [json.loads] reads back what [json.dumps] wrote. *)

Fixpoint nodup_keys (ks : list string) : bool :=
  match ks with
  | [] => true
  | k :: ks' => negb (existsb (String.eqb k) ks') && nodup_keys ks'
  end.

Fixpoint json_wf (v : json) : bool :=
  match v with
  | JList l => forallb json_wf l
  | JDict d => nodup_keys (map fst d) && forallb (fun kv => json_wf (snd kv)) d
  | _ => true
  end.

Class JsonRoundTrip (C : JsonCodec) : Prop := {
  loads_wf : forall s v, loads s = Some v -> json_wf v = true;
  loads_dumps : forall v, json_wf v = true -> loads (dumps v) = Some v
}.

(** *** A codec that satisfies the interface

    Not Python's concrete syntax: a self-delimiting binary numeral of
    the document's position in an enumeration of all documents.  It
    shows that the interface and its law can be met. *)

Module ReferenceCodec.

Inductive atom : Type :=
| ANull
| ABool (b : bool)
| AInt (z : Z)
| AFloat (f : spec_float)
| AStr (s : string).

Definition float_code (f : spec_float)
  : (bool + bool) + (unit + bool * positive * Z) :=
  match f with
  | S754_zero s => inl (inl s)
  | S754_infinity s => inl (inr s)
  | S754_nan => inr (inl tt)
  | S754_finite s m e => inr (inr (s, m, e))
  end.

Definition float_decode (c : (bool + bool) + (unit + bool * positive * Z))
  : spec_float :=
  match c with
  | inl (inl s) => S754_zero s
  | inl (inr s) => S754_infinity s
  | inr (inl _) => S754_nan
  | inr (inr (s, m, e)) => S754_finite s m e
  end.

#[local] Instance spec_float_eq_dec : EqDecision spec_float.
Proof. solve_decision. Defined.

#[local] Instance spec_float_countable : Countable spec_float.
Proof.
  refine (inj_countable' float_code float_decode _). now intros [].
Defined.

Definition atom_code (a : atom) : unit + bool + Z + spec_float + string :=
  match a with
  | ANull => inl (inl (inl (inl tt)))
  | ABool b => inl (inl (inl (inr b)))
  | AInt z => inl (inl (inr z))
  | AFloat f => inl (inr f)
  | AStr s => inr s
  end.

Definition atom_decode (c : unit + bool + Z + spec_float + string) : atom :=
  match c with
  | inl (inl (inl (inl _))) => ANull
  | inl (inl (inl (inr b))) => ABool b
  | inl (inl (inr z)) => AInt z
  | inl (inr f) => AFloat f
  | inr s => AStr s
  end.

#[local] Instance atom_eq_dec : EqDecision atom.
Proof. solve_decision. Defined.

#[local] Instance atom_countable : Countable atom.
Proof.
  refine (inj_countable' atom_code atom_decode _). now intros [].
Defined.

Fixpoint to_tree (v : json) : gen_tree atom :=
  match v with
  | JNull => GenLeaf ANull
  | JBool b => GenLeaf (ABool b)
  | JInt z => GenLeaf (AInt z)
  | JFloat f => GenLeaf (AFloat f)
  | JStr s => GenLeaf (AStr s)
  | JList l => GenNode 0 (map to_tree l)
  | JDict d =>
      GenNode 1 (map (fun kv => GenNode 2 [GenLeaf (AStr (fst kv)); to_tree (snd kv)]) d)
  end.

Fixpoint of_tree (t : gen_tree atom) : json :=
  match t with
  | GenLeaf ANull => JNull
  | GenLeaf (ABool b) => JBool b
  | GenLeaf (AInt z) => JInt z
  | GenLeaf (AFloat f) => JFloat f
  | GenLeaf (AStr s) => JStr s
  | GenNode 0 ts => JList (map of_tree ts)
  | GenNode _ ts =>
      JDict (map (fun t' =>
                    match t' with
                    | GenNode _ [GenLeaf (AStr k); tv] => (k, of_tree tv)
                    | _ => (EmptyString, JNull)
                    end) ts)
  end.

Fixpoint pos_to_bits (p : positive) : string :=
  match p with
  | xH => EmptyString
  | xO p' => String "0"%char (pos_to_bits p')
  | xI p' => String "1"%char (pos_to_bits p')
  end.

Fixpoint bits_to_pos (s : string) : option positive :=
  match s with
  | EmptyString => Some xH
  | String c s' =>
      match bits_to_pos s' with
      | Some p =>
          if Ascii.eqb c "0"%char then Some (xO p)
          else if Ascii.eqb c "1"%char then Some (xI p)
          else None
      | None => None
      end
  end.

Definition ref_loads (s : string) : option json :=
  match bits_to_pos s with
  | Some p =>
      match decode p with
      | Some t => let v := of_tree t in if json_wf v then Some v else None
      | None => None
      end
  | None => None
  end.

Definition ref_dumps (v : json) : string := pos_to_bits (encode (to_tree v)).

Definition codec : JsonCodec := {| loads := ref_loads; dumps := ref_dumps |}.

End ReferenceCodec.

(** ** compute_attack_metrics.py *)

Module Cost.

Section WithCodec.
Context `{JsonCodec}.

Definition DEFAULT_FEE_RATE : Z := 1.

Definition f1e8 : pyfloat := float_lit 100000000 1.
Definition f100 : pyfloat := float_lit 100 1.

(** [b * max(r, DEFAULT_FEE_RATE) / 1e8].  [max] keeps its first
    argument unless the second is strictly greater; when it answers the
    [int] 1 the product [b * 1] is still an [int], which the division
    converts. *)
Definition cost_value (b : Z) (r : pyfloat) : result pyfloat :=
  let! fb := float_of_int b in
  if flt r (float_lit DEFAULT_FEE_RATE 1)
  then Ret (fdiv fb f1e8)
  else Ret (fdiv (fmul fb r) f1e8).

(** The [try] block of [calculate_cost_btc]; [None] is [Ret None]. *)
Definition calculate_cost_btc_body (utxo_entry fee_rate : json)
  : result (option string) :=
  let! utxo_entry :=
    match utxo_entry with
    | JStr s => json_loads s
    | _ => Ret utxo_entry
    end in
  match utxo_entry with
  | JDict d =>
      let! b := py_int (dict_get_default "bytes" (JInt 0) d) in
      let! r := py_float (py_or fee_rate (JInt 0)) in
      let! cost := cost_value b r in
      Ret (Some (format_fixed 8 cost))
  | _ => Ret None
  end.

(** [calculate_cost_btc(utxo_entry, fee_rate)] *)
Definition calculate_cost_btc (utxo_entry fee_rate : json) : option string :=
  try_except (calculate_cost_btc_body utxo_entry fee_rate) None.

(** [json.loads(raw) if is_str else raw] *)
Definition load_if_str (raw : json) : result json :=
  match raw with
  | JStr s => json_loads s
  | _ => Ret raw
  end.

(** [json.dumps(value, ensure_ascii=False) if is_str else value] *)
Definition dump_if_str (raw value : json) : json :=
  match raw with
  | JStr _ => JStr (dumps value)
  | _ => value
  end.

(** The [cost is not None] block: tag the entry, add to the total. *)
Definition tag_cost (key : string) (fee_rate : json) (d : dict)
  (total : pyfloat) : result (dict * pyfloat) :=
  match calculate_cost_btc (JDict d) fee_rate with
  | Some cost =>
      let! c := float_of_string cost in
      Ret (dict_set key (JStr cost) d, fadd total c)
  | None => Ret (d, total)
  end.

(** One turn of [for item in entries]. *)
Definition input_step (fee_rate : json) (acc : list json * pyfloat)
  (item : json) : result (list json * pyfloat) :=
  let '(done, total) := acc in
  match item with
  | JDict d =>
      let! '(d', total') := tag_cost "victim_cost_btc" fee_rate d total in
      Ret ((done ++ [JDict d'])%list, total')
  | _ => Ret ((done ++ [item])%list, total)
  end.

(** Lines 64-75: the [if]/[elif] on the kind of [entries]. *)
Definition tag_entries (fee_rate entries : json) (total_victim : pyfloat)
  : result (json * pyfloat) :=
  match entries with
  | JDict d =>
      let! '(d', total) :=
        tag_cost "victim_cost_btc" fee_rate d total_victim in
      Ret (JDict d', total)
  | JList items =>
      let! '(items', total) :=
        foldM (input_step fee_rate) items ([], total_victim) in
      Ret (JList items', total)
  | _ => Ret (entries, total_victim)
  end.

(** Lines 57-77: the input side of one transaction. *)
Definition recompute_inputs (tx : dict) : result dict :=
  let total_victim := fzero in
  let fee_rate := dict_get_default "Txn Fee Rate" (JInt 0) tx in
  let inputs := dict_get_none "Txn Input UTXO Details" tx in
  let! '(tx1, total_victim) :=
    if is_none inputs then Ret (tx, total_victim)
    else
      let raw := inputs in
      let! entries := load_if_str raw in
      let! '(entries', total) := tag_entries fee_rate entries total_victim in
      Ret (dict_set "Txn Input UTXO Details" (dump_if_str raw entries') tx,
           total) in
  Ret (dict_set "total_victim_cost_btc"
         (JStr (format_fixed 8 total_victim)) tx1).

(** Lines 89-92: [entry['attack_cost_btc'] = cost] needs a dict. *)
Definition tag_attack (rate_out entry : json) (total_attack : pyfloat)
  : result (json * pyfloat) :=
  match calculate_cost_btc entry rate_out with
  | Some cost =>
      match entry with
      | JDict d =>
          let! c := float_of_string cost in
          Ret (JDict (dict_set "attack_cost_btc" (JStr cost) d),
               fadd total_attack c)
      | _ => Raise TypeError
      end
  | None => Ret (entry, total_attack)
  end.

(** One turn of [for sent in tx.get('sent_utxo_uxns', [])]. *)
Definition sent_step (acc : list json * pyfloat) (sent : json)
  : result (list json * pyfloat) :=
  let '(done, total_attack) := acc in
  let! sd := as_dict sent in
  let outputs := dict_get_none "Txn Output UTXO Details" sd in
  let rate_out := dict_get_default "Txn Fee Rate" (JInt 0) sd in
  if is_none outputs then Ret ((done ++ [sent])%list, total_attack)
  else
    let raw_out := outputs in
    let! entry := load_if_str raw_out in
    let! '(entry', total) := tag_attack rate_out entry total_attack in
    Ret ((done ++ [JDict (dict_set "Txn Output UTXO Details"
                            (dump_if_str raw_out entry') sd)])%list,
         total).

(** Lines 80-94: the attacker side of one transaction. *)
Definition recompute_attack (tx : dict) : result dict :=
  let total_attack := fzero in
  let sents := dict_get_default "sent_utxo_uxns" (JList []) tx in
  let! items := py_iter sents in
  let! '(items', total_attack) := foldM sent_step items ([], total_attack) in
  let tx1 :=
    match sents with
    | JList _ =>
        if dict_mem "sent_utxo_uxns" tx
        then dict_set "sent_utxo_uxns" (JList items') tx
        else tx
    | _ => tx
    end in
  Ret (dict_set "total_attack_cost_btc"
         (JStr (format_fixed 8 total_attack)) tx1).

(** [d[k]]: KeyError on a missing key. *)
Definition dict_item (k : string) (d : dict) : result json :=
  match dict_get k d with
  | Some v => Ret v
  | None => Raise KeyError
  end.

(** [(vc / ac * 100) if ac > 0 else 0.0] *)
Definition effect_value (vc ac : pyfloat) : pyfloat :=
  if flt fzero ac then fmul (fdiv vc ac) f100 else fzero.

(** Lines 97-99: the attack effect percentage. *)
Definition recompute_effect (tx : dict) : result dict :=
  let! v := dict_item "total_victim_cost_btc" tx in
  let! vc := py_float v in
  let! a := dict_item "total_attack_cost_btc" tx in
  let! ac := py_float a in
  Ret (dict_set "attack_effect" (JStr (format_fixed 2 (effect_value vc ac))) tx).

(** The body of [for tx in records]. *)
Definition process_tx (tx : json) : result json :=
  let! d := as_dict tx in
  let! d1 := recompute_inputs d in
  let! d2 := recompute_attack d1 in
  let! d3 := recompute_effect d2 in
  Ret (JDict d3).

(** The record set after the loop, as handed to [json.dump]. *)
Definition process_data (data : json) : result json :=
  let! records := mapM process_tx (records_of data) in
  Ret (data_of data records).

(** [process_file(path)] on the text of the file: [Ret None] when the
    file does not parse (the function returns [False]), [Ret (Some out)]
    when [out] is handed to [json.dump], [Raise e] when [e] escapes. *)
Definition process_file (text : string) : result (option json) :=
  match loads text with
  | None => Ret None
  | Some data => let! out := process_data data in Ret (Some out)
  end.

End WithCodec.

End Cost.

(** ** dust_attacker_filtration.py *)

Module Dust.

(** [float(sub.get('Txn Fee Rate', 0))] *)
Definition sub_fee_rate (sub : json) : result pyfloat :=
  let! d := as_dict sub in
  py_float (dict_get_default "Txn Fee Rate" (JInt 0) d).

(** One turn of the inner loop of [extract_fee_rates]; the handler is
    [except (TypeError, ValueError): continue]. *)
Definition rates_step (rates : list pyfloat) (sub : json)
  : result (list pyfloat) :=
  match sub_fee_rate sub with
  | Ret rate => Ret (rates ++ [rate])%list
  | Raise TypeError => Ret rates
  | Raise ValueError => Ret rates
  | Raise e => Raise e
  end.

(** [record.get('sent_utxo_uxns', [])], as the loop visits it. *)
Definition sub_transactions (record : json) : result (list json) :=
  let! d := as_dict record in
  py_iter (dict_get_default "sent_utxo_uxns" (JList []) d).

Definition record_rates (rates : list pyfloat) (record : json)
  : result (list pyfloat) :=
  let! subs := sub_transactions record in
  foldM rates_step subs rates.

(** [extract_fee_rates], after the file is loaded. *)
Definition extract_fee_rates (data : json) : result (list pyfloat) :=
  foldM record_rates (records_of data) [].

(** The inner loop of [annotate_transactions]: the value of [is_dust]
    when it ends. *)
Fixpoint is_dust_loop (upper_threshold : pyfloat) (subs : list json)
  : result bool :=
  match subs with
  | [] => Ret true
  | sub :: rest =>
      match sub_fee_rate sub with
      | Ret rate =>
          if flt upper_threshold rate then Ret false
          else is_dust_loop upper_threshold rest
      | Raise TypeError => is_dust_loop upper_threshold rest
      | Raise ValueError => is_dust_loop upper_threshold rest
      | Raise e => Raise e
      end
  end.

(** The body of [for record in records]. *)
Definition annotate_record (upper_threshold : pyfloat) (record : json)
  : result (json * bool) :=
  let! d := as_dict record in
  let! subs := sub_transactions record in
  let! is_dust := is_dust_loop upper_threshold subs in
  Ret (JDict (dict_set "dust_attacker" (JStr (if is_dust then "1" else "0")) d),
       is_dust).

(** Lines 62-75: the loop over the records.  The labelled data as it
    stands in memory when the loop ends, [processed] and
    [filtered_out]. *)
Definition label_records (upper_threshold : pyfloat) (data : json)
  : result (json * Z * Z) :=
  let! labelled := mapM (annotate_record upper_threshold) (records_of data) in
  let processed := Z.of_nat (List.length labelled) in
  let filtered_out :=
    Z.of_nat (List.length (filter (fun r => negb (snd r)) labelled)) in
  Ret (data_of data (map fst labelled), processed, filtered_out).

(** Lines 77-85: what the write does with the file that
    [open(file_path, 'w')] has truncated.  With [orjson] imported
    (lines 19-24), [dump_json_bytes] hands the [bytes] of
    [orjson.dumps] to [fp.write] of a file opened in text mode: a
    TypeError, which [except Exception: pass] swallows, and the file
    stays empty.  On the fallback (lines 25-30), [json.dump] is called
    on the labelled data. *)
Inductive file_write : Type :=
| Truncated
| JsonDump (obj : json).

Definition write_back (orjson : bool) (data : json) : file_write :=
  if orjson then Truncated else JsonDump data.

(** [annotate_transactions], after the file is loaded; [orjson] says
    whether the import of line 20 succeeded.  What the write does,
    [processed] and [filtered_out]. *)
Definition annotate_transactions (orjson : bool) (upper_threshold : pyfloat)
  (data : json) : result (file_write * Z * Z) :=
  let! '(labelled, processed, filtered_out) :=
    label_records upper_threshold data in
  Ret (write_back orjson labelled, processed, filtered_out).

(** *** [numpy.percentile] *)

Fixpoint insert_sorted (x : pyfloat) (l : list pyfloat) : list pyfloat :=
  match l with
  | [] => [x]
  | y :: l' => if fle x y then x :: l else y :: insert_sorted x l'
  end.

Definition sort_floats (l : list pyfloat) : list pyfloat :=
  fold_right insert_sorted [] l.

(** [floor] of a float, as an index. *)
Definition float_floor (f : pyfloat) : Z :=
  match f with
  | S754_finite neg m e =>
      let sm := if neg then Z.neg m else Z.pos m in
      if 0 <=? e then sm * 2 ^ e else sm / 2 ^ (- e)
  | _ => 0
  end.

(** Indexing with numpy's negative indices. *)
Definition np_item (a : list pyfloat) (i : Z) : pyfloat :=
  let j := if i <? 0 then Z.of_nat (List.length a) + i else i in
  nth (Z.to_nat j) a S754_nan.

(** numpy's [_lerp(a, b, t)] *)
Definition lerp (a b t : pyfloat) : pyfloat :=
  let diff_b_a := fsub b a in
  if fle (float_lit 1 2) t
  then fsub b (fmul diff_b_a (fsub (float_lit 1 1) t))
  else fadd a (fmul diff_b_a t).

(** Modelled from the spec: [numpy.percentile(arr, q)] is library code,
    not part of the sources; this is its default "linear" method as the
    library documents it.  The sample is sorted, the virtual index is
    [(n - 1) * q / 100], and the answer interpolates linearly between
    the two neighbouring order statistics; a sample holding a NaN has a
    NaN percentile. *)
Definition np_percentile (arr : list pyfloat) (q : Z) : pyfloat :=
  if existsb is_nan arr then S754_nan
  else
    let sorted := sort_floats arr in
    let last := binary_normalize prec emax (Z.of_nat (List.length arr) - 1) 0 false in
    let quantile := fdiv (float_lit q 1) (float_lit 100 1) in
    let virtual_index := fmul last quantile in
    let above := fle last virtual_index in
    let previous_index := if above then -1 else float_floor virtual_index in
    let next_index := if above then -1 else previous_index + 1 in
    let gamma :=
      fsub virtual_index (binary_normalize prec emax previous_index 0 false) in
    lerp (np_item sorted previous_index) (np_item sorted next_index) gamma.

(** Lines 112-120 of [main]: the corpus-wide threshold, [None] when no
    fee rate was collected. *)
Definition upper_threshold (all_rates : list pyfloat) : option pyfloat :=
  match all_rates with
  | [] => None
  | _ =>
      let q1 := np_percentile all_rates 25 in
      let q3 := np_percentile all_rates 75 in
      let iqr := fsub q3 q1 in
      let m := float_lit 3 2 in
      Some (fadd q3 (fmul m iqr))
  end.

End Dust.

(** ** annotate_utxo_script_bytes.py: the detail fields *)

Module AnnotateDetails.

Import Annotate.

(** The two statements under a test [key in entry]: the entry is typed
    from its address, then sized.  The entry is a Python object that the
    statements update in place, so what an exception leaves behind is
    part of the answer: the entry as it stands, and the exception. *)
Definition tag_entry (key : string) (is_input : bool) (entry : json)
  : json * option exn :=
  match entry with
  | JDict d =>
      let d1 :=
        dict_set "scriptType"
          (JStr (identify_script_type (dict_get_default key (JStr "") d))) d in
      match add_bytes_to_item d1 is_input with
      | Ret d2 => (JDict d2, None)
      | Raise e => (JDict d1, Some e)
      end
  | _ => (entry, Some AttributeError)
  end.

(** The body of the loops over a list: [try_input] and [try_output] say
    which of the tests ['inputHash' in entry] and ['outputHash' in
    entry] the loop makes. *)
Definition annotate_entry (try_input try_output : bool) (entry : json)
  : json * option exn :=
  match (if try_input then py_in "inputHash" entry else Ret false) with
  | Raise e => (entry, Some e)
  | Ret true => tag_entry "inputHash" true entry
  | Ret false =>
      match (if try_output then py_in "outputHash" entry else Ret false) with
      | Raise e => (entry, Some e)
      | Ret true => tag_entry "outputHash" false entry
      | Ret false => (entry, None)
      end
  end.

(** [for i, entry in enumerate(obj)]: the loop stops at the first
    exception, with the entries before it updated. *)
Fixpoint annotate_entries (try_input try_output : bool) (entries : list json)
  : list json * option exn :=
  match entries with
  | [] => ([], None)
  | entry :: rest =>
      match annotate_entry try_input try_output entry with
      | (entry', Some e) => (entry' :: rest, Some e)
      | (entry', None) =>
          let '(rest', e) := annotate_entries try_input try_output rest in
          (entry' :: rest', e)
      end
  end.

(** Lines 99-110: the [if]/[elif] of [process_utxo_details]. *)
Definition annotate_object (obj : json) : json * option exn :=
  match obj with
  | JList l =>
      let '(l', e) := annotate_entries true true l in (JList l', e)
  | JDict d =>
      let is_input := dict_mem "inputHash" d in
      tag_entry (if is_input then "inputHash" else "outputHash") is_input obj
  | _ => (obj, None)
  end.

(** Lines 123-130: the [if] of [process_transaction_list]. *)
Definition annotate_list (is_input : bool) (arr : json) : json * option exn :=
  match arr with
  | JList l =>
      let '(l', e) := annotate_entries is_input (negb is_input) l in
      (JList l', e)
  | _ => (arr, None)
  end.

Section WithCodec.
Context `{JsonCodec}.

(** The frame shared by the two functions: a falsy value is handed
    back; a string is parsed, annotated and printed again, or handed
    back as it was if anything raises; any other value is annotated in
    place, and handed back as far as the annotation got. *)
Definition process_details (annotate : json -> json * option exn)
  (details : json) : json :=
  if negb (py_truthy details) then details
  else
    match details with
    | JStr s =>
        match loads s with
        | None => details
        | Some obj =>
            match annotate obj with
            | (obj', None) => JStr (dumps obj')
            | (_, Some _) => details
            end
        end
    | _ => fst (annotate details)
    end.

(** [process_utxo_details(details)] *)
Definition process_utxo_details : json -> json :=
  process_details annotate_object.

(** [process_transaction_list(details, is_input)] *)
Definition process_transaction_list (details : json) (is_input : bool) : json :=
  process_details (annotate_list is_input) details.

End WithCodec.

End AnnotateDetails.

(** ** annotate_utxo_script_bytes.py: the file pass *)

Module AnnotateFile.

Import Annotate AnnotateDetails.

(** [mapping]: the amounts of the input UTXOs, by transaction id. *)
Definition mapping : Type := list (json * list pyfloat).

(** [mapping.get(tid, [])] *)
Fixpoint mapping_get (tid : json) (m : mapping) : list pyfloat :=
  match m with
  | [] => []
  | (k, xs) :: m' => if key_eqb tid k then xs else mapping_get tid m'
  end.

(** [mapping.setdefault(tid, []).append(x)] *)
Fixpoint mapping_append (tid : json) (x : pyfloat) (m : mapping) : mapping :=
  match m with
  | [] => [(tid, [x])]
  | (k, xs) :: m' =>
      if key_eqb tid k then (k, (xs ++ [x])%list) :: m'
      else (k, xs) :: mapping_append tid x m'
  end.

(** A record on which [key in v] is tested for each of [keys] (with
    [v[key]] read when the test succeeds) and [v.get] is called then:
    on a value that is not a dict the tests fail with TypeError or
    succeed on an index that is TypeError, and [.get] is
    AttributeError. *)
Fixpoint as_record (keys : list string) (v : json) : result dict :=
  match v with
  | JDict d => Ret d
  | _ =>
      match keys with
      | [] => Raise AttributeError
      | k :: keys' =>
          let! present := py_in k v in
          if present then Raise TypeError else as_record keys' v
      end
  end.

(** [if key in tx: tx[key] = f(tx[key])] *)
Definition update_field (key : string) (f : json -> json) (tx : dict) : dict :=
  match dict_get key tx with
  | Some v => dict_set key (f v) tx
  | None => tx
  end.

(** One turn of [for u in inp]. *)
Definition mapping_step (m : mapping) (u : json) : result mapping :=
  let! d := as_dict u in
  let tid := dict_get_none "txid" d in
  let amt := dict_get_none "amount" d in
  if py_truthy tid && py_truthy amt then
    if hashable tid then
      let! x := py_float amt in
      Ret (mapping_append tid x m)
    else Raise TypeError
  else Ret m.

(** [abs(a - x) < 1e-8] *)
Definition amount_close (a x : pyfloat) : bool :=
  flt (SFabs (fsub a x)) (float_lit 1 100000000).

(** The test of [for o in outs], for the amounts [cand] found under the
    transaction id: with no amount, [o] is not looked at. *)
Definition amount_matches (cand : list pyfloat) (o : json)
  : result (option dict) :=
  match cand with
  | [] => Ret None
  | _ =>
      let! d := as_dict o in
      let! a := py_float (dict_get_default "amount" (JInt 0) d) in
      Ret (if existsb (amount_close a) cand then Some d else None)
  end.

(** [for o in outs: if any(...): matched = o; break], with the position
    of the match. *)
Fixpoint find_matched (m : mapping) (tid : json) (outs : list json) (i : nat)
  : result (option (nat * dict)) :=
  match outs with
  | [] => Ret None
  | o :: rest =>
      let! cand := (if hashable tid then Ret (mapping_get tid m)
                    else Raise TypeError) in
      let! hit := amount_matches cand o in
      match hit with
      | Some d => Ret (Some (i, d))
      | None => find_matched m tid rest (S i)
      end
  end.

(** [l[i] = v] *)
Fixpoint list_set (l : list json) (i : nat) (v : json) : list json :=
  match l, i with
  | [], _ => []
  | _ :: l', O => v :: l'
  | x :: l', S i' => x :: list_set l' i' v
  end.

Section WithCodec.
Context `{JsonCodec}.

(** Lines 154-155 and 171-172: the output field, annotated when it is
    there. *)
Definition annotate_outputs (tx : dict) : dict :=
  update_field "Txn Output Details"
    (fun v => process_transaction_list v false) tx.

(** Lines 159-163: the input UTXOs, [[]] when the field does not
    parse. *)
Definition input_utxos (tx : dict) : json :=
  match dict_get_default "Txn Input UTXO Details" (JList []) tx with
  | JStr s => match loads s with Some v => v | None => JList [] end
  | v => v
  end.

(** Lines 174-177: the outputs of a sub-transaction. *)
Definition output_list (s : dict) : json :=
  match dict_get "Txn Output Details" s with
  | Some (JStr t) => match loads t with Some v => v | None => JList [] end
  | Some v => v
  | None => JList []
  end.

(** Lines 187-190: the matched output, typed and sized. *)
Definition annotate_matched (o : dict) : result dict :=
  add_bytes_to_item
    (dict_set "scriptType"
       (JStr (identify_script_type (dict_get_default "outputHash" (JStr "") o)))
       o)
    false.

(** One turn of [for k, v in s.items()]; [tod] is the value of the
    output field as the annotation of the matched output leaves it, and
    [utxo] the value of the new field. *)
Definition rebuild_step (tod utxo : json) (ordered : dict) (kv : string * json)
  : dict :=
  if String.eqb (fst kv) "Txn Output Details"
  then dict_set "Txn Output UTXO Details" utxo (dict_set (fst kv) tod ordered)
  else dict_set (fst kv) (snd kv) ordered.

(** The body of [for i, s in enumerate(sent)].  The matched output is an
    element of [outs]; when [outs] is the list held by the record (and
    not parsed from a string), annotating the match updates that
    list. *)
Definition process_sent (m : mapping) (sent : json) : result json :=
  let! s0 := as_record ["Txn Output Details"] sent in
  let s := annotate_outputs s0 in
  let tid := dict_get_none "Txn Hash" s in
  let raw := dict_get_none "Txn Output Details" s in
  let! outs := py_iter (output_list s) in
  let! matched := find_matched m tid outs 0 in
  let! '(tod, utxo) :=
    match matched with
    | Some (i, o) =>
        if py_truthy (JDict o) then
          let! o' := annotate_matched o in
          Ret (match raw with
               | JList l => JList (list_set l i (JDict o'))
               | _ => raw
               end,
               JStr (dumps (JDict o')))
        else Ret (raw, JStr "[]")
    | None => Ret (raw, JStr "[]")
    end in
  Ret (JDict (fold_left (rebuild_step tod utxo) s [])).

(** The body of [for tx in records]. *)
Definition process_record (record : json) : result json :=
  let! tx0 :=
    as_record ["Txn Input UTXO Details"; "Txn Input Details";
               "Txn Output Details"] record in
  let tx1 := update_field "Txn Input UTXO Details" process_utxo_details tx0 in
  let tx2 :=
    update_field "Txn Input Details"
      (fun v => process_transaction_list v true) tx1 in
  let tx := annotate_outputs tx2 in
  match dict_get_default "sent_utxo_uxns" (JList []) tx with
  | JList sent =>
      let! inp := py_iter (input_utxos tx) in
      let! m := foldM mapping_step inp [] in
      let! sent' := mapM (process_sent m) sent in
      Ret (JDict (if dict_mem "sent_utxo_uxns" tx
                  then dict_set "sent_utxo_uxns" (JList sent') tx
                  else tx))
  | _ => Ret (JDict tx)
  end.

(** [process_file(path, input_dir, output_dir)] on the text of the
    file: [Ret None] when the file does not parse (nothing is written),
    [Ret (Some out)] when [out] is written to the destination. *)
Definition process_file (text : string) : result (option json) :=
  match loads text with
  | None => Ret None
  | Some data =>
      let! records := mapM process_record (records_of data) in
      Ret (Some (data_of data records))
  end.

End WithCodec.

End AnnotateFile.

(** ** script_address_classifier.py: the file pass *)

Module ClassifierFile.

Import Classifier.

(** [counts[cat] += 1] on a [defaultdict(int)] *)
Fixpoint count_tag (cat : string) (counts : list (string * Z))
  : list (string * Z) :=
  match counts with
  | [] => [(cat, 1)]
  | (c, n) :: rest =>
      if String.eqb cat c then (c, n + 1) :: rest
      else (c, n) :: count_tag cat rest
  end.

(** [counts] and [total_utxos] *)
Definition tally : Type := (list (string * Z) * Z)%type.

Section WithCodec.
Context `{JsonCodec}.

(** One turn of [for utxo in arr]. *)
Definition classify_entry (acc : list json * tally) (utxo : json)
  : result (list json * tally) :=
  let '(updated, (counts, total_utxos)) := acc in
  match utxo with
  | JDict d =>
      let! cat := classify_utxo d in
      Ret ((updated ++ [JDict (dict_set "scriptType" (JStr cat) d)])%list,
           (count_tag cat counts, total_utxos + 1))
  | _ => Ret ((updated ++ [utxo])%list, (counts, total_utxos))
  end.

(** One turn of [for key in (...)].  [loads s = None] stands for
    [json.loads] raising JSONDecodeError, which line 87 catches: the
    field is skipped.  The other ways [json.loads] can fail
    (RecursionError on deep nesting, ValueError on an over-long
    numeral) are not caught there; the codec interface does not
    describe them. *)
Definition classify_field (key : string) (acc : dict * tally)
  : result (dict * tally) :=
  let '(tx, t) := acc in
  let raw := dict_get_default key (JStr "[]") tx in
  match (match raw with JStr s => loads s | _ => Some raw end) with
  | None => Ret (tx, t)
  | Some arr =>
      let! items := py_iter arr in
      let! '(updated, t') := foldM classify_entry items ([], t) in
      Ret (dict_set key
             (match raw with
              | JStr _ => JStr (dumps (JList updated))
              | _ => JList updated
              end) tx,
           t')
  end.

(** The body of [for tx in records]. *)
Definition classify_record (acc : list json * tally) (tx : json)
  : result (list json * tally) :=
  let '(done, t) := acc in
  let! d := as_dict tx in
  let! '(d1, t1) := classify_field "Txn Input Details" (d, t) in
  let! '(d2, t2) := classify_field "Txn Input UTXO Details" (d1, t1) in
  Ret ((done ++ [JDict d2])%list, t2).

(** [process_file(path)] on the text of the file: the data handed to
    [json.dump] at lines 100-101 ([None] when the file does not load and
    nothing is written), the counts and the total. *)
Definition process_file (text : string) : result (option json * tally) :=
  match loads text with
  | None => Ret (None, ([], 0))
  | Some data =>
      let! '(records, t) := foldM classify_record (records_of data) ([], ([], 0)) in
      Ret (Some (data_of data records), t)
  end.

End WithCodec.

End ClassifierFile.

(** ** Reference definitions, following the specification's wording *)

(** The ceiling of [a / b] over the integers. *)
Definition ceil_div (a b : Z) : Z := - ((- a) / b).

Module Reference.

(** Bytes of a hex-encoded item: two hex characters per byte. *)
Definition hex_bytes (h : string) : Z := Zlength_str h / 2.

(** [varint(n)]: 1 below 253, 3 below 65536, 5 otherwise. *)
Definition varint (n : Z) : Z :=
  if n <? 253 then 1 else if n <? 65536 then 3 else 5.

(** [Σ over witness items (varint(itemBytes) + itemBytes)] *)
Fixpoint witness_items_size (wit : list string) : Z :=
  match wit with
  | [] => 0
  | w :: wit' => varint (hex_bytes w) + hex_bytes w + witness_items_size wit'
  end.

(** [weight = base_size * 4 + witness_size] *)
Definition weight (hex : string) (wit : list string) : Z :=
  let sb := hex_bytes hex in
  4 * (40 + varint sb + sb) + 1 + witness_items_size wit.

(** The virtual size of an input. *)
Definition input_bytes (hex : string) (wit : list string) : Z :=
  let sb := hex_bytes hex in
  match wit with
  | _ :: _ => ceil_div (weight hex wit) 4
  | [] => if String.eqb hex "" then 41 else 40 + varint sb + sb
  end.

(** A decimal numeral with exactly [p] digits after the point: an
    optional minus sign, at least one digit, the point, [p] digits. *)
Definition fixed_point_shape (p : nat) (s : string) : bool :=
  let body := match s with String "-"%char r => r | _ => s end in
  let '(ip, rest) := span_while is_digit body in
  negb (String.eqb ip "")
  && match rest with
     | String "."%char fp =>
         Nat.eqb (String.length fp) p && string_forallb is_digit fp
     | _ => false
     end.

(** The fixed output table. *)
Definition output_bytes (script_type : string) : Z :=
  if String.eqb script_type "P2PKH" then 34
  else if String.eqb script_type "P2SH" then 32
  else if String.eqb script_type "P2WPKH" then 31
  else if String.eqb script_type "P2WSH" then 43
  else if String.eqb script_type "P2TR" then 43
  else if String.eqb script_type "OP_RETURN" then 0
  else 43.

(** The quartile [k] (1 or 3) of a sample in ascending order, by linear
    interpolation.  The position is [k * (n - 1) / 4]; the quartile
    lies between the values [a] and [b] of rank [floor position] and
    [floor position + 1], at the fraction [t = position - floor position]
    of the way from [a] to [b], evaluated in binary64 from the nearer of
    the two: [a + (b - a) * t] below the middle, [b - (b - a) * (1 - t)]
    from the middle on. *)
Definition quartile (k : Z) (ascending : list pyfloat) : pyfloat :=
  let n := Z.of_nat (List.length ascending) in
  let rank := k * (n - 1) / 4 in
  let quarters := k * (n - 1) mod 4 in
  let a := nth (Z.to_nat rank) ascending S754_nan in
  let b := nth (Z.to_nat (rank + 1)) ascending S754_nan in
  let t := float_lit quarters 4 in
  if quarters <? 2 then fadd a (fmul (fsub b a) t)
  else fsub b (fmul (fsub b a) (fsub (float_lit 1 1) t)).

End Reference.

(** [s * n] *)
Fixpoint string_repeat (s : string) (n : nat) : string :=
  match n with
  | O => EmptyString
  | S n' => String.append s (string_repeat s n')
  end.

(** ** Predicates and data used in the statements *)

(** The scriptSig of the descriptor can be read: it is missing or a
    dict, and so are its [asm] and [hex] entries missing or strings. *)
Definition scriptSig_readable (utxo : dict) : bool :=
  is_ret (Classifier.scriptSig_field "asm" utxo) && is_ret (Classifier.scriptSig_field "hex" utxo).

(** The tags [classify_utxo] can answer. *)
Definition classifier_tags : list string :=
  [ "P2PKH"; "P2WPKH"; "P2WSH"; "P2SH-P2WPKH"; "P2SH-P2WSH"; "P2SH";
    "Non-Standard P2SH"; "P2TR_key_path"; "P2TR_script_path"; "Non-Standard" ].

(** The fee rates of a list of sub-transactions as the passes read
    them: a rate that cannot be converted is skipped. *)
Definition fee_rates (subs : list json) : result (list pyfloat) :=
  foldM Dust.rates_step subs [].

(** A character that [strip] leaves alone. *)
Definition plain (c : ascii) : bool := negb (is_space c).

(** *** Example records *)

(** The two inputs of the size examples. *)
Definition legacy_input_50 : dict :=
  [ ("inputHash", JStr "1BoatSLRHtKNngkdXEeobR76b53LETtpyT");
    ("scriptSig", JDict [("asm", JStr ""); ("hex", JStr (string_repeat "ab" 50))]) ].

Definition segwit_input_2x64 : dict :=
  [ ("inputHash", JStr "bc1qar0srrr7xfkvy5l643lydnw9re59gtzzwf5mdq");
    ("scriptSig", JDict [("asm", JStr ""); ("hex", JStr "")]);
    ("txinwitness", JList [ JStr (string_repeat "30" 64);
                            JStr (string_repeat "02" 64) ]) ].

Definition p2tr_output : dict :=
  [ ("outputHash", JStr "bc1p5cyxnuxmeuwuvkwfem96lqzszd02n6xdcjrs20cac6yqjjwudpxqkedrcr");
    ("scriptPubKey", JStr (string_repeat "51" 34)) ].

Definition op_return_output : dict :=
  [ ("outputHash", JStr "OP_RETURN 6a24aa21a9ed");
    ("scriptType", JStr "OP_RETURN");
    ("scriptPubKey", JStr (string_repeat "6a" 80)) ].

Definition taproot_no_witness : dict :=
  [ ("inputHash", JStr "bc1p5cyxnuxmeuwuvkwfem96lqzszd02n6xdcjrs20cac6yqjjwudpxqkedrcr");
    ("scriptSig", JDict [("asm", JStr ""); ("hex", JStr "")]) ].

Definition taproot_empty_witness : dict :=
  (taproot_no_witness ++ [("txinwitness", JList [])])%list.

Definition taproot_one_witness : dict :=
  (taproot_no_witness ++ [("txinwitness", JList [JStr (string_repeat "a1" 64)])])%list.

(** The binary64 value of [z * 2^e] for [0 < z < 2^53]: the mantissa is
    brought to 53 bits. *)
Definition canon (z e : Z) : pyfloat :=
  S754_finite false (Z.to_pos (z * 2 ^ (53 - Zdigits2 z)))
    (e - (53 - Zdigits2 z)).

(** The sample of the threshold example, and records on either side of
    its threshold. *)
Definition fee_sample : list pyfloat :=
  map (fun z => float_lit z 1) [1; 2; 3; 4; 5; 6; 7; 8; 9; 100].

Definition low_fee_record : dict :=
  [ ("Txn Hash", JStr "a1");
    ("sent_utxo_uxns",
     JList [ JDict [("Txn Fee Rate", JStr "14.5")];
             JDict [("Txn Fee Rate", JInt 3)] ]) ].

Definition high_fee_record : dict :=
  [ ("Txn Hash", JStr "b2");
    ("sent_utxo_uxns",
     JList [ JDict [("Txn Fee Rate", JInt 3)];
             JDict [("Txn Fee Rate", JInt 20)] ]) ].

(** A transaction whose victim pays for 10000 bytes and whose attacker
    pays for 5000, both at the floor rate; its input field is a nested
    JSON string. *)
Definition encoded_inputs : string :=
  Eval vm_compute in
    ReferenceCodec.ref_dumps (JList [JDict [("bytes", JInt 10000)]]).

Definition example_tx : dict :=
  [ ("Txn Fee Rate", JFloat (float_lit 1 2));
    ("Txn Input UTXO Details", JStr encoded_inputs);
    ("sent_utxo_uxns",
     JList [ JDict [ ("Txn Fee Rate", JInt 0);
                     ("Txn Output UTXO Details",
                      JDict [("bytes", JInt 5000)]) ] ]) ].

(** The same record after the input phase, and after the attack phase. *)
Definition example_tx_inputs_done : dict :=
  Eval vm_compute in
    match Cost.recompute_inputs (H := ReferenceCodec.codec) example_tx with
    | Ret d => d
    | Raise _ => []
    end.

Definition example_tx_attack_done : dict :=
  Eval vm_compute in
    match Cost.recompute_attack (H := ReferenceCodec.codec) example_tx_inputs_done with
    | Ret d => d
    | Raise _ => []
    end.

(** A record whose nested input field is not JSON. *)
Definition malformed_tx : dict :=
  [ ("Txn Fee Rate", JInt 2);
    ("Txn Input UTXO Details", JStr "not json") ].

(** *** Predicates and data of the further properties *)

(** The descriptor has the types [classify_utxo] expects: a string (or
    no) address and stored type, a readable scriptSig, a witness stack
    with a length. *)
Definition descriptor_typed (utxo : dict) : bool :=
  is_str (dict_get_default "inputHash" (JStr "") utxo)
  && scriptSig_readable utxo
  && is_str (dict_get_default "scriptType" (JStr "") utxo)
  && is_ret (py_len (dict_get_default "txinwitness" (JList []) utxo)).

(** The address, once stripped, begins with one of the four prefixes
    [classify_utxo] tests. *)
Definition recognised_prefix (addr : string) : bool :=
  startswith (strip addr) "1" || startswith (strip addr) "bc1q"
  || startswith (strip addr) "3" || startswith (strip addr) "bc1p".

(** The answer of the P2SH branch, which the recursive call lands in. *)
Definition p2sh_tag (asm hex_sig : string) (witness : json) : string :=
  let has_sig :=
    negb (String.eqb asm "") && negb (String.eqb hex_sig "")
    && Classifier.is_valid_hex hex_sig in
  let has_wit := py_truthy witness in
  if (contains "0014" asm || startswith hex_sig "160014") && has_wit
  then "P2SH-P2WPKH"
  else if (contains "0020" asm || startswith hex_sig "220020") && has_wit
  then "P2SH-P2WSH"
  else if has_sig && negb has_wit then "P2SH"
  else "Non-Standard P2SH".

(** An input whose address has no recognised prefix and whose type is
    stored, and a nested SegWit input. *)
Definition stored_taproot_input : dict :=
  [ ("inputHash", JStr "tb1pxyz");
    ("scriptType", JStr "p2tr");
    ("txinwitness", JList [JStr "a1b2"]) ].

Definition nested_segwit_input : dict :=
  [ ("inputHash", JStr "3J98t1WpEZ73CNmQviecrnyiWrnqRhWNLy");
    ("scriptSig", JDict [("asm", JStr "0014ab"); ("hex", JStr "160014ab")]);
    ("txinwitness", JList [JStr "3044"; JStr "02ab"]) ].

(** The record carries the label ["0"]. *)
Definition labelled_non_dust (record : json) : bool :=
  match record with
  | JDict d =>
      match dict_get "dust_attacker" d with
      | Some (JStr l) => String.eqb l "0"
      | _ => false
      end
  | _ => false
  end.

(** The fields the cost pass writes. *)
Definition cost_fields : list string :=
  [ "Txn Input UTXO Details"; "total_victim_cost_btc"; "sent_utxo_uxns";
    "total_attack_cost_btc"; "attack_effect" ].

(** The float does not carry a minus sign (NaN has none). *)
Definition no_minus (f : pyfloat) : bool :=
  match f with
  | S754_zero s | S754_infinity s | S754_finite s _ _ => negb s
  | S754_nan => true
  end.

(** A transaction without attacker side, before and after. *)
Definition lone_tx : dict :=
  [ ("Txn Hash", JStr "c3");
    ("Txn Fee Rate", JInt 4);
    ("Txn Input UTXO Details", JList [JDict [("bytes", JInt 250)]]) ].

(** What an input descriptor becomes: typed from its address, sized
    [n]. *)
Definition annotated_input (d : dict) (n : Z) : json :=
  JDict (dict_set "bytes" (JInt n)
           (dict_set "scriptType"
              (JStr (Annotate.identify_script_type
                       (dict_get_default "inputHash" (JStr "") d))) d)).

(** The annotation leaves an entry alone but for the two fields it
    writes. *)
Definition entry_kept (entry entry' : json) : Prop :=
  match entry, entry' with
  | JDict d, JDict d' =>
      forall k, k <> "scriptType" -> k <> "bytes" -> dict_get k d' = dict_get k d
  | _, _ => entry' = entry
  end.

(** The three facts about an annotation that make its frame
    idempotent. *)
Definition stable (annotate : json -> json * option exn) : Prop :=
  forall obj,
    annotate (fst (annotate obj)) = annotate obj
    /\ (json_wf obj = true -> json_wf (fst (annotate obj)) = true)
    /\ is_str (fst (annotate obj)) = is_str obj
    /\ (py_truthy obj = true -> py_truthy (fst (annotate obj)) = true).

(** The sum of the counts. *)
Definition counts_sum (counts : list (string * Z)) : Z :=
  fold_right (fun cn acc => snd cn + acc) 0 counts.

(** A descriptor with its tag written in. *)
Definition tagged (d : dict) (cat : string) : json :=
  JDict (dict_set "scriptType" (JStr cat) d).

(** A record whose input field holds one descriptor object rather than
    a list. *)
Definition single_descriptor_tx : dict :=
  [ ("Txn Hash", JStr "d4");
    ("Txn Input UTXO Details",
     JDict [("inputHash", JStr "1BoatSLRHtKNngkdXEeobR76b53LETtpyT");
            ("amount", JStr "0.5")]) ].

(** The invariant of the counters: the counts are positive, their tags
    are tags of the classifier, no tag is counted twice and the counts
    add up to the total. *)
Definition tally_ok (t : ClassifierFile.tally) : Prop :=
  Forall (fun cn => In (fst cn) classifier_tags /\ 0 < snd cn) (fst t)
  /\ nodup_keys (map fst (fst t)) = true
  /\ counts_sum (fst t) = snd t.

(** A file of one record with two descriptors, as text, and what the
    classifier pass writes back. *)
Definition classified_file_text : string :=
  Eval vm_compute in
    ReferenceCodec.ref_dumps
      (JDict [("Txn Input Details",
               JList [JDict taproot_one_witness; JDict segwit_input_2x64])]).

Definition classified_file_out : option json :=
  Eval vm_compute in
    match ClassifierFile.process_file (H := ReferenceCodec.codec)
            classified_file_text with
    | Ret (out, _) => out
    | Raise _ => None
    end.

(** A value a [for] loop cannot run over: [None], a boolean, a
    number. *)
Definition not_iterable (v : json) : bool :=
  match v with
  | JNull | JBool _ | JInt _ | JFloat _ => true
  | _ => false
  end.

(** A record the classifier pass cannot read: it is not an object, or
    one of its two descriptor fields holds a value that is neither a
    string nor iterable. *)
Definition ill_typed_record (r : json) : bool :=
  match r with
  | JDict d =>
      not_iterable (dict_get_default "Txn Input Details" (JStr "[]") d)
      || not_iterable (dict_get_default "Txn Input UTXO Details" (JStr "[]") d)
  | _ => true
  end.

(** A file of two records, the second with a number for its
    descriptors. *)
Definition ill_typed_file : json :=
  JList [JDict [("Txn Hash", JStr "a1"); ("Txn Input Details", JList [])];
         JDict [("Txn Hash", JStr "a2"); ("Txn Input UTXO Details", JInt 7)]].

Definition ill_typed_file_text : string :=
  Eval vm_compute in ReferenceCodec.ref_dumps ill_typed_file.

(** ** The reference codec *)

(** The keys of a sub-transaction after the pass: the new field right
    after the output field. *)
Fixpoint with_utxo_field (keys : list string) : list string :=
  match keys with
  | [] => []
  | k :: rest =>
      if String.eqb k "Txn Output Details"
      then k :: "Txn Output UTXO Details" :: rest
      else k :: with_utxo_field rest
  end.

(** The fields of a sub-transaction after the pass, when its keys are
    distinct and the new field is not among them: [tod] is the output
    field, [utxo] the new field. *)
Fixpoint rebuilt (tod utxo : json) (s : dict) : dict :=
  match s with
  | [] => []
  | (k, v) :: rest =>
      if String.eqb k "Txn Output Details"
      then (k, tod) :: ("Txn Output UTXO Details", utxo) :: rest
      else (k, v) :: rebuilt tod utxo rest
  end.

(** A transaction [r] and what the pass makes of it: the fields in
    their order, four of them touched at most, a list of
    sub-transactions of the same length, and sub-transactions held as
    anything but a list left alone. *)
Definition kept_record (r r' : json) : Prop :=
  match r with
  | JDict tx =>
      exists tx' : dict,
        r' = JDict tx'
        /\ map fst tx' = map fst tx
        /\ (forall k : string,
              k <> "Txn Input UTXO Details" -> k <> "Txn Input Details" ->
              k <> "Txn Output Details" -> k <> "sent_utxo_uxns" ->
              dict_get k tx' = dict_get k tx)
        /\ match dict_get "sent_utxo_uxns" tx with
           | Some (JList sent) =>
               exists sent' : list json,
                 dict_get "sent_utxo_uxns" tx' = Some (JList sent')
                 /\ List.length sent' = List.length sent
           | other => dict_get "sent_utxo_uxns" tx' = other
           end
  | _ => False
  end.

(** A transaction whose input field holds one object, with one
    sub-transaction. *)
Definition single_input_tx : dict :=
  [ ("Txn Hash", JStr "e5");
    ("Txn Input UTXO Details",
     JDict [("txid", JStr "a1"); ("amount", JStr "0.5");
            ("inputHash", JStr "1BoatSLRHtKNngkdXEeobR76b53LETtpyT")]);
    ("sent_utxo_uxns", JList []) ].

(** A sub-transaction with two outputs, the second of which is the UTXO
    of the mapping below. *)
Definition sub_tx : dict :=
  [ ("Txn Hash", JStr "a1");
    ("Txn Output Details",
     JList [ JDict [("amount", JStr "0.25");
                    ("outputHash", JStr "1BoatSLRHtKNngkdXEeobR76b53LETtpyT")];
             JDict [("amount", JStr "0.5");
                    ("outputHash",
                     JStr "bc1qar0srrr7xfkvy5l643lydnw9re59gtzzwf5mdq")] ]);
    ("Txn Fee Rate", JInt 3) ].

Definition sub_tx_mapping : AnnotateFile.mapping :=
  [ (JStr "a1", [float_lit 1 2]) ].

(** What the pass makes of that sub-transaction. *)
Definition sub_tx_out : json :=
  Eval vm_compute in
    match AnnotateFile.process_sent (H := ReferenceCodec.codec)
            sub_tx_mapping (JDict sub_tx) with
    | Ret v => v
    | Raise _ => JNull
    end.

(** The outputs of that sub-transaction, annotated. *)
Definition sub_tx_outs : list json :=
  Eval vm_compute in
    match py_iter (AnnotateFile.output_list (H := ReferenceCodec.codec)
                     (AnnotateFile.annotate_outputs
                        (H := ReferenceCodec.codec) sub_tx)) with
    | Ret l => l
    | Raise _ => []
    end.

(** The second of the outputs, annotated. *)
Definition sub_tx_matched : dict :=
  [ ("amount", JStr "0.5");
    ("outputHash", JStr "bc1qar0srrr7xfkvy5l643lydnw9re59gtzzwf5mdq");
    ("scriptType", JStr "P2WPKH"); ("bytes", JInt 31) ].

(** A sub-transaction that went through the pass before, with an
    outdated value in the new field. *)
Definition sub_tx_stale : dict :=
  ([ ("Txn Hash", JStr "a1") ]
   ++ ("Txn Output Details",
       JList [ JDict [("amount", JStr "0.5");
                      ("outputHash",
                       JStr "bc1qar0srrr7xfkvy5l643lydnw9re59gtzzwf5mdq")] ])
   :: [ ("Txn Output UTXO Details", JStr "[]") ])%list.

Definition sub_tx_stale_out : json :=
  Eval vm_compute in
    match AnnotateFile.process_sent (H := ReferenceCodec.codec)
            sub_tx_mapping (JDict sub_tx_stale) with
    | Ret v => v
    | Raise _ => JNull
    end.

(** A transaction that spends the second output of its one
    sub-transaction. *)
Definition funded_tx : dict :=
  [ ("Txn Hash", JStr "e5");
    ("Txn Input UTXO Details",
     JList [ JDict [("txid", JStr "a1"); ("amount", JStr "0.5");
                    ("inputHash",
                     JStr "bc1qar0srrr7xfkvy5l643lydnw9re59gtzzwf5mdq")] ]);
    ("sent_utxo_uxns", JList [JDict sub_tx]);
    ("Txn Fee Rate", JInt 3) ].

(** A file of that transaction, as text, and what the pass writes. *)
Definition funded_file_text : string :=
  Eval vm_compute in ReferenceCodec.ref_dumps (JList [JDict funded_tx]).

Definition funded_file_out : json :=
  Eval vm_compute in
    match AnnotateFile.process_file (H := ReferenceCodec.codec)
            funded_file_text with
    | Ret (Some out) => out
    | _ => JNull
    end.

(** A file of two transactions, the second with a single object as its
    input field. *)
Definition single_input_file_text : string :=
  Eval vm_compute in
    ReferenceCodec.ref_dumps (JList [JDict funded_tx; JDict single_input_tx]).

Section CodecFacts.

Import ReferenceCodec.

(** Structural induction on documents, through lists and objects. *)
Lemma json_ind (P : json -> Prop) :
  P JNull ->
  (forall b, P (JBool b)) ->
  (forall z, P (JInt z)) ->
  (forall f, P (JFloat f)) ->
  (forall s, P (JStr s)) ->
  (forall l, Forall P l -> P (JList l)) ->
  (forall d, Forall (fun kv => P (snd kv)) d -> P (JDict d)) ->
  forall v, P v.
Proof.
  intros Hnull Hbool Hint Hfloat Hstr Hlist Hdict.
  fix IH 1. intros [ |b|z|f|s|l|d].
  - exact Hnull.
  - apply Hbool.
  - apply Hint.
  - apply Hfloat.
  - apply Hstr.
  - apply Hlist. induction l as [|x l IHl]; constructor; [apply IH | exact IHl].
  - apply Hdict. induction d as [|[k x] d IHd]; constructor; [apply IH | exact IHd].
Qed.

Lemma of_to_tree (v : json) : of_tree (to_tree v) = v.
Proof.
  induction v as [ | | | | |l IH|d IH] using json_ind; simpl; try reflexivity.
  - f_equal. induction IH as [|x l Hx _ IHl]; simpl; congruence.
  - f_equal. induction IH as [|[k x] d Hx _ IHd]; simpl in *; congruence.
Qed.

Lemma bits_to_pos_to_bits (p : positive) : bits_to_pos (pos_to_bits p) = Some p.
Proof. induction p as [p IH|p IH|]; simpl; try rewrite IH; reflexivity. Qed.

(** The reference codec meets the round-trip law. *)
Lemma codec_round_trip : JsonRoundTrip codec.
Proof.
  split; simpl; unfold ref_loads, ref_dumps.
  - intros s v.
    destruct (bits_to_pos s) as [p|]; [|discriminate].
    destruct (decode p) as [t|]; [|discriminate].
    simpl. destruct (json_wf (of_tree t)) eqn:E; [|discriminate].
    now intros [= <-].
  - intros v Hv. rewrite bits_to_pos_to_bits, decode_encode. simpl.
    now rewrite of_to_tree, Hv.
Qed.

End CodecFacts.

(** ** Binary64 arithmetic *)

Section FloatFacts.

Lemma digits2_pos_size (p : positive) : digits2_pos p = Pos.size p.
Proof. induction p; simpl; congruence. Qed.

Lemma Zdigits2_log2 (z : Z) : 0 < z -> Zdigits2 z = Z.log2 z + 1.
Proof.
  destruct z as [|p|p]; try lia. intros _.
  unfold Zdigits2. rewrite digits2_pos_size.
  destruct p; simpl; lia.
Qed.

Lemma Zdigits2_mul_pow2 (z k : Z) :
  0 < z -> 0 <= k -> Zdigits2 (z * 2 ^ k) = Zdigits2 z + k.
Proof.
  intros Hz Hk.
  rewrite !Zdigits2_log2 by (try apply Z.mul_pos_pos; try apply Z.pow_pos_nonneg; lia).
  rewrite Z.log2_mul_pow2 by lia. lia.
Qed.

Lemma Zdigits2_bound (z : Z) : 0 < z < 2 ^ 53 -> 1 <= Zdigits2 z <= 53.
Proof.
  intros [Hz Hlt]. rewrite Zdigits2_log2 by lia.
  pose proof (Z.log2_nonneg z).
  assert (Z.log2 z < 53) by (apply Z.log2_lt_pow2; lia). lia.
Qed.

Lemma ceil_div_spec (a b : Z) :
  0 < b -> b * (ceil_div a b - 1) < a <= b * ceil_div a b.
Proof.
  intros Hb. unfold ceil_div.
  pose proof (Z.mul_div_le (- a) b Hb).
  pose proof (Z.mul_succ_div_gt (- a) b Hb). lia.
Qed.

(** Below [2^53] the quotient by 4 is a binary64 value: no rounding. *)
Lemma round_ratio_quarter (w : Z) :
  0 < w < 2 ^ 53 ->
  round_ratio false w 4 =
  S754_finite false (Z.to_pos (w * 2 ^ (53 - Zdigits2 w))) (Zdigits2 w - 55).
Proof.
  intros Hw.
  pose proof (Zdigits2_bound w Hw) as Hd.
  unfold round_ratio.
  replace (w =? 0) with false by (symmetry; apply Z.eqb_neq; lia).
  unfold SFdiv_core_binary.
  change (Zdigits2 4) with 3.
  set (d := Zdigits2 w) in *.
  assert (He : Z.min (fexp prec emax (d + 0 - (3 + 0))) (0 - 0) = d - 56).
  { unfold fexp, SpecFloat.emin, prec, emax. lia. }
  rewrite He.
  replace (0 - 0 - (d - 56)) with (56 - d) by lia.
  set (k := 53 - d).
  assert (Hk : 0 <= k) by (unfold k; lia).
  assert (Hm : match 56 - d with
               | 0 => w | Z.pos _ => Z.shiftl w (56 - d) | Z.neg _ => 0
               end = (w * 2 ^ k) * 2 * 4).
  { destruct (56 - d) eqn:E; try lia.
    rewrite Z.shiftl_mul_pow2 by lia. rewrite <- E.
    replace (56 - d) with (k + 3) by (unfold k; lia).
    rewrite Z.pow_add_r by lia. change (2 ^ 3) with 8. lia. }
  rewrite Hm.
  assert (HP : 0 < w * 2 ^ k) by (apply Z.mul_pos_pos; [lia | apply Z.pow_pos_nonneg; lia]).
  assert (HdP : Zdigits2 (w * 2 ^ k) = 53).
  { rewrite Zdigits2_mul_pow2 by lia. fold d. unfold k. lia. }
  destruct (w * 2 ^ k) as [|P|P] eqn:EP; try lia.
  assert (Hdiv : Z.div_eucl (Z.pos P * 2 * 4) 4 = (Z.pos P * 2, 0)).
  { pose proof (Z.div_eucl_eq (Z.pos P * 2 * 4) 4 ltac:(lia)) as Heq.
    pose proof (Z.mod_pos_bound (Z.pos P * 2 * 4) 4 ltac:(lia)) as Hb.
    unfold Z.modulo in Hb.
    destruct (Z.div_eucl (Z.pos P * 2 * 4) 4) as [q r].
    f_equal; lia. }
  rewrite Hdiv.
  replace (Z.pos P * 2) with (Z.pos P~0) by lia.
  change (new_location 4 0) with loc_Exact.
  unfold binary_round_aux, shr_fexp.
  assert (Hd2 : Zdigits2 (Z.pos P~0) = 54).
  { simpl in HdP |- *. lia. }
  rewrite Hd2.
  assert (Hf1 : fexp prec emax (54 + (d - 56)) - (d - 56) = 1).
  { unfold fexp, SpecFloat.emin, prec, emax. lia. }
  rewrite Hf1. simpl shr. simpl round_nearest_even.
  cbv beta iota zeta. simpl shr_m. simpl loc_of_shr_record. simpl round_nearest_even.
  rewrite HdP.
  assert (Hf2 : fexp prec emax (53 + (d - 56 + 1)) - (d - 56 + 1) = 0).
  { unfold fexp, SpecFloat.emin, prec, emax. lia. }
  rewrite Hf2. simpl shr. cbv beta iota. simpl shr_m.
  replace (d - 56 + 1 <=? emax - prec) with true
    by (symmetry; apply Z.leb_le; unfold emax, prec; lia).
  f_equal; lia.
Qed.

(** Hence [math.ceil(w / 4)] is the exact ceiling there. *)
Lemma ceil_quarter_exact (w : Z) :
  0 < w < 2 ^ 53 ->
  (let! quarter := int_truediv w 4 in math_ceil quarter) = Ret (ceil_div w 4).
Proof.
  intros Hw.
  pose proof (Zdigits2_bound w Hw) as Hd.
  unfold int_truediv.
  replace (4 =? 0) with false by reflexivity.
  replace (w <? 0) with false by (symmetry; apply Z.ltb_ge; lia).
  rewrite Z.abs_eq by lia. change (Z.abs 4) with 4.
  change (xorb false (4 <? 0)) with false.
  rewrite round_ratio_quarter by exact Hw.
  set (d := Zdigits2 w) in *. set (k := 53 - d).
  assert (HP : 0 < w * 2 ^ k)
    by (apply Z.mul_pos_pos; [lia | apply Z.pow_pos_nonneg; unfold k; lia]).
  simpl is_finite. cbv beta iota. unfold bind, math_ceil.
  replace (0 <=? d - 55) with false by (symmetry; apply Z.leb_gt; lia).
  rewrite Z2Pos.id by exact HP.
  f_equal. unfold ceil_div. f_equal.
  replace (- (d - 55)) with (k + 2) by (unfold k; lia).
  rewrite Z.pow_add_r by (unfold k; lia). change (2 ^ 2) with 4.
  replace (- (w * 2 ^ k)) with ((- w) * 2 ^ k) by lia.
  rewrite (Z.mul_comm (2 ^ k) 4).
  apply Z.div_mul_cancel_r; [lia | ].
  apply Z.pow_nonzero; unfold k; lia.
Qed.

(** *** Exact operations on small dyadic numbers *)

Lemma shr_1_double (m : Z) :
  0 < m ->
  shr_1 {| shr_m := 2 * m; shr_r := false; shr_s := false |}
  = {| shr_m := m; shr_r := false; shr_s := false |}.
Proof. destruct m; try lia. reflexivity. Qed.

Lemma shr_exact (p : positive) :
  forall m : Z,
    0 < m ->
    SpecFloat.iter_pos shr_1 p {| shr_m := m * 2 ^ Z.pos p; shr_r := false; shr_s := false |}
    = {| shr_m := m; shr_r := false; shr_s := false |}.
Proof.
  induction p as [p IH|p IH|]; intros m Hm; cbn [SpecFloat.iter_pos].
  - assert (Hp : 0 < 2 ^ Z.pos p) by (apply Z.pow_pos_nonneg; lia).
    assert (Hpow : 2 ^ Z.pos p~1 = 2 * (2 ^ Z.pos p * 2 ^ Z.pos p)).
    { rewrite <- Z.pow_add_r, <- Z.pow_succ_r by lia. f_equal. lia. }
    replace (m * 2 ^ Z.pos p~1) with (2 * ((m * 2 ^ Z.pos p) * 2 ^ Z.pos p))
      by (rewrite Hpow; ring).
    rewrite shr_1_double by nia.
    rewrite (IH (m * 2 ^ Z.pos p)) by nia. now apply IH.
  - assert (Hp : 0 < 2 ^ Z.pos p) by (apply Z.pow_pos_nonneg; lia).
    assert (Hpow : 2 ^ Z.pos p~0 = 2 ^ Z.pos p * 2 ^ Z.pos p).
    { rewrite <- Z.pow_add_r by lia. f_equal. lia. }
    replace (m * 2 ^ Z.pos p~0) with ((m * 2 ^ Z.pos p) * 2 ^ Z.pos p)
      by (rewrite Hpow; ring).
    rewrite (IH (m * 2 ^ Z.pos p)) by nia. now apply IH.
  - rewrite Z.pow_1_r, Z.mul_comm. now apply shr_1_double.
Qed.

Lemma canon_mantissa (z : Z) :
  0 < z < 2 ^ 53 ->
  0 < z * 2 ^ (53 - Zdigits2 z)
  /\ Zdigits2 (z * 2 ^ (53 - Zdigits2 z)) = 53.
Proof.
  intros Hz. pose proof (Zdigits2_bound z Hz) as Hd.
  split.
  - apply Z.mul_pos_pos; [lia|apply Z.pow_pos_nonneg; lia].
  - rewrite Zdigits2_mul_pow2 by lia. lia.
Qed.

(** Rounding a mantissa whose bits beyond the 53rd are zero is exact. *)
Lemma round_exact (z j e : Z) :
  0 < z < 2 ^ 53 ->
  53 - Zdigits2 z <= j ->
  -1074 <= e + j - (53 - Zdigits2 z) <= 971 ->
  binary_round_aux prec emax false (z * 2 ^ j) e loc_Exact = canon z (e + j).
Proof.
  intros Hz Hj He.
  pose proof (Zdigits2_bound z Hz) as Hd.
  destruct (canon_mantissa z Hz) as [Hpos Hdig].
  set (d := Zdigits2 z) in *.
  set (s := j - (53 - d)).
  assert (Hs : 0 <= s) by (unfold s; lia).
  assert (Hshr : shr {| shr_m := z * 2 ^ j; shr_r := false; shr_s := false |} e s
                 = ({| shr_m := z * 2 ^ (53 - d); shr_r := false; shr_s := false |},
                    e + s)).
  { destruct s as [|p|p] eqn:Es; try lia.
    - cbn [shr]. replace j with (53 - d) by lia. f_equal. lia.
    - cbn [shr]. f_equal.
      replace (z * 2 ^ j) with ((z * 2 ^ (53 - d)) * 2 ^ Z.pos p).
      + now apply shr_exact.
      + rewrite <- Z.mul_assoc, <- Z.pow_add_r by lia. f_equal. f_equal. lia. }
  unfold binary_round_aux, shr_fexp.
  rewrite Zdigits2_mul_pow2 by lia. fold d.
  replace (fexp prec emax (d + j + e) - e) with s
    by (unfold fexp, SpecFloat.emin, prec, emax, s; lia).
  cbn [shr_record_of_loc]. rewrite Hshr.
  cbn [shr_m loc_of_shr_record shr_r shr_s round_nearest_even].
  rewrite Hdig.
  replace (fexp prec emax (53 + (e + s)) - (e + s)) with 0
    by (unfold fexp, SpecFloat.emin, prec, emax, s; lia).
  cbn [shr shr_m].
  unfold canon. fold d.
  destruct (z * 2 ^ (53 - d)) as [|P|P] eqn:EP; try lia.
  replace (e + s <=? emax - prec) with true
    by (symmetry; apply Z.leb_le; unfold emax, prec, s; lia).
  cbn [Z.to_pos]. f_equal. unfold s. lia.
Qed.

Lemma shift_pos_pow2 (k m : positive) :
  Z.pos (Pos.iter xO m k) = Z.pos m * 2 ^ Z.pos k.
Proof.
  change (Pos.iter xO m k) with (shift_pos k m).
  rewrite shift_pos_correct, Zpower_pos_nat, Zpower_nat_Z, positive_nat_Z.
  apply Z.mul_comm.
Qed.

(** An integer below [2^53], scaled by a power of two in range, is a
    binary64 value. *)
Lemma normalize_canon (z e : Z) :
  0 < z < 2 ^ 53 ->
  -1074 <= e - (53 - Zdigits2 z) <= 971 ->
  binary_normalize prec emax z e false = canon z e.
Proof.
  intros Hz He.
  pose proof (Zdigits2_bound z Hz) as Hd.
  destruct z as [|p|p]; try lia.
  cbn [binary_normalize]. unfold binary_round.
  change (Z.pos (digits2_pos p)) with (Zdigits2 (Z.pos p)).
  set (d := Zdigits2 (Z.pos p)) in *.
  replace (fexp prec emax (d + e)) with (d + e - 53)
    by (unfold fexp, SpecFloat.emin, prec, emax; lia).
  unfold shl_align.
  destruct (d + e - 53 - e) as [|k|k] eqn:Ek; try lia.
  - replace (Z.pos p) with (Z.pos p * 2 ^ 0) at 1 by (rewrite Z.pow_0_r; lia).
    rewrite round_exact; fold d; try lia. f_equal. lia.
  - rewrite shift_pos_pow2.
    rewrite round_exact; fold d; try lia. f_equal. lia.
Qed.

Lemma canon_scale (z k e : Z) :
  0 < z -> 0 <= k -> Zdigits2 z + k <= 53 ->
  canon (z * 2 ^ k) e = canon z (e + k).
Proof.
  intros Hz Hk Hle. unfold canon.
  rewrite Zdigits2_mul_pow2 by lia.
  f_equal; [|lia].
  rewrite <- Z.mul_assoc, <- Z.pow_add_r by lia.
  do 3 f_equal. lia.
Qed.

Lemma Zdigits2_mul_lower (a b : Z) :
  0 < a -> 0 < b -> Zdigits2 a + Zdigits2 b - 1 <= Zdigits2 (a * b).
Proof.
  intros Ha Hb. rewrite !Zdigits2_log2 by nia.
  pose proof (Z.log2_mul_below a b Ha Hb). lia.
Qed.

(** The product of two binary64 values whose exact product has at most
    53 bits is exact. *)
Lemma mul_canon (z1 e1 z2 e2 : Z) :
  0 < z1 -> 0 < z2 -> z1 * z2 < 2 ^ 53 ->
  -1074 <= e1 + e2 - (53 - Zdigits2 (z1 * z2)) <= 971 ->
  fmul (canon z1 e1) (canon z2 e2) = canon (z1 * z2) (e1 + e2).
Proof.
  intros H1 H2 H12 He.
  assert (Hz1 : 0 < z1 < 2 ^ 53) by nia.
  assert (Hz2 : 0 < z2 < 2 ^ 53) by nia.
  pose proof (Zdigits2_bound z1 Hz1) as Hd1.
  pose proof (Zdigits2_bound z2 Hz2) as Hd2.
  pose proof (Zdigits2_mul_lower z1 z2 H1 H2) as Hlow.
  destruct (canon_mantissa z1 Hz1) as [Hp1 _].
  destruct (canon_mantissa z2 Hz2) as [Hp2 _].
  unfold fmul, canon at 1 2. cbn [SFmul xorb].
  set (a1 := 53 - Zdigits2 z1) in *. set (a2 := 53 - Zdigits2 z2) in *.
  rewrite Pos2Z.inj_mul, !Z2Pos.id by assumption.
  replace (z1 * 2 ^ a1 * (z2 * 2 ^ a2)) with ((z1 * z2) * 2 ^ (a1 + a2))
    by (rewrite Z.pow_add_r by (unfold a1, a2; lia); ring).
  rewrite round_exact.
  - f_equal. unfold a1, a2. lia.
  - nia.
  - unfold a1, a2. lia.
  - unfold a1, a2. lia.
Qed.

Lemma Zdigits2_mono (a b : Z) :
  0 < a -> a <= b -> Zdigits2 a <= Zdigits2 b.
Proof.
  intros Ha Hab. rewrite !Zdigits2_log2 by lia.
  pose proof (Z.log2_le_mono a b Hab). lia.
Qed.

(** A quarter of [h] lies below [w] when [h < 4 * w]. *)
Lemma canon_quarter_below (w h : Z) :
  0 < w < 2 ^ 53 -> 0 < h < 2 ^ 53 -> h < 4 * w ->
  fle (canon w 0) (canon h (-2)) = false.
Proof.
  intros Hw Hh Hlt.
  pose proof (Zdigits2_bound w Hw) as Hdw.
  pose proof (Zdigits2_bound h Hh) as Hdh.
  destruct (canon_mantissa w Hw) as [Hpw _].
  destruct (canon_mantissa h Hh) as [Hph _].
  assert (Hd : Zdigits2 h <= Zdigits2 w + 2).
  { destruct (Z.le_gt_cases (4 * w) (2 ^ 53 - 1)) as [Hs|Hs].
    - replace (Zdigits2 w + 2) with (Zdigits2 (w * 2 ^ 2))
        by (rewrite Zdigits2_mul_pow2; lia).
      apply Zdigits2_mono; lia.
    - assert (2 ^ 51 <= w) by lia.
      assert (52 <= Zdigits2 w).
      { rewrite Zdigits2_log2 by lia.
        pose proof (Z.log2_le_mono (2 ^ 51) w ltac:(lia)) as Hl.
        rewrite Z.log2_pow2 in Hl by lia. lia. }
      lia. }
  unfold fle, SFleb, canon. cbn [SFcompare].
  destruct (Z.compare_spec (0 - (53 - Zdigits2 w)) (-2 - (53 - Zdigits2 h)))
    as [He|He|He]; [|lia|reflexivity].
  assert (Hdh2 : Zdigits2 h = Zdigits2 w + 2) by lia.
  change (Pos.compare_cont Eq) with Pos.compare.
  rewrite <- Z2Pos.inj_compare by assumption.
  replace (53 - Zdigits2 w) with (53 - Zdigits2 h + 2) by lia.
  rewrite Z.pow_add_r by lia. change (2 ^ 2) with 4.
  assert (Hp : 0 < 2 ^ (53 - Zdigits2 h)) by (apply Z.pow_pos_nonneg; lia).
  destruct (Z.compare_spec (w * (2 ^ (53 - Zdigits2 h) * 4))
              (h * 2 ^ (53 - Zdigits2 h))) as [Hc|Hc|Hc];
    try reflexivity; nia.
Qed.

(** The integer part of a quarter. *)
Lemma float_floor_quarter (h : Z) :
  0 < h < 2 ^ 53 -> Dust.float_floor (canon h (-2)) = h / 4.
Proof.
  intros Hh. pose proof (Zdigits2_bound h Hh) as Hd.
  destruct (canon_mantissa h Hh) as [Hp _].
  unfold Dust.float_floor, canon.
  replace (0 <=? -2 - (53 - Zdigits2 h)) with false
    by (symmetry; apply Z.leb_gt; lia).
  rewrite Z2Pos.id by exact Hp.
  replace (- (-2 - (53 - Zdigits2 h))) with (53 - Zdigits2 h + 2) by lia.
  rewrite Z.pow_add_r by lia. change (2 ^ 2) with 4.
  rewrite (Z.mul_comm (2 ^ (53 - Zdigits2 h)) 4).
  apply Z.div_mul_cancel_r; [lia|].
  apply Z.pow_nonzero; lia.
Qed.

Lemma float_lit_quarter (r : Z) :
  0 < r < 2 ^ 53 -> float_lit r 4 = canon r (-2).
Proof.
  intros Hr. unfold float_lit. rewrite round_ratio_quarter by exact Hr.
  unfold canon. f_equal. lia.
Qed.

Lemma Zdigits2_quarter (i r : Z) :
  0 < i -> 0 <= r < 4 -> Zdigits2 (4 * i + r) = Zdigits2 i + 2.
Proof.
  intros Hi Hr. rewrite !Zdigits2_log2 by lia.
  pose proof (Z.log2_spec i Hi) as [Hlo Hhi].
  pose proof (Z.log2_nonneg i) as Hn.
  assert (Z.log2 (4 * i + r) = Z.log2 i + 2); [|lia].
  apply Z.log2_unique; [lia|].
  rewrite Z.pow_succ_r in Hhi by exact Hn.
  rewrite Z.pow_succ_r, Z.pow_add_r by lia.
  change (2 ^ 2) with 4. lia.
Qed.

(** The fractional part of a quarter: [h / 4 - floor (h / 4)] is
    [(h mod 4) / 4], without rounding. *)
Lemma sub_floor_quarter (h : Z) :
  0 < h < 2 ^ 53 ->
  fsub (canon h (-2)) (binary_normalize prec emax (h / 4) 0 false)
  = float_lit (h mod 4) 4.
Proof.
  intros Hh.
  pose proof (Z.div_mod h 4 ltac:(lia)) as Hdm.
  pose proof (Z.mod_pos_bound h 4 ltac:(lia)) as Hr.
  pose proof (Z.div_pos h 4 ltac:(lia) ltac:(lia)) as Hi0.
  set (i := h / 4) in *. set (r := h mod 4) in *.
  destruct (Z.eq_dec i 0) as [Hi|Hi].
  - rewrite Hi. cbn [binary_normalize].
    unfold fsub, canon. cbn [SFsub].
    replace r with h by lia. rewrite float_lit_quarter by exact Hh.
    reflexivity.
  - assert (Hipos : 0 < i < 2 ^ 53) by lia.
    pose proof (Zdigits2_bound i Hipos) as Hdi.
    pose proof (Zdigits2_bound h Hh) as Hdh.
    assert (Hdig : Zdigits2 h = Zdigits2 i + 2).
    { rewrite Hdm. apply Zdigits2_quarter; lia. }
    rewrite normalize_canon by lia.
    destruct (canon_mantissa h Hh) as [Hph _].
    destruct (canon_mantissa i Hipos) as [Hpi _].
    unfold fsub, canon. cbn [SFsub].
    replace (-2 - (53 - Zdigits2 h)) with (0 - (53 - Zdigits2 i)) by lia.
    rewrite Z.min_id. unfold shl_align. rewrite Z.sub_diag.
    cbn [fst cond_Zopp]. rewrite !Z2Pos.id by assumption.
    set (a := 51 - Zdigits2 i).
    assert (Ha : 0 <= a) by (unfold a; lia).
    replace (53 - Zdigits2 h) with a by (unfold a; lia).
    replace (53 - Zdigits2 i) with (a + 2) by (unfold a; lia).
    rewrite Z.pow_add_r by lia. change (2 ^ 2) with 4.
    replace (h * 2 ^ a - i * (2 ^ a * 4)) with (r * 2 ^ a) by (rewrite Hdm; ring).
    destruct (Z.eq_dec r 0) as [Hr0|Hr0].
    + rewrite Hr0. reflexivity.
    + assert (Hrpos : 0 < r < 2 ^ 53) by lia.
      assert (Hdr : 1 <= Zdigits2 r <= 2).
      { split; [apply (Zdigits2_bound r Hrpos)|].
        change 2 with (Zdigits2 3). apply Zdigits2_mono; lia. }
      assert (Hpa : 0 < 2 ^ a) by (apply Z.pow_pos_nonneg; lia).
      assert (Hsz : r * 2 ^ a < 2 ^ 53).
      { assert (2 ^ a <= 2 ^ 50) by (apply Z.pow_le_mono_r; unfold a; lia).
        change (2 ^ 53) with (8 * 2 ^ 50). nia. }
      rewrite normalize_canon;
        [|nia|rewrite Zdigits2_mul_pow2 by lia; unfold a; lia].
      rewrite canon_scale by (unfold a; lia).
      rewrite float_lit_quarter by exact Hrpos.
      f_equal. unfold a. lia.
Qed.

End FloatFacts.


(** ** Dictionaries *)

Section DictFacts.

Lemma dict_get_set_eq (k : string) (v : json) (d : dict) :
  dict_get k (dict_set k v d) = Some v.
Proof.
  induction d as [|[k' v'] d IH]; simpl.
  - now rewrite String.eqb_refl.
  - destruct (String.eqb k k') eqn:E; simpl; rewrite E; auto.
Qed.

Lemma dict_get_set_neq (k k' : string) (v : json) (d : dict) :
  k <> k' -> dict_get k (dict_set k' v d) = dict_get k d.
Proof.
  intros Hne.
  induction d as [|[k0 v0] d IH]; simpl.
  - destruct (String.eqb_spec k k'); congruence.
  - destruct (String.eqb_spec k' k0) as [->|Hk0]; simpl.
    + destruct (String.eqb_spec k k0); congruence.
    + destruct (String.eqb_spec k k0); auto.
Qed.

Lemma dict_set_same (k : string) (v : json) (d : dict) :
  dict_get k d = Some v -> dict_set k v d = d.
Proof.
  induction d as [|[k' v'] d IH]; simpl; [discriminate|].
  destruct (String.eqb k k') eqn:E.
  - now intros [= ->].
  - intros H. now rewrite IH.
Qed.

Lemma dict_set_set (k : string) (v v' : json) (d : dict) :
  dict_set k v (dict_set k v' d) = dict_set k v d.
Proof.
  induction d as [|[k' v0] d IH]; simpl.
  - now rewrite String.eqb_refl.
  - destruct (String.eqb k k') eqn:E; simpl; rewrite E; congruence.
Qed.

Lemma keys_set_exists (a k : string) (v : json) (d : dict) :
  existsb (String.eqb a) (map fst (dict_set k v d))
  = existsb (String.eqb a) (map fst d) || String.eqb a k.
Proof.
  induction d as [|[k' v'] d IH]; simpl.
  - now rewrite orb_false_r.
  - destruct (String.eqb_spec k k') as [->|Hk]; simpl.
    + destruct (String.eqb a k'); simpl; [reflexivity|now rewrite orb_false_r].
    + rewrite IH. now rewrite orb_assoc.
Qed.

Lemma nodup_keys_set (k : string) (v : json) (d : dict) :
  nodup_keys (map fst d) = true -> nodup_keys (map fst (dict_set k v d)) = true.
Proof.
  induction d as [|[k' v'] d IH]; simpl; [reflexivity|].
  intros H. apply andb_prop in H as [Hk' Hd].
  destruct (String.eqb_spec k k') as [->|Hk]; simpl.
  - now rewrite Hk', Hd.
  - rewrite keys_set_exists, (IH Hd).
    apply negb_true_iff in Hk'. rewrite Hk'. simpl.
    destruct (String.eqb_spec k' k); [congruence|reflexivity].
Qed.

Lemma values_wf_set (k : string) (v : json) (d : dict) :
  json_wf v = true ->
  forallb (fun kv => json_wf (snd kv)) d = true ->
  forallb (fun kv => json_wf (snd kv)) (dict_set k v d) = true.
Proof.
  intros Hv. induction d as [|[k' v'] d IH]; simpl.
  - now rewrite Hv.
  - intros H. apply andb_prop in H as [Hv' Hd].
    destruct (String.eqb k k'); simpl.
    + now rewrite Hv, Hd.
    + now rewrite Hv', (IH Hd).
Qed.

(** Assigning a well-formed value keeps an object well formed. *)
Lemma json_wf_dict_set (k : string) (v : json) (d : dict) :
  json_wf (JDict d) = true -> json_wf v = true ->
  json_wf (JDict (dict_set k v d)) = true.
Proof.
  simpl. intros H Hv. apply andb_prop in H as [Hk Hd].
  now rewrite (nodup_keys_set k v d Hk), (values_wf_set k v d Hv Hd).
Qed.

End DictFacts.

(** ** The size accountant *)

Section SizeAccountant.

Import Annotate.

Lemma varint_size_reference (n : Z) : varint_size n = Reference.varint n.
Proof. reflexivity. Qed.

Lemma varint_pos (n : Z) : 1 <= Reference.varint n.
Proof.
  unfold Reference.varint.
  destruct (n <? 253); [lia|]. destruct (n <? 65536); lia.
Qed.

Lemma hex_bytes_nonneg (h : string) : 0 <= Reference.hex_bytes h.
Proof. unfold Reference.hex_bytes, Zlength_str. apply Z.div_pos; lia. Qed.

Lemma witness_items_size_nonneg (wit : list string) :
  0 <= Reference.witness_items_size wit.
Proof.
  induction wit as [|w wit IH]; simpl; [lia|].
  pose proof (varint_pos (Reference.hex_bytes w)).
  pose proof (hex_bytes_nonneg w). lia.
Qed.

(** The witness loop adds up the reference sum, whatever it starts from. *)
Lemma witness_loop (wit : list string) (acc : Z) :
  foldM witness_step (map JStr wit) acc
  = Ret (acc + Reference.witness_items_size wit).
Proof.
  revert acc. induction wit as [|w wit IH]; intros acc; simpl.
  - f_equal. lia.
  - rewrite IH. f_equal. unfold Reference.hex_bytes. rewrite varint_size_reference.
    unfold Reference.hex_bytes. lia.
Qed.

(** C1. For an input descriptor whose scriptSig hex is [hex] and whose
    witness stack is the list [wit] of hex strings, the size accountant
    returns the reference virtual size: 41 with neither, the legacy size
    [40 + varint(sb) + sb] with a scriptSig payload and no witness, and
    the ceiling of a quarter of the weight with a witness.  The weight
    stays below [2^53], the range in which Python's float division by 4
    is exact. *)
Theorem calculate_input_bytes_reference
  (input_item : dict) (hex : string) (wit : list string) :
  scriptSig_hex input_item = JStr hex ->
  txinwitness input_item = JList (map JStr wit) ->
  Reference.weight hex wit < 2 ^ 53 ->
  calculate_input_bytes input_item = Ret (Reference.input_bytes hex wit).
Proof.
  intros Hhex Hwit Hbound.
  unfold calculate_input_bytes. rewrite Hhex, Hwit.
  destruct wit as [|w wit].
  - simpl. unfold Reference.input_bytes.
    destruct (String.eqb hex "") eqn:E; simpl; [reflexivity|].
    now rewrite varint_size_reference.
  - assert (Hsb : (if py_truthy (JStr hex)
                   then (let! n := py_len (JStr hex) in Ret (n / 2))
                   else Ret 0) = Ret (Reference.hex_bytes hex)).
    { simpl. destruct (String.eqb_spec hex "") as [->|]; reflexivity. }
    change (py_truthy (JList (map JStr (w :: wit)))) with true. cbv iota.
    rewrite Hsb. cbn [bind py_iter]. rewrite witness_loop. cbn [bind].
    rewrite varint_size_reference.
    replace ((32 + 4 + 4 + Reference.varint (Reference.hex_bytes hex)
              + Reference.hex_bytes hex) * 4
             + (1 + Reference.witness_items_size (w :: wit)))
      with (Reference.weight hex (w :: wit))
      by (unfold Reference.weight; lia).
    apply ceil_quarter_exact. split; [|exact Hbound].
    unfold Reference.weight.
    pose proof (varint_pos (Reference.hex_bytes hex)).
    pose proof (hex_bytes_nonneg hex).
    pose proof (witness_items_size_nonneg (w :: wit)). lia.
Qed.

Lemma calculate_input_bytes_examples :
  calculate_input_bytes legacy_input_50 = Ret 91
  /\ calculate_input_bytes segwit_input_2x64 = Ret 74.
Proof.
  split.
  - apply (calculate_input_bytes_reference legacy_input_50
             (string_repeat "ab" 50) []);
      [reflexivity | reflexivity | vm_compute; reflexivity].
  - apply (calculate_input_bytes_reference segwit_input_2x64 ""
             [string_repeat "30" 64; string_repeat "02" 64]);
      [reflexivity | reflexivity | vm_compute; reflexivity].
Defined.

Lemma table_get_reference (name : string) :
  match table_get name SCRIPT_TYPE_BYTES with
  | Some b => b
  | None => 43
  end = Reference.output_bytes name.
Proof.
  unfold Reference.output_bytes, SCRIPT_TYPE_BYTES, table_get.
  repeat match goal with
         | |- context [String.eqb ?a ?b] => destruct (String.eqb a b); [reflexivity|]
         end.
  reflexivity.
Qed.

(** C6. The size of an output is the table entry of its script type,
    43 when the type is not in the table, whatever else the descriptor
    holds. *)
Theorem add_bytes_to_item_output_table (item : dict) (st : string) :
  output_script_type item = JStr st ->
  exists item',
    add_bytes_to_item item false = Ret item'
    /\ dict_get "scriptType" item' = Some (JStr st)
    /\ dict_get "bytes" item' = Some (JInt (Reference.output_bytes st)).
Proof.
  intros Hst. unfold add_bytes_to_item. rewrite Hst.
  unfold script_type_bytes. cbn [bind]. rewrite table_get_reference.
  eexists. split; [reflexivity|]. split.
  - rewrite dict_get_set_neq by discriminate. apply dict_get_set_eq.
  - apply dict_get_set_eq.
Qed.

Lemma add_bytes_to_item_output_examples :
  (exists item',
     add_bytes_to_item p2tr_output false = Ret item'
     /\ dict_get "scriptType" item' = Some (JStr "P2TR")
     /\ dict_get "bytes" item' = Some (JInt 43))
  /\ (exists item',
       add_bytes_to_item op_return_output false = Ret item'
       /\ dict_get "scriptType" item' = Some (JStr "OP_RETURN")
       /\ dict_get "bytes" item' = Some (JInt 0)).
Proof.
  split.
  - exact (add_bytes_to_item_output_table p2tr_output "P2TR" eq_refl).
  - exact (add_bytes_to_item_output_table op_return_output "OP_RETURN" eq_refl).
Defined.

End SizeAccountant.

(** ** The script classifier *)

Section ScriptClassifier.

Import Classifier.

Lemma prefix_cons_inv (a : ascii) (p s : string) :
  String.prefix (String a p) s = true ->
  exists s', s = String a s' /\ String.prefix p s' = true.
Proof.
  destruct s as [|b s']; simpl; [discriminate|].
  destruct (ascii_dec a b) as [->|]; [|discriminate].
  intros Hp. now exists s'.
Qed.

Lemma rstrip_cons_nonspace (c : ascii) (s : string) :
  is_space c = false -> rstrip (String c s) = String c (rstrip s).
Proof.
  intros Hc. simpl. destruct (rstrip s); [now rewrite Hc | reflexivity].
Qed.

(** Stripping keeps a Taproot prefix in place. *)
Lemma strip_keeps_bc1p (addr : string) :
  startswith addr "bc1p" = true ->
  exists rest, strip addr = String "b" (String "c" (String "1" (String "p" rest))).
Proof.
  unfold startswith. intros Hp.
  apply prefix_cons_inv in Hp as (s1 & -> & Hp).
  apply prefix_cons_inv in Hp as (s2 & -> & Hp).
  apply prefix_cons_inv in Hp as (s3 & -> & Hp).
  apply prefix_cons_inv in Hp as (s4 & -> & _).
  exists (rstrip s4). unfold strip.
  change (lstrip (String "b" (String "c" (String "1" (String "p" s4)))))
    with (String "b" (String "c" (String "1" (String "p" s4)))).
  now rewrite !rstrip_cons_nonspace by reflexivity.
Qed.

Lemma classify_taproot (self : dict -> result string) (utxo : dict)
  (addr : string) :
  dict_get_default "inputHash" (JStr "") utxo = JStr addr ->
  startswith addr "bc1p" = true ->
  scriptSig_readable utxo = true ->
  classify_body self utxo
  = taproot_path (dict_get_default "txinwitness" (JList []) utxo).
Proof.
  intros Hhash Hp Hsig.
  unfold scriptSig_readable in Hsig. apply andb_prop in Hsig as [Hasm Hhex].
  unfold classify_body. rewrite Hhash. cbn [as_str bind].
  destruct (scriptSig_field "asm" utxo); [|discriminate].
  destruct (scriptSig_field "hex" utxo); [|discriminate].
  cbn [bind].
  destruct (strip_keeps_bc1p addr Hp) as [rest ->].
  set (stripped := String "b" (String "c" (String "1" (String "p" rest)))).
  replace (startswith stripped "1") with false by reflexivity.
  replace (startswith stripped "bc1q") with false by reflexivity.
  replace (startswith stripped "3") with false by reflexivity.
  replace (startswith stripped "bc1p") with true
    by (subst stripped; destruct rest; reflexivity).
  reflexivity.
Qed.

(** C10. A descriptor whose address begins with [bc1p] is tagged by the
    length of its witness stack alone: key path exactly when the stack
    has one element.  With an empty or missing stack the tag is
    [P2TR_script_path], and no exception is raised. *)
Theorem classify_utxo_taproot_witness (utxo : dict) (addr : string) :
  dict_get_default "inputHash" (JStr "") utxo = JStr addr ->
  startswith addr "bc1p" = true ->
  scriptSig_readable utxo = true ->
  (dict_get_default "txinwitness" (JList []) utxo = JList [] ->
   classify_utxo utxo = Ret "P2TR_script_path")
  /\ (forall n : Z,
       py_len (dict_get_default "txinwitness" (JList []) utxo) = Ret n ->
       (n = 1 -> classify_utxo utxo = Ret "P2TR_key_path")
       /\ (n <> 1 -> classify_utxo utxo = Ret "P2TR_script_path")).
Proof.
  intros Hhash Hp Hsig.
  unfold classify_utxo.
  rewrite (classify_taproot _ utxo addr Hhash Hp Hsig).
  unfold taproot_path. split.
  - intros ->. reflexivity.
  - intros n ->. cbn [bind]. split.
    + intros ->. reflexivity.
    + intros Hn. apply Z.eqb_neq in Hn. now rewrite Hn.
Qed.

Lemma classify_utxo_taproot_examples :
  classify_utxo taproot_no_witness = Ret "P2TR_script_path"
  /\ classify_utxo taproot_empty_witness = Ret "P2TR_script_path"
  /\ classify_utxo taproot_one_witness = Ret "P2TR_key_path".
Proof.
  split; [|split].
  - exact (proj1 (classify_utxo_taproot_witness taproot_no_witness _
                    eq_refl eq_refl eq_refl) eq_refl).
  - exact (proj1 (classify_utxo_taproot_witness taproot_empty_witness _
                    eq_refl eq_refl eq_refl) eq_refl).
  - exact (proj1 (proj2 (classify_utxo_taproot_witness taproot_one_witness _
                           eq_refl eq_refl eq_refl) 1 eq_refl) eq_refl).
Defined.

Lemma classify_body_tags (self : dict -> result string) :
  (forall u t, self u = Ret t -> In t classifier_tags) ->
  forall utxo tag, classify_body self utxo = Ret tag -> In tag classifier_tags.
Proof.
  intros Hself utxo tag H.
  unfold classify_body, taproot_path in H.
  repeat match type of H with
         | context [bind ?m _] => destruct m eqn:?; cbn [bind] in H
         | context [if ?c then _ else _] => destruct c eqn:?
         end;
    try discriminate;
    try (injection H as <-; simpl; tauto);
    eauto.
Qed.

Lemma classify_utxo_tags (utxo : dict) (tag : string) :
  classify_utxo utxo = Ret tag -> In tag classifier_tags.
Proof.
  unfold classify_utxo.
  apply classify_body_tags. apply classify_body_tags. discriminate.
Qed.

Lemma as_str_raises (v : json) (e : exn) :
  as_str v = Raise e -> e = AttributeError.
Proof. destruct v; simpl; congruence. Qed.

Lemma as_dict_raises (v : json) (e : exn) :
  as_dict v = Raise e -> e = AttributeError.
Proof. destruct v; simpl; congruence. Qed.

Lemma py_len_raises (v : json) (e : exn) :
  py_len v = Raise e -> e = TypeError.
Proof. destruct v; simpl; congruence. Qed.

Lemma scriptSig_field_raises (k : string) (utxo : dict) (e : exn) :
  scriptSig_field k utxo = Raise e -> e = AttributeError.
Proof.
  unfold scriptSig_field.
  destruct (as_dict _) eqn:Ed; cbn [bind].
  - destruct (as_str _) eqn:Es; cbn [bind]; [discriminate|].
    intros [= <-]. eapply as_str_raises, Es.
  - intros [= <-]. eapply as_dict_raises, Ed.
Qed.

Lemma taproot_path_raises (w : json) (e : exn) :
  taproot_path w = Raise e -> e = TypeError.
Proof.
  unfold taproot_path. destruct (py_len w) eqn:E; cbn [bind]; [discriminate|].
  intros [= <-]. eapply py_len_raises, E.
Qed.

(** What one unfolding of the body can raise, beyond what the recursive
    call raises. *)
Lemma classify_body_raises (self : dict -> result string) (utxo : dict)
  (e : exn) :
  classify_body self utxo = Raise e ->
  e = AttributeError \/ e = TypeError
  \/ self (dict_set "inputHash" (JStr "3") utxo) = Raise e.
Proof.
  unfold classify_body.
  destruct (as_str (dict_get_default "inputHash" _ _)) eqn:E0; cbn [bind];
    [|intros [= <-]; left; eapply as_str_raises, E0].
  destruct (scriptSig_field "asm" utxo) eqn:E1; cbn [bind];
    [|intros [= <-]; left; eapply scriptSig_field_raises, E1].
  destruct (scriptSig_field "hex" utxo) eqn:E2; cbn [bind];
    [|intros [= <-]; left; eapply scriptSig_field_raises, E2].
  destruct (as_str (dict_get_default "scriptType" _ _)) eqn:E3; cbn [bind].
  - repeat match goal with
           | |- context [if ?c then _ else _] => destruct c
           end;
      try discriminate; intros Hr;
      try (right; left; eapply taproot_path_raises, Hr);
      right; right; exact Hr.
  - repeat match goal with
           | |- context [if ?c then _ else _] => destruct c
           end;
      try discriminate; intros Hr;
      try (right; left; eapply taproot_path_raises, Hr);
      injection Hr as <-; left; eapply as_str_raises, E3.
Qed.

(** The recursive call is answered by the P2SH branch, so the second
    unfolding never calls back: [classify_utxo] raises nothing but the
    AttributeError and TypeError of an ill-typed descriptor. *)
Lemma classify_utxo_raises (utxo : dict) (e : exn) :
  classify_utxo utxo = Raise e -> e = AttributeError \/ e = TypeError.
Proof.
  unfold classify_utxo. intros Hr.
  apply classify_body_raises in Hr as [He|[He|Hr]]; auto.
  revert Hr. unfold classify_body.
  unfold dict_get_default at 1. rewrite dict_get_set_eq. cbn [as_str bind].
  destruct (scriptSig_field "asm" _) eqn:E1; cbn [bind];
    [|intros [= <-]; left; eapply scriptSig_field_raises, E1].
  destruct (scriptSig_field "hex" _) eqn:E2; cbn [bind];
    [|intros [= <-]; left; eapply scriptSig_field_raises, E2].
  change (strip "3") with "3".
  change (startswith "3" "1") with false.
  change (startswith "3" "bc1q") with false.
  change (startswith "3" "3") with true. cbv iota.
  repeat match goal with
         | |- context [if ?c then _ else _] => destruct c
         end; discriminate.
Qed.

(** Stripping keeps the first character of the marker in place. *)
Lemma strip_keeps_marker (addr : string) :
  startswith addr "OP_RETURN" = true ->
  exists rest, strip addr = String "O" rest.
Proof.
  unfold startswith. intros Hp.
  apply prefix_cons_inv in Hp as (s1 & -> & _).
  exists (rstrip s1). unfold strip.
  change (lstrip (String "O" s1)) with (String "O" s1).
  now rewrite rstrip_cons_nonspace by reflexivity.
Qed.

(** An address that begins with the marker has none of the prefixes the
    input classifier tests: without a stored type the answer is
    [Non-Standard]. *)
Lemma classify_utxo_marker (utxo : dict) (addr tag : string) :
  dict_get_default "inputHash" (JStr "") utxo = JStr addr ->
  startswith addr "OP_RETURN" = true ->
  dict_get "scriptType" utxo = None ->
  classify_utxo utxo = Ret tag ->
  tag = "Non-Standard".
Proof.
  intros Hhash Hp Hst.
  unfold classify_utxo, classify_body at 1. rewrite Hhash. cbn [as_str bind].
  destruct (scriptSig_field "asm" utxo); cbn [bind]; [|discriminate].
  destruct (scriptSig_field "hex" utxo); cbn [bind]; [|discriminate].
  destruct (strip_keeps_marker addr Hp) as [rest ->].
  set (stripped := String "O" rest).
  replace (startswith stripped "1") with false by reflexivity.
  replace (startswith stripped "bc1q") with false by reflexivity.
  replace (startswith stripped "3") with false by reflexivity.
  replace (startswith stripped "bc1p") with false by reflexivity.
  unfold dict_get_default at 1. rewrite Hst. cbn [as_str bind].
  change (upper "") with "". cbn [String.eqb].
  now intros [= <-].
Qed.

(** C7, as the code has it.  The address classifier of the size
    accountant answers [OP_RETURN] for every address that begins with
    the literal marker, and [UNKNOWN] for an empty address.  The input
    classifier has no such tag at all: it never answers [OP_RETURN]; a
    descriptor whose address begins with the marker and that stores no
    type is tagged [Non-Standard], and a stored type can decide
    otherwise, as for the address [OP_RETURN 6a24] stored as [P2TR]. *)
Theorem op_return_classification :
  (forall address : string,
     startswith address "OP_RETURN" = true ->
     Annotate.identify_script_type (JStr address) = "OP_RETURN")
  /\ Annotate.identify_script_type (JStr "") = "UNKNOWN"
  /\ (forall utxo tag, classify_utxo utxo = Ret tag -> tag <> "OP_RETURN")
  /\ (forall (utxo : dict) (address tag : string),
        dict_get_default "inputHash" (JStr "") utxo = JStr address ->
        startswith address "OP_RETURN" = true ->
        dict_get "scriptType" utxo = None ->
        classify_utxo utxo = Ret tag ->
        tag = "Non-Standard")
  /\ classify_utxo [("inputHash", JStr "OP_RETURN 6a24");
                    ("scriptType", JStr "P2TR")]
     = Ret "P2TR_script_path".
Proof.
  split; [|split; [|split; [|split]]].
  - intros address Hp. unfold Annotate.identify_script_type.
    rewrite Hp.
    destruct (String.eqb_spec address "") as [->|]; [discriminate|reflexivity].
  - reflexivity.
  - intros utxo tag H Heq. subst tag.
    apply classify_utxo_tags in H. simpl in H.
    repeat destruct H as [H|H]; try discriminate H. exact H.
  - exact classify_utxo_marker.
  - reflexivity.
Qed.

Lemma op_return_classification_examples :
  Annotate.identify_script_type (JStr "OP_RETURN 6a24aa21a9ed") = "OP_RETURN"
  /\ classify_utxo [("inputHash", JStr "OP_RETURN")] = Ret "Non-Standard"
  /\ "Non-Standard" <> "OP_RETURN"
  /\ "Non-Standard" = "Non-Standard".
Proof.
  split; [|split; [|split]].
  - exact (proj1 op_return_classification "OP_RETURN 6a24aa21a9ed" eq_refl).
  - reflexivity.
  - exact (proj1 (proj2 (proj2 op_return_classification))
             [("inputHash", JStr "OP_RETURN")] "Non-Standard" eq_refl).
  - exact (proj1 (proj2 (proj2 (proj2 op_return_classification)))
             [("inputHash", JStr "OP_RETURN")] "OP_RETURN" "Non-Standard"
             eq_refl eq_refl eq_refl eq_refl).
Defined.

(** An empty address, and an address that is the literal marker, are
    not classified as [OP_RETURN]. *)
Lemma empty_address_not_op_return :
  Annotate.identify_script_type (JStr "") <> "OP_RETURN"
  /\ classify_utxo [("inputHash", JStr "")] <> Ret "OP_RETURN"
  /\ classify_utxo [("inputHash", JStr "OP_RETURN")] <> Ret "OP_RETURN".
Proof. repeat split; discriminate. Qed.

End ScriptClassifier.

(** ** The outlier classifier *)

Section OutlierClassifier.

Import Dust.

Lemma SFcompare_antisym (a b : pyfloat) :
  SFcompare b a = option_map CompOpp (SFcompare a b).
Proof.
  destruct a as [sa|sa| |sa ma ea], b as [sb|sb| |sb mb eb]; simpl;
    try reflexivity;
    try (destruct sa; reflexivity);
    try (destruct sb; reflexivity);
    try (destruct sa, sb; reflexivity).
  f_equal.
  destruct sa, sb; simpl; try reflexivity;
    rewrite (Z.compare_antisym ea eb);
    destruct (ea ?= eb)%Z; simpl; try reflexivity;
    rewrite (Pos.compare_cont_antisym ma mb Eq); reflexivity.
Qed.

Lemma SFcompare_defined (a b : pyfloat) :
  is_nan a = false -> is_nan b = false -> SFcompare a b <> None.
Proof.
  destruct a as [sa|sa| |sa ma ea], b as [sb|sb| |sb mb eb]; simpl;
    intros; try discriminate; try (destruct sa; discriminate).
Qed.

(** Away from NaN, "not greater than" is "less than or equal to". *)
Lemma not_flt_fle (a b : pyfloat) :
  is_nan a = false -> is_nan b = false -> negb (flt a b) = fle b a.
Proof.
  intros Ha Hb. unfold flt, fle, SFltb, SFleb.
  rewrite (SFcompare_antisym a b).
  pose proof (SFcompare_defined a b Ha Hb) as Hc.
  destruct (SFcompare a b) as [[]|]; simpl; try reflexivity.
  now contradiction Hc.
Qed.

Lemma insert_sorted_perm (x : pyfloat) (l : list pyfloat) :
  Permutation (insert_sorted x l) (x :: l).
Proof.
  induction l as [|y l IH]; cbn [insert_sorted]; [reflexivity|].
  destruct (fle x y); [reflexivity|].
  rewrite IH. apply perm_swap.
Qed.

Lemma sort_floats_perm (l : list pyfloat) : Permutation (sort_floats l) l.
Proof.
  unfold sort_floats. induction l as [|x l IH]; cbn [fold_right]; [reflexivity|].
  rewrite insert_sorted_perm. now constructor.
Qed.

Lemma sort_floats_length (l : list pyfloat) :
  List.length (sort_floats l) = List.length l.
Proof. apply Permutation_length, sort_floats_perm. Qed.

Lemma fle_total (a b : pyfloat) :
  is_nan a = false -> is_nan b = false -> fle a b = false -> fle b a = true.
Proof.
  intros Ha Hb. unfold fle, SFleb.
  rewrite (SFcompare_antisym a b).
  pose proof (SFcompare_defined a b Ha Hb) as Hc.
  destruct (SFcompare a b) as [[]|]; simpl; congruence.
Qed.

Lemma insert_sorted_nan (x : pyfloat) (l : list pyfloat) :
  existsb is_nan (insert_sorted x l) = is_nan x || existsb is_nan l.
Proof.
  induction l as [|y l IH]; cbn [insert_sorted existsb]; [reflexivity|].
  destruct (fle x y); cbn [existsb]; [reflexivity|].
  rewrite IH. now destruct (is_nan x), (is_nan y).
Qed.

Lemma sort_floats_nan (l : list pyfloat) :
  existsb is_nan (sort_floats l) = existsb is_nan l.
Proof.
  unfold sort_floats. induction l as [|x l IH]; cbn [fold_right existsb];
    [reflexivity|].
  now rewrite insert_sorted_nan, IH.
Qed.

Lemma insert_sorted_sorted (x : pyfloat) (l : list pyfloat) :
  is_nan x = false -> existsb is_nan l = false ->
  Sorted (fun a b => fle a b = true) l ->
  Sorted (fun a b => fle a b = true) (insert_sorted x l).
Proof.
  intros Hx. induction l as [|y l IH]; intros Hl Hs; cbn [insert_sorted].
  - repeat constructor.
  - cbn [existsb] in Hl. apply orb_false_elim in Hl as [Hy Hl].
    destruct (fle x y) eqn:Exy.
    + constructor; [exact Hs|]. now constructor.
    + inversion Hs as [|y' l' Hs' Hhd]; subst.
      constructor; [now apply IH|].
      destruct l as [|z l]; cbn [insert_sorted].
      * constructor. now apply fle_total.
      * destruct (fle x z).
        -- constructor. now apply fle_total.
        -- inversion Hhd; subst. now constructor.
Qed.

Lemma sort_floats_sorted (l : list pyfloat) :
  existsb is_nan l = false ->
  Sorted (fun a b => fle a b = true) (sort_floats l).
Proof.
  induction l as [|x l IH]; intros Hl.
  - constructor.
  - cbn [existsb] in Hl. apply orb_false_elim in Hl as [Hx Hl].
    change (sort_floats (x :: l)) with (insert_sorted x (sort_floats l)).
    apply insert_sorted_sorted; [exact Hx|now rewrite sort_floats_nan|].
    now apply IH.
Qed.

(** The index arithmetic of the two quartiles is exact: the virtual
    index [(n - 1) * k / 4] is a binary64 value, its integer part is
    the lower rank and its fractional part the weight. *)
Lemma np_percentile_quartile (k : Z) (sample : list pyfloat) :
  k = 1 \/ k = 3 ->
  existsb is_nan sample = false ->
  (2 <= List.length sample)%nat ->
  Z.of_nat (List.length sample) <= 2 ^ 50 ->
  np_percentile sample (25 * k) = Reference.quartile k (sort_floats sample).
Proof.
  intros Hk Hnan H2 Hmax.
  unfold np_percentile, Reference.quartile. rewrite Hnan, sort_floats_length.
  set (w := Z.of_nat (List.length sample) - 1).
  assert (Hw : 0 < w < 2 ^ 50) by (unfold w; lia).
  assert (Hw53 : 0 < w < 2 ^ 53)
    by (change (2 ^ 53) with (8 * 2 ^ 50); lia).
  assert (Hh : 0 < w * k < 2 ^ 53)
    by (change (2 ^ 53) with (8 * 2 ^ 50); lia).
  pose proof (Zdigits2_bound w Hw53) as Hdw.
  pose proof (Zdigits2_bound (w * k) Hh) as Hdh.
  assert (Hq : fdiv (float_lit (25 * k) 1) (float_lit 100 1) = canon k (-2))
    by (destruct Hk as [-> | ->]; vm_compute; reflexivity).
  cbv zeta. rewrite Hq.
  rewrite (normalize_canon w 0) by lia.
  rewrite (mul_canon w 0 k (-2)) by lia.
  change (0 + -2) with (-2).
  rewrite canon_quarter_below by lia.
  rewrite float_floor_quarter by exact Hh.
  rewrite sub_floor_quarter by exact Hh.
  pose proof (Z.div_pos (w * k) 4 ltac:(lia) ltac:(lia)) as Hi.
  unfold np_item.
  replace (w * k / 4 <? 0) with false by (symmetry; apply Z.ltb_ge; lia).
  replace (w * k / 4 + 1 <? 0) with false by (symmetry; apply Z.ltb_ge; lia).
  rewrite (Z.mul_comm k w). unfold lerp.
  pose proof (Z.mod_pos_bound (w * k) 4 ltac:(lia)) as Hr.
  assert (Hcases : w * k mod 4 = 0 \/ w * k mod 4 = 1
                   \/ w * k mod 4 = 2 \/ w * k mod 4 = 3) by lia.
  destruct Hcases as [-> | [-> | [-> | ->]]]; reflexivity.
Qed.

Lemma fsub_diag (x : pyfloat) :
  is_finite x = true -> fsub x x = S754_zero false.
Proof.
  destruct x as [s|s| |s m e]; try discriminate; intros _.
  - now destruct s.
  - unfold fsub. cbn [SFsub]. rewrite Z.min_id. unfold shl_align.
    rewrite Z.sub_diag. cbn [fst].
    replace (cond_Zopp s (Z.pos m) - cond_Zopp s (Z.pos m)) with 0 by lia.
    reflexivity.
Qed.

(** Every percentile of a one-element sample is the element. *)
Lemma np_percentile_singleton (x : pyfloat) :
  is_finite x = true ->
  np_percentile [x] 25 = x /\ np_percentile [x] 75 = x.
Proof.
  intros Hx.
  assert (Hnan : existsb is_nan [x] = false) by (destruct x; try discriminate; reflexivity).
  assert (Hl : lerp x x (float_lit 1 1) = x).
  { unfold lerp. rewrite (fsub_diag x Hx).
    replace (fle (float_lit 1 2) (float_lit 1 1)) with true by reflexivity.
    replace (fmul (S754_zero false) (fsub (float_lit 1 1) (float_lit 1 1)))
      with (S754_zero false) by reflexivity.
    destruct x as [[]|s| |s m e]; try discriminate; reflexivity. }
  unfold np_percentile. rewrite Hnan. cbv zeta.
  change (sort_floats [x]) with [x].
  split; exact Hl.
Qed.

(** C2. With at least one fee rate collected, the threshold is the
    Tukey upper fence [Q3 + 1.5 * (Q3 - Q1)] in binary64 arithmetic.
    For every sample of two rates or more without a NaN, [Q1] and [Q3]
    are the linear-interpolation quartiles of the sample put in
    ascending order: the sorted sample is a rearrangement of the
    sample, it ascends, and the two percentiles interpolate between the
    values of rank [floor (k (n - 1) / 4)] and the next, with the weight
    [(k (n - 1) mod 4) / 4].  Both quartiles of a single finite rate are
    that rate.  On the sample [1, ..., 9, 100] the quartiles are 3.25
    and 7.75 and the threshold is 14.5. *)
Theorem upper_threshold_tukey_fence :
  (forall (rate : pyfloat) (rates : list pyfloat),
     let sample := rate :: rates in
     let q1 := np_percentile sample 25 in
     let q3 := np_percentile sample 75 in
     upper_threshold sample
     = Some (fadd q3 (fmul (float_lit 3 2) (fsub q3 q1))))
  /\ (forall sample : list pyfloat,
        existsb is_nan sample = false ->
        (2 <= List.length sample)%nat ->
        Z.of_nat (List.length sample) <= 2 ^ 50 ->
        Permutation (sort_floats sample) sample
        /\ Sorted (fun a b => fle a b = true) (sort_floats sample)
        /\ np_percentile sample 25 = Reference.quartile 1 (sort_floats sample)
        /\ np_percentile sample 75 = Reference.quartile 3 (sort_floats sample))
  /\ (forall x : pyfloat,
        is_finite x = true ->
        np_percentile [x] 25 = x /\ np_percentile [x] 75 = x)
  /\ np_percentile fee_sample 25 = float_lit 325 100
  /\ np_percentile fee_sample 75 = float_lit 775 100
  /\ upper_threshold fee_sample = Some (float_lit 145 10).
Proof.
  split; [|split; [|split]].
  - intros rate rates. reflexivity.
  - intros sample Hnan H2 Hmax.
    split; [apply sort_floats_perm|].
    split; [now apply sort_floats_sorted|].
    split.
    + exact (np_percentile_quartile 1 sample (or_introl eq_refl) Hnan H2 Hmax).
    + exact (np_percentile_quartile 3 sample (or_intror eq_refl) Hnan H2 Hmax).
  - exact np_percentile_singleton.
  - vm_compute. repeat split.
Qed.

Lemma upper_threshold_tukey_fence_example :
  Permutation (sort_floats fee_sample) fee_sample
  /\ Sorted (fun a b => fle a b = true) (sort_floats fee_sample)
  /\ np_percentile fee_sample 25 = Reference.quartile 1 (sort_floats fee_sample)
  /\ np_percentile fee_sample 75 = Reference.quartile 3 (sort_floats fee_sample).
Proof.
  apply (proj1 (proj2 upper_threshold_tukey_fence) fee_sample).
  - reflexivity.
  - cbn. lia.
  - cbn. lia.
Defined.

Lemma rates_loop_acc (subs : list json) (acc : list pyfloat) :
  foldM rates_step subs acc
  = (let! rates := foldM rates_step subs [] in Ret (acc ++ rates)%list).
Proof.
  revert acc. induction subs as [|sub subs IH]; intros acc; simpl.
  - now rewrite app_nil_r.
  - unfold rates_step at 1 3.
    destruct (sub_fee_rate sub) as [r|[]]; cbn [bind]; auto.
    rewrite (IH (acc ++ [r])%list), (IH ([] ++ [r])%list).
    destruct (foldM rates_step subs []); cbn [bind]; [|reflexivity].
    now rewrite <- app_assoc.
Qed.

(** The labelling loop answers whether no collected rate exceeds the
    threshold. *)
Lemma is_dust_loop_rates (upper : pyfloat) (subs : list json)
  (rates : list pyfloat) :
  fee_rates subs = Ret rates ->
  is_dust_loop upper subs = Ret (forallb (fun r => negb (flt upper r)) rates).
Proof.
  unfold fee_rates. revert rates.
  induction subs as [|sub subs IH]; intros rates; simpl.
  - intros [= <-]. reflexivity.
  - unfold rates_step at 1.
    destruct (sub_fee_rate sub) as [r|[]]; cbn [bind]; try discriminate; auto.
    rewrite rates_loop_acc.
    destruct (foldM rates_step subs []) as [rs|]; cbn [bind]; [|discriminate].
    intros [= <-]. simpl.
    destruct (flt upper r); simpl; [reflexivity|]. now apply IH.
Qed.

Lemma forallb_false_exists {A : Type} (p : A -> bool) (l : list A) :
  forallb p l = false <-> exists x, In x l /\ p x = false.
Proof.
  induction l as [|x l IH]; simpl.
  - split; [discriminate | intros (? & [] & _)].
  - rewrite andb_false_iff, IH. split.
    + intros [Hx|(y & Hy & Hp)]; [exists x | exists y]; auto.
    + intros (y & [<-|Hy] & Hp); [left | right; exists y]; auto.
Qed.

(** C3. A record is labelled ["1"] exactly when every fee rate of its
    sub-transactions is at most the threshold, and ["0"] exactly when
    one of them exceeds it; with no sub-transaction the label is ["1"].
    The rates are those the passes read (a rate that cannot be converted
    is skipped).  "At most" is meant between numbers: that part is
    stated for a threshold and rates that are not NaN. *)
Theorem annotate_record_label (upper : pyfloat) (record : dict)
  (subs : list json) (rates : list pyfloat) :
  sub_transactions (JDict record) = Ret subs ->
  fee_rates subs = Ret rates ->
  exists label : string,
    annotate_record upper (JDict record)
    = Ret (JDict (dict_set "dust_attacker" (JStr label) record),
           String.eqb label "1")
    /\ (label = "1" \/ label = "0")
    /\ (label = "0" <-> exists r, In r rates /\ flt upper r = true)
    /\ (is_nan upper = false ->
        forallb (fun r => negb (is_nan r)) rates = true ->
        (label = "1" <-> forall r, In r rates -> fle r upper = true))
    /\ (subs = [] -> label = "1").
Proof.
  intros Hsubs Hrates.
  unfold annotate_record. cbn [as_dict bind]. rewrite Hsubs. cbn [bind].
  rewrite (is_dust_loop_rates upper subs rates Hrates). cbn [bind].
  set (ok := forallb (fun r => negb (flt upper r)) rates).
  assert (Hko : ok = false <-> exists r, In r rates /\ flt upper r = true).
  { unfold ok. rewrite forallb_false_exists.
    split; intros (r & Hin & Hr); exists r; split; auto;
      [now apply negb_false_iff in Hr | now apply negb_false_iff]. }
  exists (if ok then "1" else "0").
  split; [|split; [|split; [|split]]].
  - destruct ok; reflexivity.
  - destruct ok; auto.
  - rewrite <- Hko. destruct ok; split; congruence.
  - intros Hupper Hnan.
    assert (Hok : ok = true <-> forall r, In r rates -> fle r upper = true).
    { unfold ok. rewrite forallb_forall. rewrite forallb_forall in Hnan.
      split; intros H r Hr; specialize (H r Hr); specialize (Hnan r Hr);
        apply negb_true_iff in Hnan;
        [rewrite <- not_flt_fle | rewrite not_flt_fle]; auto. }
    rewrite <- Hok. destruct ok; split; congruence.
  - intros ->. unfold fee_rates in Hrates. simpl in Hrates.
    injection Hrates as <-. reflexivity.
Qed.

Lemma annotate_record_label_examples :
  annotate_record (float_lit 145 10) (JDict low_fee_record)
  = Ret (JDict (dict_set "dust_attacker" (JStr "1") low_fee_record), true)
  /\ annotate_record (float_lit 145 10) (JDict high_fee_record)
     = Ret (JDict (dict_set "dust_attacker" (JStr "0") high_fee_record), false).
Proof.
  split.
  - destruct (annotate_record_label (float_lit 145 10) low_fee_record
                [ JDict [("Txn Fee Rate", JStr "14.5")];
                  JDict [("Txn Fee Rate", JInt 3)] ]
                [ float_lit 145 10; float_lit 3 1 ]
                eq_refl eq_refl)
      as (label & Hrun & _ & _ & Hone & _).
    assert (Hlabel : label = "1").
    { apply (Hone eq_refl eq_refl). intros r [<-|[<-|[]]]; reflexivity. }
    now rewrite Hrun, Hlabel.
  - destruct (annotate_record_label (float_lit 145 10) high_fee_record
                [ JDict [("Txn Fee Rate", JInt 3)];
                  JDict [("Txn Fee Rate", JInt 20)] ]
                [ float_lit 3 1; float_lit 20 1 ]
                eq_refl eq_refl)
      as (label & Hrun & _ & Hzero & _ & _).
    assert (Hlabel : label = "0").
    { apply Hzero. exists (float_lit 20 1). split; [right; now left | reflexivity]. }
    now rewrite Hrun, Hlabel.
Defined.

End OutlierClassifier.

(** ** Decimal rendering *)

Section Rendering.

Lemma digit_char_is_digit (d : Z) :
  0 <= d < 10 -> is_digit (digit_char d) = true.
Proof.
  intros Hd.
  assert (H : d = 0 \/ d = 1 \/ d = 2 \/ d = 3 \/ d = 4 \/ d = 5 \/ d = 6
              \/ d = 7 \/ d = 8 \/ d = 9) by lia.
  repeat destruct H as [->|H]; try reflexivity. now subst.
Qed.

Lemma mod10_digit (n : Z) : is_digit (digit_char (n mod 10)) = true.
Proof. apply digit_char_is_digit, Z.mod_pos_bound. lia. Qed.

Section Spans.

Variable q : ascii -> bool.
Hypothesis q_digit : forall c, is_digit c = true -> q c = true.

(** Digits written in front of a string extend its first run. *)
Lemma span_fixed_digits (p : nat) (n : Z) (acc : string) :
  span_while q (fixed_digits p n acc)
  = (fixed_digits p n (fst (span_while q acc)), snd (span_while q acc)).
Proof.
  revert n acc. induction p as [|p IH]; intros n acc; simpl.
  - now destruct (span_while q acc).
  - rewrite IH. simpl. rewrite (q_digit _ (mod10_digit n)).
    now destruct (span_while q acc).
Qed.

Lemma span_int_digits (fuel : nat) (n : Z) (acc : string) :
  span_while q (int_digits fuel n acc)
  = (int_digits fuel n (fst (span_while q acc)), snd (span_while q acc)).
Proof.
  revert n acc. induction fuel as [|fuel IH]; intros n acc; simpl.
  - now destruct (span_while q acc).
  - destruct (n <? 10).
    + simpl. rewrite (q_digit _ (mod10_digit n)).
      now destruct (span_while q acc).
    + rewrite IH. simpl. rewrite (q_digit _ (mod10_digit n)).
      now destruct (span_while q acc).
Qed.

End Spans.

Lemma fixed_digits_length (p : nat) (n : Z) (acc : string) :
  String.length (fixed_digits p n acc) = (p + String.length acc)%nat.
Proof.
  revert n acc. induction p as [|p IH]; intros n acc; simpl; [reflexivity|].
  rewrite IH. simpl. lia.
Qed.

Lemma fixed_digits_all (f : ascii -> bool) (p : nat) (n : Z) (acc : string) :
  (forall c, is_digit c = true -> f c = true) ->
  string_forallb f (fixed_digits p n acc) = string_forallb f acc.
Proof.
  intros Hf. revert n acc. induction p as [|p IH]; intros n acc; simpl; [reflexivity|].
  rewrite IH. simpl. now rewrite (Hf _ (mod10_digit n)).
Qed.

Lemma int_digits_all (f : ascii -> bool) (fuel : nat) (n : Z) (acc : string) :
  (forall c, is_digit c = true -> f c = true) ->
  string_forallb f (int_digits fuel n acc) = string_forallb f acc.
Proof.
  intros Hf. revert n acc. induction fuel as [|fuel IH]; intros n acc; simpl; [reflexivity|].
  destruct (n <? 10); [|rewrite IH]; simpl; now rewrite (Hf _ (mod10_digit n)).
Qed.

Lemma int_digits_cons (fuel : nat) (n : Z) (acc : string) :
  exists c rest,
    int_digits (S fuel) n acc = String c rest /\ is_digit c = true.
Proof.
  revert n acc. induction fuel as [|fuel IH]; intros n acc.
  - simpl. destruct (n <? 10); eauto using mod10_digit.
  - change (int_digits (S (S fuel)) n acc)
      with (let acc' := String (digit_char (n mod 10)) acc in
            if n <? 10 then acc' else int_digits (S fuel) (n / 10) acc').
    cbv zeta. destruct (n <? 10); eauto using mod10_digit.
Qed.

(** A rendered numeral has the fixed-point shape. *)
Lemma render_fixed_shape (p : nat) (n : Z) :
  (0 < p)%nat -> Reference.fixed_point_shape p (render_fixed p n) = true.
Proof.
  intros Hp. unfold Reference.fixed_point_shape, render_fixed.
  destruct p as [|p]; [lia|].
  set (fuel := Z.to_nat (Z.log2 (n / 10 ^ Z.of_nat (S p)))).
  set (ip := n / 10 ^ Z.of_nat (S p)).
  set (fp := fixed_digits (S p) (n mod 10 ^ Z.of_nat (S p)) EmptyString).
  destruct (int_digits_cons fuel ip (String "." fp)) as (c & rest & Heq & Hc).
  assert (Hbody : match int_digits (S fuel) ip (String "." fp) with
                  | String "-"%char r => r
                  | _ => int_digits (S fuel) ip (String "." fp)
                  end = int_digits (S fuel) ip (String "." fp)).
  { rewrite Heq.
    destruct c as [[] [] [] [] [] [] [] []]; try reflexivity; discriminate Hc. }
  rewrite Hbody.
  rewrite (span_int_digits is_digit (fun _ H => H)).
  change (span_while is_digit (String "." fp)) with (EmptyString, String "."%char fp).
  cbn [fst snd].
  destruct (int_digits_cons fuel ip EmptyString) as (c' & rest' & -> & _).
  cbn [String.eqb negb andb].
  unfold fp. rewrite fixed_digits_length, Nat.add_0_r, Nat.eqb_refl.
  now rewrite fixed_digits_all.
Qed.

(** A finite value is printed with exactly [p] decimals. *)
Lemma format_fixed_shape (p : nat) (f : pyfloat) :
  (0 < p)%nat -> is_finite f = true ->
  Reference.fixed_point_shape p (format_fixed p f) = true.
Proof.
  intros Hp Hf.
  assert (Hsign : forall neg n,
             Reference.fixed_point_shape p (sign_prefix neg (render_fixed p n)) = true).
  { intros neg n. pose proof (render_fixed_shape p n Hp) as Hr.
    destruct neg; [|exact Hr].
    unfold sign_prefix. unfold Reference.fixed_point_shape in *.
    destruct p as [|p']; [lia|]. unfold render_fixed in *.
    set (fuel := Z.to_nat (Z.log2 (n / 10 ^ Z.of_nat (S p')))) in *.
    destruct (int_digits_cons fuel (n / 10 ^ Z.of_nat (S p'))
                (String "." (fixed_digits (S p') (n mod 10 ^ Z.of_nat (S p')) EmptyString)))
      as (c & rest & Heq & Hc).
    rewrite Heq in *.
    destruct c as [[] [] [] [] [] [] [] []]; try exact Hr; discriminate Hc. }
  destruct f; try discriminate; simpl; apply Hsign.
Qed.

(** *** What is printed can be read back *)

Lemma digit_plain (c : ascii) : is_digit c = true -> plain c = true.
Proof. destruct c as [[] [] [] [] [] [] [] []]; try discriminate; reflexivity. Qed.

Lemma digit_span (c : ascii) :
  is_digit c = true -> is_digit_or_underscore c = true.
Proof. unfold is_digit_or_underscore. now intros ->. Qed.

Lemma lstrip_plain (s : string) : string_forallb plain s = true -> lstrip s = s.
Proof.
  destruct s as [|c s]; simpl; [reflexivity|].
  unfold plain. intros H. apply andb_prop in H as [Hc _].
  apply negb_true_iff in Hc. now rewrite Hc.
Qed.

Lemma rstrip_plain (s : string) : string_forallb plain s = true -> rstrip s = s.
Proof.
  induction s as [|c s IH]; [reflexivity|].
  intros H. cbn [string_forallb] in H. apply andb_prop in H as [Hc Hs].
  simpl. rewrite (IH Hs). unfold plain in Hc. apply negb_true_iff in Hc.
  rewrite Hc. now destruct s.
Qed.

Lemma strip_plain (s : string) : string_forallb plain s = true -> strip s = s.
Proof. intros H. unfold strip. now rewrite (lstrip_plain s H), (rstrip_plain s H). Qed.

Lemma plain_numeral (c : ascii) : plain c = true -> is_numeral_space c = false.
Proof.
  unfold plain, is_space, is_numeral_space. intros H.
  apply negb_true_iff, orb_false_elim in H as [H1 H2].
  rewrite H1. cbn [orb].
  destruct (Z.eqb_spec (Z.of_nat (nat_of_ascii c)) 32) as [He|]; [|reflexivity].
  rewrite He in H2. discriminate.
Qed.

Lemma lstrip_numeral_plain (s : string) :
  string_forallb plain s = true -> lstrip_numeral s = s.
Proof.
  destruct s as [|c s]; simpl; [reflexivity|].
  intros H. apply andb_prop in H as [Hc _].
  now rewrite (plain_numeral c Hc).
Qed.

Lemma rstrip_numeral_plain (s : string) :
  string_forallb plain s = true -> rstrip_numeral s = s.
Proof.
  induction s as [|c s IH]; [reflexivity|].
  intros H. cbn [string_forallb] in H. apply andb_prop in H as [Hc Hs].
  simpl. rewrite (IH Hs), (plain_numeral c Hc). now destruct s.
Qed.

Lemma strip_numeral_plain (s : string) :
  string_forallb plain s = true -> strip_numeral s = s.
Proof.
  intros H. unfold strip_numeral.
  now rewrite (lstrip_numeral_plain s H), (rstrip_numeral_plain s H).
Qed.

Lemma render_fixed_plain (p : nat) (n : Z) :
  string_forallb plain (render_fixed p n) = true.
Proof.
  unfold render_fixed. rewrite (int_digits_all plain) by apply digit_plain.
  destruct p; [reflexivity|].
  cbn [string_forallb]. now rewrite (fixed_digits_all plain) by apply digit_plain.
Qed.

Lemma render_fixed_cons (p : nat) (n : Z) :
  exists c rest, render_fixed p n = String c rest /\ is_digit c = true.
Proof. unfold render_fixed. apply int_digits_cons. Qed.

Lemma group_value_digits (s : string) (prev : bool) (acc : Z) :
  string_forallb is_digit s = true ->
  s <> EmptyString \/ prev = true ->
  exists v, group_value s prev acc = Some v.
Proof.
  revert prev acc. induction s as [|c s IH]; intros prev acc Hs Hne.
  - destruct Hne as [Hne| ->]; [congruence|]. simpl. eauto.
  - cbn [string_forallb] in Hs. apply andb_prop in Hs as [Hc Hs].
    simpl. rewrite Hc. apply IH; auto.
Qed.

Lemma parse_decimal_render (p : nat) (n : Z) :
  exists v, parse_decimal (render_fixed p n) = Some v.
Proof.
  unfold parse_decimal, span_digits, render_fixed.
  set (fuel := Z.to_nat (Z.log2 (n / 10 ^ Z.of_nat p))).
  set (ip := n / 10 ^ Z.of_nat p).
  rewrite (span_int_digits is_digit_or_underscore digit_span).
  destruct (int_digits_cons fuel ip EmptyString) as (c & rest & Hip & Hc).
  assert (Hall : string_forallb is_digit (int_digits (S fuel) ip EmptyString) = true)
    by now rewrite (int_digits_all is_digit).
  destruct (group_value_digits _ false 0 Hall) as [iv Hiv];
    [left; rewrite Hip; discriminate|].
  destruct p as [|p].
  - cbn [span_while fst snd]. rewrite Hip. unfold opt_group at 1.
    rewrite <- Hip, Hiv. simpl. eauto.
  - set (fp := fixed_digits (S p) (n mod 10 ^ Z.of_nat (S p)) EmptyString).
    change (span_while is_digit_or_underscore (String "." fp))
      with (EmptyString, String "."%char fp).
    cbn [fst snd].
    unfold fp. rewrite (span_fixed_digits is_digit_or_underscore digit_span).
    cbn [span_while fst snd]. fold fp.
    assert (Hfall : string_forallb is_digit fp = true)
      by (unfold fp; now rewrite (fixed_digits_all is_digit)).
    assert (Hfne : fp <> EmptyString).
    { intros Hfp. pose proof (fixed_digits_length (S p) (n mod 10 ^ Z.of_nat (S p)) EmptyString) as Hl.
      fold fp in Hl. rewrite Hfp in Hl. discriminate Hl. }
    destruct (group_value_digits fp false 0 Hfall (or_introl Hfne)) as [fv Hfv].
    rewrite Hip. unfold opt_group. rewrite <- Hip, Hiv.
    destruct fp as [|c0 fp0] eqn:Efp; [congruence|].
    rewrite Hfv. simpl. eauto.
Qed.

(** Whatever [format] prints, [float] reads: the totals stored as
    strings are always read back. *)
Lemma float_of_string_format (p : nat) (f : pyfloat) :
  exists g, float_of_string (format_fixed p f) = Ret g.
Proof.
  assert (Hnum : forall neg n,
             exists g, float_of_string (sign_prefix neg (render_fixed p n)) = Ret g).
  { intros neg n. unfold float_of_string.
    destruct (render_fixed_cons p n) as (c & rest & Hr & Hc).
    destruct (parse_decimal_render p n) as [[m k] Hparse].
    assert (Hplain : string_forallb plain (sign_prefix neg (render_fixed p n)) = true).
    { destruct neg; simpl; [|apply render_fixed_plain].
      apply render_fixed_plain. }
    rewrite (strip_numeral_plain _ Hplain).
    assert (Hsplit : split_sign (sign_prefix neg (render_fixed p n))
                     = (neg, render_fixed p n)).
    { destruct neg; [reflexivity|]. simpl. rewrite Hr.
      destruct c as [[] [] [] [] [] [] [] []]; try discriminate Hc; reflexivity. }
    rewrite Hsplit, Hparse.
    assert (Hword : forall w, (String.length w =? 0)%nat = false ->
                              is_digit (match w with String a _ => a | _ => "0"%char end) = false ->
                              String.eqb (lower (render_fixed p n)) w = false).
    { intros w _ Hw. rewrite Hr. destruct w as [|a w]; [reflexivity|].
      simpl. destruct (Ascii.eqb_spec (lower_char c) a) as [<-|]; [|reflexivity].
      exfalso. clear - Hc Hw.
      destruct c as [[] [] [] [] [] [] [] []]; try discriminate Hc; discriminate Hw. }
    rewrite !Hword by reflexivity. simpl. eauto. }
  destruct f as [neg|neg| |neg m e]; simpl.
  - apply Hnum.
  - destruct neg; eexists; reflexivity.
  - eexists; reflexivity.
  - apply Hnum.
Qed.

End Rendering.

(** ** The cost accountant *)

Section CostAccountant.

Context `{C : JsonCodec}.

Import Cost.

(** C4. For a descriptor of [b] bytes and a recorded fee rate [r] (the
    rate read as 0 when it is missing, null or zero), the cost is
    [b * 1 / 1e8] when [r < 1] and [b * r / 1e8] otherwise, in binary64
    arithmetic, printed with 8 decimals; a finite cost has exactly 8
    digits after the point. *)
Theorem calculate_cost_btc_floor
  (entry : dict) (b : Z) (fee_rate : json) (fb r : pyfloat) :
  dict_get "bytes" entry = Some (JInt b) ->
  float_of_int b = Ret fb ->
  py_float (py_or fee_rate (JInt 0)) = Ret r ->
  let cost := fdiv (if flt r (float_lit 1 1) then fb else fmul fb r) f1e8 in
  calculate_cost_btc (JDict entry) fee_rate = Some (format_fixed 8 cost)
  /\ (is_finite cost = true ->
      Reference.fixed_point_shape 8 (format_fixed 8 cost) = true).
Proof.
  intros Hbytes Hfb Hr cost. split.
  - unfold calculate_cost_btc, calculate_cost_btc_body. cbn [bind].
    unfold dict_get_default. rewrite Hbytes. cbn [py_int bind].
    rewrite Hr. cbn [bind]. unfold cost_value. rewrite Hfb. cbn [bind].
    unfold DEFAULT_FEE_RATE. subst cost.
    destruct (flt r (float_lit 1 1)); reflexivity.
  - apply format_fixed_shape. lia.
Qed.

(** Phase by phase: what the first two phases leave in the record. *)
Lemma recompute_inputs_total (tx d1 : dict) :
  recompute_inputs tx = Ret d1 ->
  exists tv, dict_get "total_victim_cost_btc" d1 = Some (JStr (format_fixed 8 tv)).
Proof.
  unfold recompute_inputs.
  match goal with |- context [bind ?m _] => destruct m as [[tx1 tv]|] end;
    cbn [bind]; [|discriminate].
  intros [= <-]. exists tv. apply dict_get_set_eq.
Qed.

Lemma recompute_attack_total (d1 d2 : dict) :
  recompute_attack d1 = Ret d2 ->
  dict_get "total_victim_cost_btc" d2 = dict_get "total_victim_cost_btc" d1
  /\ exists ta, dict_get "total_attack_cost_btc" d2 = Some (JStr (format_fixed 8 ta)).
Proof.
  unfold recompute_attack.
  destruct (py_iter _) as [items|]; cbn [bind]; [|discriminate].
  destruct (foldM sent_step items _) as [[items' ta]|]; cbn [bind]; [|discriminate].
  intros [= <-]. split.
  - rewrite dict_get_set_neq by discriminate.
    destruct (dict_get_default "sent_utxo_uxns" (JList []) d1); try reflexivity.
    destruct (dict_mem "sent_utxo_uxns" d1); [|reflexivity].
    now rewrite dict_get_set_neq by discriminate.
  - exists ta. apply dict_get_set_eq.
Qed.

(** C5. Once the two cost phases have run, the attack effect is
    [vc / ac * 100] when [ac > 0] and [0] otherwise, printed with 2
    decimals, where [vc] and [ac] are the two totals as read back from
    their 8-decimal strings. *)
Theorem process_tx_attack_effect (tx d1 d2 : dict) :
  recompute_inputs tx = Ret d1 ->
  recompute_attack d1 = Ret d2 ->
  exists (sv sa : string) (vc ac : pyfloat),
    dict_get "total_victim_cost_btc" d2 = Some (JStr sv)
    /\ dict_get "total_attack_cost_btc" d2 = Some (JStr sa)
    /\ float_of_string sv = Ret vc
    /\ float_of_string sa = Ret ac
    /\ let effect := if flt fzero ac then fmul (fdiv vc ac) f100 else fzero in
       process_tx (JDict tx)
       = Ret (JDict (dict_set "attack_effect" (JStr (format_fixed 2 effect)) d2))
       /\ (is_finite effect = true ->
           Reference.fixed_point_shape 2 (format_fixed 2 effect) = true).
Proof.
  intros HA HB.
  destruct (recompute_inputs_total tx d1 HA) as [tv Htv].
  destruct (recompute_attack_total d1 d2 HB) as [Hkeep [ta Hta]].
  rewrite <- Hkeep in Htv.
  destruct (float_of_string_format 8 tv) as [vc Hvc].
  destruct (float_of_string_format 8 ta) as [ac Hac].
  exists (format_fixed 8 tv), (format_fixed 8 ta), vc, ac.
  repeat (split; [assumption|]).
  cbv zeta. split.
  - unfold process_tx. cbn [as_dict bind]. rewrite HA. cbn [bind].
    rewrite HB. cbn [bind]. unfold recompute_effect, dict_item.
    rewrite Htv, Hta. cbn [bind py_float]. rewrite Hvc, Hac. reflexivity.
  - apply format_fixed_shape. lia.
Qed.

(** C8, at the failing input.  A nested field that is a string and does
    not parse makes [process_file] raise: the decoding error is not
    caught, whether the file holds the record alone or first in a
    list. *)
Theorem process_file_nested_json_escapes
  (text : string) (data : json) (tx : dict) (rest : list json) (s : string) :
  loads text = Some data ->
  data = JDict tx \/ data = JList (JDict tx :: rest) ->
  dict_get "Txn Input UTXO Details" tx = Some (JStr s) ->
  loads s = None ->
  process_file text = Raise JSONDecodeError.
Proof.
  intros Htext Hdata Hfield Hbad.
  unfold process_file. rewrite Htext.
  assert (Htx : process_tx (JDict tx) = Raise JSONDecodeError).
  { unfold process_tx. cbn [as_dict bind]. unfold recompute_inputs.
    unfold dict_get_none, dict_get_default. rewrite Hfield.
    cbn [is_none]. unfold load_if_str, json_loads. rewrite Hbad. reflexivity. }
  unfold process_data.
  destruct Hdata as [->| ->]; simpl records_of; simpl mapM; now rewrite Htx.
Qed.

(** The attacker side has the same shape: a sub-transaction whose
    output field is a string that does not parse stops the loop of
    lines 81-93 with the decoding error. *)
Lemma recompute_attack_json_escapes
  (tx sd : dict) (more : list json) (s : string) :
  dict_get "sent_utxo_uxns" tx = Some (JList (JDict sd :: more)) ->
  dict_get "Txn Output UTXO Details" sd = Some (JStr s) ->
  loads s = None ->
  recompute_attack tx = Raise JSONDecodeError.
Proof.
  intros Hsent Hfield Hbad.
  unfold recompute_attack, dict_get_default. rewrite Hsent.
  cbn [py_iter bind foldM]. unfold sent_step at 1. cbn [as_dict bind].
  unfold dict_get_none, dict_get_default. rewrite Hfield.
  cbn [is_none]. unfold load_if_str, json_loads. rewrite Hbad. reflexivity.
Qed.

End CostAccountant.

Section CostExamples.

Import Cost.

#[local] Existing Instance ReferenceCodec.codec.

Lemma calculate_cost_btc_floor_examples :
  calculate_cost_btc (JDict [("bytes", JInt 100)]) (JInt 0) = Some "0.00000100"
  /\ calculate_cost_btc (JDict [("bytes", JInt 100)]) JNull = Some "0.00000100"
  /\ calculate_cost_btc (JDict [("bytes", JInt 100)]) (JInt (-3)) = Some "0.00000100"
  /\ calculate_cost_btc (JDict [("bytes", JInt 100)]) (JFloat (float_lit 5 2))
     = Some "0.00000250"
  /\ Reference.fixed_point_shape 8 "0.00000100" = true.
Proof.
  split; [|split; [|split; [|split]]].
  - exact (proj1 (calculate_cost_btc_floor [("bytes", JInt 100)] 100 (JInt 0)
                    _ _ eq_refl eq_refl eq_refl)).
  - exact (proj1 (calculate_cost_btc_floor [("bytes", JInt 100)] 100 JNull
                    _ _ eq_refl eq_refl eq_refl)).
  - exact (proj1 (calculate_cost_btc_floor [("bytes", JInt 100)] 100 (JInt (-3))
                    _ _ eq_refl eq_refl eq_refl)).
  - exact (proj1 (calculate_cost_btc_floor [("bytes", JInt 100)] 100
                    (JFloat (float_lit 5 2)) _ _ eq_refl eq_refl eq_refl)).
  - exact (proj2 (calculate_cost_btc_floor [("bytes", JInt 100)] 100 (JInt 0)
                    _ _ eq_refl eq_refl eq_refl) eq_refl).
Defined.

Lemma example_tx_phases :
  recompute_inputs example_tx = Ret example_tx_inputs_done
  /\ recompute_attack example_tx_inputs_done = Ret example_tx_attack_done.
Proof. split; vm_compute; reflexivity. Qed.

Lemma process_tx_attack_effect_example :
  exists (sv sa : string) (vc ac : pyfloat),
    dict_get "total_victim_cost_btc" example_tx_attack_done = Some (JStr sv)
    /\ dict_get "total_attack_cost_btc" example_tx_attack_done = Some (JStr sa)
    /\ float_of_string sv = Ret vc
    /\ float_of_string sa = Ret ac
    /\ let effect := if flt fzero ac then fmul (fdiv vc ac) f100 else fzero in
       process_tx (JDict example_tx)
       = Ret (JDict (dict_set "attack_effect" (JStr (format_fixed 2 effect))
                       example_tx_attack_done))
       /\ (is_finite effect = true ->
           Reference.fixed_point_shape 2 (format_fixed 2 effect) = true).
Proof.
  exact (process_tx_attack_effect example_tx
           example_tx_inputs_done example_tx_attack_done
           (proj1 example_tx_phases) (proj2 example_tx_phases)).
Defined.

(** The example of the specification: totals 0.00010000 and 0.00005000
    give the effect 200.00. *)
Lemma process_tx_example_effect :
  exists out : dict,
    process_tx (JDict example_tx) = Ret (JDict out)
    /\ dict_get "total_victim_cost_btc" out = Some (JStr "0.00010000")
    /\ dict_get "total_attack_cost_btc" out = Some (JStr "0.00005000")
    /\ dict_get "attack_effect" out = Some (JStr "200.00").
Proof.
  eexists. split; [vm_compute; reflexivity|].
  split; [|split]; vm_compute; reflexivity.
Qed.

Lemma process_file_nested_json_escapes_example :
  process_file (dumps (JDict malformed_tx)) = Raise JSONDecodeError.
Proof.
  apply (process_file_nested_json_escapes
           (dumps (JDict malformed_tx)) (JDict malformed_tx) malformed_tx []
           "not json").
  - vm_compute. reflexivity.
  - left. reflexivity.
  - reflexivity.
  - vm_compute. reflexivity.
Defined.

End CostExamples.

(** ** Idempotence of the recomputation pass *)

Section Idempotence.

Context `{C : JsonCodec} {L : JsonRoundTrip C}.

Import Cost.

(** The cost of an entry depends on its [bytes] alone. *)
Lemma calculate_cost_btc_set (key : string) (v : json) (d : dict) (fee_rate : json) :
  key <> "bytes" ->
  calculate_cost_btc (JDict (dict_set key v d)) fee_rate
  = calculate_cost_btc (JDict d) fee_rate.
Proof.
  intros Hkey. unfold calculate_cost_btc, calculate_cost_btc_body.
  cbn [bind]. unfold dict_get_default.
  now rewrite dict_get_set_neq by congruence.
Qed.

(** Tagging a tagged entry changes nothing. *)
Lemma tag_cost_idem (key : string) (fee_rate : json) (d d' : dict)
  (total total' : pyfloat) :
  key <> "bytes" ->
  tag_cost key fee_rate d total = Ret (d', total') ->
  tag_cost key fee_rate d' total = Ret (d', total')
  /\ (json_wf (JDict d) = true -> json_wf (JDict d') = true).
Proof.
  intros Hkey. unfold tag_cost.
  destruct (calculate_cost_btc (JDict d) fee_rate) as [cost|] eqn:Ecost.
  - destruct (float_of_string cost) as [c|] eqn:Ec; cbn [bind]; [|discriminate].
    intros [= <- <-]. split.
    + rewrite calculate_cost_btc_set, Ecost, Ec by exact Hkey. cbn [bind].
      now rewrite dict_set_set.
    + intros Hwf. now apply json_wf_dict_set.
  - intros [= <- <-]. rewrite Ecost. auto.
Qed.

(** The loop over the input entries, run on its own output. *)
Lemma input_loop_idem (fee_rate : json) (items : list json) :
  forall (done : list json) (total : pyfloat) (out : list json) (total' : pyfloat),
    foldM (input_step fee_rate) items (done, total) = Ret (out, total') ->
    exists items',
      out = (done ++ items')%list
      /\ (forall done2,
            foldM (input_step fee_rate) items' (done2, total)
            = Ret ((done2 ++ items')%list, total'))
      /\ (forallb json_wf items = true -> forallb json_wf items' = true).
Proof.
  induction items as [|item items IH]; intros done total out total'; simpl.
  - intros [= <- <-]. exists []. rewrite app_nil_r. split; [reflexivity|].
    split; [|auto]. intros done2. now rewrite app_nil_r.
  - assert (Hskip : forall other : json,
               foldM (input_step fee_rate) items ((done ++ [other])%list, total)
               = Ret (out, total') ->
               (forall done2,
                   input_step fee_rate (done2, total) other
                   = Ret ((done2 ++ [other])%list, total)) ->
               exists items',
                 out = (done ++ items')%list
                 /\ (forall done2,
                       foldM (input_step fee_rate) items' (done2, total)
                       = Ret ((done2 ++ items')%list, total'))
                 /\ (forallb json_wf (other :: items) = true ->
                     forallb json_wf items' = true)).
    { intros other H Hstep. apply IH in H as (items' & -> & Hrun & Hwf).
      exists (other :: items'). rewrite <- app_assoc. split; [reflexivity|].
      split.
      - intros done2. cbn [foldM]. rewrite Hstep. cbn [bind].
        rewrite Hrun, <- app_assoc. reflexivity.
      - cbn [forallb]. intros Hall. apply andb_prop in Hall as [Ho Hall].
        now rewrite Ho, (Hwf Hall). }
    destruct item as [ |b|z|f|s|l|d];
      try (cbn [bind]; intros H; now apply Hskip in H).
    destruct (tag_cost "victim_cost_btc" fee_rate d total) as [[d' t1]|] eqn:Etag;
      cbn [bind]; [|discriminate].
    intros H. apply IH in H as (items' & -> & Hrun & Hwf).
    assert (Hkey : "victim_cost_btc" <> "bytes") by discriminate.
    destruct (tag_cost_idem _ _ _ _ _ _ Hkey Etag) as [Hidem Hdwf].
    exists (JDict d' :: items'). rewrite <- app_assoc. split; [reflexivity|].
    split.
    + intros done2. simpl. rewrite Hidem. cbn [bind].
      rewrite Hrun, <- app_assoc. reflexivity.
    + intros Hall. cbn [forallb] in Hall |- *. apply andb_prop in Hall as [Hd Hall].
      now rewrite (Hdwf Hd), (Hwf Hall).
Qed.

Lemma tag_entries_idem (fee_rate entries entries' : json) (t0 total : pyfloat) :
  tag_entries fee_rate entries t0 = Ret (entries', total) ->
  tag_entries fee_rate entries' t0 = Ret (entries', total)
  /\ (json_wf entries = true -> json_wf entries' = true)
  /\ is_none entries' = is_none entries
  /\ is_str entries' = is_str entries.
Proof.
  assert (Hkey : "victim_cost_btc" <> "bytes") by discriminate.
  destruct entries as [ |b|z|f|s|items|d]; cbn [tag_entries];
    try (intros [= <- <-]; auto).
  - destruct (foldM (input_step fee_rate) items ([], t0)) as [[items' t1]|] eqn:E;
      cbn [bind]; [|discriminate].
    intros [= <- <-].
    apply input_loop_idem in E as (items'' & Hout & Hrun & Hwf).
    simpl in Hout. subst items''. cbn [tag_entries]. rewrite (Hrun []).
    cbn [bind]. auto.
  - destruct (tag_cost "victim_cost_btc" fee_rate d t0) as [[d' t1]|] eqn:E;
      cbn [bind]; [|discriminate].
    intros [= <- <-].
    destruct (tag_cost_idem _ _ _ _ _ _ Hkey E) as [Hidem Hwf].
    cbn [tag_entries]. rewrite Hidem. cbn [bind]. auto.
Qed.

Lemma tag_attack_idem (rate_out entry entry' : json) (t0 total : pyfloat) :
  tag_attack rate_out entry t0 = Ret (entry', total) ->
  tag_attack rate_out entry' t0 = Ret (entry', total)
  /\ (json_wf entry = true -> json_wf entry' = true)
  /\ is_none entry' = is_none entry
  /\ is_str entry' = is_str entry.
Proof.
  assert (Hkey : "attack_cost_btc" <> "bytes") by discriminate.
  unfold tag_attack at 1.
  destruct (calculate_cost_btc entry rate_out) as [cost|] eqn:Ecost.
  - destruct entry as [ |b|z|f|s|items|d]; try discriminate.
    destruct (float_of_string cost) as [c|] eqn:Ec; cbn [bind]; [|discriminate].
    intros [= <- <-]. unfold tag_attack.
    rewrite calculate_cost_btc_set, Ecost, Ec by exact Hkey. cbn [bind].
    rewrite dict_set_set. repeat split.
    intros Hwf. now apply json_wf_dict_set.
  - intros [= <- <-]. unfold tag_attack. rewrite Ecost. auto.
Qed.

(** A field written back by the pass is read back as it was written. *)
Lemma stored_field (raw entries entries' : json) :
  is_none raw = false ->
  load_if_str raw = Ret entries ->
  (json_wf entries = true -> json_wf entries' = true) ->
  is_none entries' = is_none entries ->
  is_str entries' = is_str entries ->
  is_none (dump_if_str raw entries') = false
  /\ load_if_str (dump_if_str raw entries') = Ret entries'
  /\ dump_if_str (dump_if_str raw entries') entries' = dump_if_str raw entries'.
Proof.
  intros Hraw Hload Hwf Hnone Hstr.
  destruct raw as [ |b|z|f|s|l|d]; try discriminate Hraw;
    try (cbn [load_if_str] in Hload; injection Hload as <-;
         cbn [dump_if_str]; cbn [is_none is_str] in Hnone, Hstr;
         destruct entries'; try discriminate; auto).
  cbn [load_if_str dump_if_str is_none] in *. unfold json_loads in *.
  destruct (loads s) as [v|] eqn:E; [|discriminate].
  injection Hload as ->.
  rewrite (loads_dumps entries' (Hwf (loads_wf s entries E))). auto.
Qed.

(** Each phase leaves every other key of the record alone. *)
Lemma recompute_inputs_frame (tx d1 : dict) (k : string) :
  recompute_inputs tx = Ret d1 ->
  k <> "Txn Input UTXO Details" -> k <> "total_victim_cost_btc" ->
  dict_get k d1 = dict_get k tx.
Proof.
  unfold recompute_inputs. intros H Hk1 Hk2.
  destruct (is_none _).
  - cbn [bind] in H. injection H as <-. now rewrite dict_get_set_neq.
  - destruct (load_if_str _) as [entries|]; cbn [bind] in H; [|discriminate].
    destruct (tag_entries _ _ _) as [[entries' total]|]; cbn [bind] in H; [|discriminate].
    injection H as <-. now rewrite !dict_get_set_neq.
Qed.

Lemma recompute_attack_frame (d1 d2 : dict) (k : string) :
  recompute_attack d1 = Ret d2 ->
  k <> "sent_utxo_uxns" -> k <> "total_attack_cost_btc" ->
  dict_get k d2 = dict_get k d1.
Proof.
  unfold recompute_attack. intros H Hk1 Hk2.
  destruct (py_iter _) as [items|]; cbn [bind] in H; [|discriminate].
  destruct (foldM sent_step items _) as [[items' ta]|]; cbn [bind] in H; [|discriminate].
  injection H as <-. rewrite dict_get_set_neq by exact Hk2.
  destruct (dict_get_default "sent_utxo_uxns" (JList []) d1); try reflexivity.
  destruct (dict_mem "sent_utxo_uxns" d1); [|reflexivity].
  now rewrite dict_get_set_neq.
Qed.

Lemma recompute_effect_frame (d2 d3 : dict) (k : string) :
  recompute_effect d2 = Ret d3 ->
  k <> "attack_effect" ->
  dict_get k d3 = dict_get k d2.
Proof.
  unfold recompute_effect. intros H Hk.
  repeat match type of H with
         | context [bind ?m _] => destruct m; cbn [bind] in H; [|discriminate]
         end.
  injection H as <-. now rewrite dict_get_set_neq.
Qed.

(** The input phase, run on a record that already holds its results. *)
Lemma recompute_inputs_again (tx d1 tx2 : dict) :
  recompute_inputs tx = Ret d1 ->
  dict_get "Txn Fee Rate" tx2 = dict_get "Txn Fee Rate" tx ->
  dict_get "Txn Input UTXO Details" tx2 = dict_get "Txn Input UTXO Details" d1 ->
  dict_get "total_victim_cost_btc" tx2 = dict_get "total_victim_cost_btc" d1 ->
  recompute_inputs tx2 = Ret tx2.
Proof.
  unfold recompute_inputs at 1. intros H Hfee Hin Htv.
  unfold recompute_inputs, dict_get_none, dict_get_default in *.
  rewrite Hfee, Hin.
  set (fee_rate := match dict_get "Txn Fee Rate" tx with
                   | Some v => v | None => JInt 0 end) in *.
  set (inputs := match dict_get "Txn Input UTXO Details" tx with
                 | Some v => v | None => JNull end) in *.
  destruct (is_none inputs) eqn:Enone.
  - cbn [bind] in H. injection H as <-.
    rewrite dict_get_set_neq by discriminate. fold inputs. rewrite Enone.
    cbn [bind]. rewrite dict_set_same; [reflexivity|].
    now rewrite Htv, dict_get_set_eq.
  - destruct (load_if_str inputs) as [entries|] eqn:Eload; cbn [bind] in H; [|discriminate].
    destruct (tag_entries fee_rate entries fzero) as [[entries' total]|] eqn:Etag;
      cbn [bind] in H; [|discriminate].
    injection H as <-.
    destruct (tag_entries_idem _ _ _ _ _ Etag) as (Hidem & Hwf & Hnone & Hstr).
    destruct (stored_field inputs entries entries' Enone Eload Hwf Hnone Hstr)
      as (Hs1 & Hs2 & Hs3).
    rewrite dict_get_set_neq in Hin |- * by discriminate.
    rewrite dict_get_set_eq in Hin |- *.
    rewrite Hs1, Hs2. cbn [bind]. rewrite Hidem. cbn [bind]. rewrite Hs3.
    rewrite (dict_set_same "Txn Input UTXO Details") by exact Hin.
    rewrite dict_set_same; [reflexivity|]. now rewrite Htv, dict_get_set_eq.
Qed.

(** One sub-transaction, processed again. *)
Lemma sent_step_idem (done : list json) (total total' : pyfloat)
  (sent : json) (out : list json) :
  sent_step (done, total) sent = Ret (out, total') ->
  exists sent',
    out = (done ++ [sent'])%list
    /\ forall done2,
        sent_step (done2, total) sent' = Ret ((done2 ++ [sent'])%list, total').
Proof.
  unfold sent_step at 1.
  destruct sent as [ |b|z|f|s|l|sd]; try discriminate. cbn [as_dict bind].
  unfold dict_get_none, dict_get_default.
  set (outputs := match dict_get "Txn Output UTXO Details" sd with
                  | Some v => v | None => JNull end).
  set (rate_out := match dict_get "Txn Fee Rate" sd with
                   | Some v => v | None => JInt 0 end).
  destruct (is_none outputs) eqn:Enone.
  - intros [= <- <-]. exists (JDict sd). split; [reflexivity|].
    intros done2. unfold sent_step. cbn [as_dict bind].
    unfold dict_get_none, dict_get_default. fold outputs. now rewrite Enone.
  - destruct (load_if_str outputs) as [entry|] eqn:Eload; cbn [bind]; [|discriminate].
    destruct (tag_attack rate_out entry total) as [[entry' t1]|] eqn:Etag;
      cbn [bind]; [|discriminate].
    intros [= <- <-].
    destruct (tag_attack_idem _ _ _ _ _ Etag) as (Hidem & Hwf & Hnone & Hstr).
    destruct (stored_field outputs entry entry' Enone Eload Hwf Hnone Hstr)
      as (Hs1 & Hs2 & Hs3).
    eexists. split; [reflexivity|].
    intros done2. unfold sent_step. cbn [as_dict bind].
    unfold dict_get_none, dict_get_default.
    rewrite dict_get_set_eq, dict_get_set_neq by discriminate.
    fold rate_out. rewrite Hs1, Hs2. cbn [bind]. rewrite Hidem. cbn [bind].
    now rewrite Hs3, dict_set_set.
Qed.

Lemma sent_loop_idem (items : list json) :
  forall (done : list json) (total : pyfloat) (out : list json) (total' : pyfloat),
    foldM sent_step items (done, total) = Ret (out, total') ->
    exists items',
      out = (done ++ items')%list
      /\ forall done2,
          foldM sent_step items' (done2, total)
          = Ret ((done2 ++ items')%list, total').
Proof.
  induction items as [|sent items IH]; intros done total out total'; cbn [foldM].
  - intros [= <- <-]. exists []. rewrite app_nil_r. split; [reflexivity|].
    intros done2. now rewrite app_nil_r.
  - destruct (sent_step (done, total) sent) as [[out1 t1]|] eqn:Estep;
      cbn [bind]; [|discriminate].
    intros H.
    apply sent_step_idem in Estep as (sent' & -> & Hstep).
    apply IH in H as (items' & -> & Hrun).
    exists (sent' :: items'). rewrite <- app_assoc. split; [reflexivity|].
    intros done2. cbn [foldM]. rewrite Hstep. cbn [bind].
    rewrite Hrun, <- app_assoc. reflexivity.
Qed.

(** The attack phase, run on a record that already holds its results. *)
Lemma recompute_attack_again (d1 d2 tx2 : dict) :
  recompute_attack d1 = Ret d2 ->
  dict_get "sent_utxo_uxns" tx2 = dict_get "sent_utxo_uxns" d2 ->
  dict_get "total_attack_cost_btc" tx2 = dict_get "total_attack_cost_btc" d2 ->
  recompute_attack tx2 = Ret tx2.
Proof.
  unfold recompute_attack at 1. intros H Hsent Hta.
  unfold dict_get_default in H.
  destruct (py_iter _) as [items|] eqn:Eiter; cbn [bind] in H; [|discriminate].
  destruct (foldM sent_step items ([], fzero)) as [[items' ta]|] eqn:Eloop;
    cbn [bind] in H; [|discriminate].
  injection H as <-.
  rewrite dict_get_set_eq in Hta. rewrite dict_get_set_neq in Hsent by discriminate.
  assert (Hfinal : forall tx1, tx1 = tx2 ->
             Ret (dict_set "total_attack_cost_btc" (JStr (format_fixed 8 ta)) tx1)
             = Ret (A := dict) tx2).
  { intros tx1 ->. now rewrite dict_set_same. }
  unfold recompute_attack, dict_get_default, dict_mem in *.
  destruct (dict_get "sent_utxo_uxns" d1) as [sents|] eqn:Eget.
  - assert (Hcase : is_list sents = true \/ is_list sents = false)
      by (destruct (is_list sents); auto).
    destruct Hcase as [Hl|Hl].
    + destruct sents as [ |b|z|f|s|l|sd]; try discriminate Hl.
      rewrite dict_get_set_eq in Hsent. rewrite Hsent.
      cbn [py_iter bind] in Eiter |- *. injection Eiter as <-.
      apply sent_loop_idem in Eloop as (items'' & Hout & Hrun).
      simpl in Hout. subst items''. rewrite (Hrun []). cbn [bind app].
      apply Hfinal. now apply dict_set_same.
    + assert (Hsame : dict_get "sent_utxo_uxns" tx2 = Some sents)
        by (destruct sents; try discriminate Hl; congruence).
      rewrite Hsame, Eiter. cbn [bind]. rewrite Eloop. cbn [bind].
      apply Hfinal. destruct sents; try discriminate Hl; reflexivity.
  - rewrite Hsent, Eget. cbn [py_iter bind] in Eiter |- *. injection Eiter as <-.
    cbn [foldM] in Eloop |- *. injection Eloop as <- <-. cbn [bind].
    now apply Hfinal.
Qed.

Lemma recompute_effect_again (d2 d3 tx2 : dict) :
  recompute_effect d2 = Ret d3 ->
  dict_get "total_victim_cost_btc" tx2 = dict_get "total_victim_cost_btc" d2 ->
  dict_get "total_attack_cost_btc" tx2 = dict_get "total_attack_cost_btc" d2 ->
  dict_get "attack_effect" tx2 = dict_get "attack_effect" d3 ->
  recompute_effect tx2 = Ret tx2.
Proof.
  unfold recompute_effect, dict_item. intros H Hv Ha He.
  rewrite Hv, Ha.
  destruct (dict_get "total_victim_cost_btc" d2) as [v|]; cbn [bind] in H |- *; [|discriminate].
  destruct (py_float v) as [vc|]; cbn [bind] in H |- *; [|discriminate].
  destruct (dict_get "total_attack_cost_btc" d2) as [a|]; cbn [bind] in H |- *; [|discriminate].
  destruct (py_float a) as [ac|]; cbn [bind] in H |- *; [|discriminate].
  injection H as <-. rewrite dict_get_set_eq in He.
  now rewrite dict_set_same.
Qed.

(** One transaction, processed again. *)
Lemma process_tx_idem (tx out : json) :
  process_tx tx = Ret out -> process_tx out = Ret out.
Proof.
  unfold process_tx at 1.
  destruct tx as [ |b|z|f|s|l|d]; try discriminate. cbn [as_dict bind].
  destruct (recompute_inputs d) as [d1|] eqn:EA; cbn [bind]; [|discriminate].
  destruct (recompute_attack d1) as [d2|] eqn:EB; cbn [bind]; [|discriminate].
  destruct (recompute_effect d2) as [d3|] eqn:EC; cbn [bind]; [|discriminate].
  intros [= <-]. unfold process_tx. cbn [as_dict bind].
  assert (HA : recompute_inputs d3 = Ret d3).
  { apply (recompute_inputs_again d d1 d3 EA).
    - rewrite (recompute_effect_frame d2 d3 _ EC) by discriminate.
      rewrite (recompute_attack_frame d1 d2 _ EB) by discriminate.
      now rewrite (recompute_inputs_frame d d1 _ EA) by discriminate.
    - rewrite (recompute_effect_frame d2 d3 _ EC) by discriminate.
      now rewrite (recompute_attack_frame d1 d2 _ EB) by discriminate.
    - rewrite (recompute_effect_frame d2 d3 _ EC) by discriminate.
      now rewrite (recompute_attack_frame d1 d2 _ EB) by discriminate. }
  assert (HB : recompute_attack d3 = Ret d3).
  { apply (recompute_attack_again d1 d2 d3 EB);
      now rewrite (recompute_effect_frame d2 d3 _ EC) by discriminate. }
  assert (HC : recompute_effect d3 = Ret d3).
  { apply (recompute_effect_again d2 d3 d3 EC);
      try reflexivity;
      now rewrite (recompute_effect_frame d2 d3 _ EC) by discriminate. }
  rewrite HA. cbn [bind]. rewrite HB. cbn [bind]. now rewrite HC.
Qed.

Lemma process_tx_dict (tx out : json) :
  process_tx tx = Ret out -> is_list out = false.
Proof.
  unfold process_tx. intros H.
  repeat match type of H with
         | context [bind ?m _] => destruct m; cbn [bind] in H; [|discriminate]
         end.
  now injection H as <-.
Qed.

Lemma process_records_idem (records out : list json) :
  mapM process_tx records = Ret out -> mapM process_tx out = Ret out.
Proof.
  revert out. induction records as [|tx records IH]; intros out; cbn [mapM].
  - now intros [= <-].
  - destruct (process_tx tx) as [tx'|] eqn:Etx; cbn [bind]; [|discriminate].
    destruct (mapM process_tx records) as [out'|]; cbn [bind]; [|discriminate].
    intros [= <-]. cbn [mapM].
    rewrite (process_tx_idem tx tx' Etx). cbn [bind].
    now rewrite (IH out' eq_refl).
Qed.

(** C9. The recomputation pass is idempotent on every record set: a
    second pass over the output of the first leaves it unchanged, and a
    pass that raises raises again; so two passes and one pass hand the
    same data to the writer. *)
Theorem process_data_idempotent (data : json) :
  (let! once := process_data data in process_data once) = process_data data.
Proof.
  unfold process_data at 1 3.
  destruct (mapM process_tx (records_of data)) as [records'|] eqn:Erun;
    cbn [bind]; [|reflexivity].
  pose proof (process_records_idem _ _ Erun) as Hagain.
  unfold process_data.
  destruct (is_list data) eqn:Elist.
  - destruct data; try discriminate Elist.
    cbn [data_of records_of]. rewrite Hagain. reflexivity.
  - assert (Hone : exists tx', records' = [tx'] /\ process_tx data = Ret tx').
    { assert (Hrec : records_of data = [data])
        by (destruct data; try discriminate Elist; reflexivity).
      rewrite Hrec in Erun. cbn [mapM] in Erun.
      destruct (process_tx data) as [tx'|]; cbn [bind] in Erun; [|discriminate].
      injection Erun as <-. eauto. }
    destruct Hone as (tx' & -> & Htx).
    pose proof (process_tx_dict _ _ Htx) as Hd.
    assert (Hout : data_of data [tx'] = tx')
      by (destruct data; try discriminate Elist; reflexivity).
    rewrite Hout.
    assert (Hrec : records_of tx' = [tx'])
      by (destruct tx'; try discriminate Hd; reflexivity).
    rewrite Hrec, Hagain. cbn [bind].
    destruct tx'; try discriminate Hd; reflexivity.
Qed.

End Idempotence.

Lemma process_data_idempotent_example :
  (let! once := Cost.process_data (H := ReferenceCodec.codec) (JList [JDict example_tx]) in
   Cost.process_data (H := ReferenceCodec.codec) once)
  = Cost.process_data (H := ReferenceCodec.codec) (JList [JDict example_tx]).
Proof.
  exact (@process_data_idempotent ReferenceCodec.codec codec_round_trip
           (JList [JDict example_tx])).
Defined.

(** ** The size accountant: annotation of one descriptor *)

Section SizeAccountantMore.

Import Annotate.

(** X1. The type read off an address is always a key of the size table: the
    default of the table lookup is never what sizes it. *)
Theorem identify_script_type_in_table (address : json) :
  exists b : Z,
    table_get (identify_script_type address) SCRIPT_TYPE_BYTES = Some b
    /\ script_type_bytes (JStr (identify_script_type address)) = Ret b.
Proof.
  unfold script_type_bytes, identify_script_type.
  destruct address as [ |b|z|f|a|l|d];
    try (exists 43; split; reflexivity).
  repeat match goal with
         | |- context [if ?c then _ else _] => destruct c
         end;
    eexists; split; reflexivity.
Qed.

Lemma identify_script_type_truthy (address : json) :
  py_truthy (JStr (identify_script_type address)) = true.
Proof.
  unfold identify_script_type.
  destruct address as [ |b|z|f|a|l|d]; try reflexivity.
  repeat match goal with
         | |- context [if ?c then _ else _] => destruct c
         end; reflexivity.
Qed.

Lemma output_script_type_truthy (item : dict) :
  py_truthy (output_script_type item) = true.
Proof.
  unfold output_script_type, py_or.
  destruct (py_truthy (dict_get_none "scriptType" item)) eqn:E; [exact E|].
  apply identify_script_type_truthy.
Qed.

(** The size of an input is read from [scriptSig] and [txinwitness]
    alone. *)
Lemma calculate_input_bytes_set (k : string) (v : json) (item : dict) :
  k <> "scriptSig" -> k <> "txinwitness" ->
  calculate_input_bytes (dict_set k v item) = calculate_input_bytes item.
Proof.
  intros H1 H2. unfold calculate_input_bytes, scriptSig_hex, txinwitness,
    dict_get_none, dict_get_default.
  rewrite !dict_get_set_neq by congruence. reflexivity.
Qed.

(** What [add_bytes_to_item] answers, when it answers. *)
Lemma add_bytes_to_item_shape (item item' : dict) (is_input : bool) :
  add_bytes_to_item item is_input = Ret item' ->
  exists b : Z,
    item' = dict_set "bytes" (JInt b)
              (if is_input then item
               else dict_set "scriptType" (output_script_type item) item).
Proof.
  unfold add_bytes_to_item. destruct is_input.
  - destruct (calculate_input_bytes item) as [b|]; cbn [bind]; [|discriminate].
    intros [= <-]. now exists b.
  - destruct (script_type_bytes _) as [b|]; cbn [bind]; [|discriminate].
    intros [= <-]. now exists b.
Qed.

Lemma add_bytes_to_item_again (item item' : dict) (is_input : bool) :
  add_bytes_to_item item is_input = Ret item' ->
  add_bytes_to_item item' is_input = Ret item'.
Proof.
  unfold add_bytes_to_item. destruct is_input.
  - destruct (calculate_input_bytes item) as [b|] eqn:Eb; cbn [bind];
      [|discriminate].
    intros [= <-].
    rewrite calculate_input_bytes_set, Eb by discriminate. cbn [bind].
    now rewrite dict_set_set.
  - set (st := output_script_type item).
    destruct (script_type_bytes st) as [b|] eqn:Eb; cbn [bind]; [|discriminate].
    intros [= <-].
    assert (Hst : output_script_type
                    (dict_set "bytes" (JInt b) (dict_set "scriptType" st item))
                  = st).
    { unfold output_script_type at 1, dict_get_none, dict_get_default.
      rewrite dict_get_set_neq by discriminate. rewrite dict_get_set_eq.
      unfold py_or. subst st. now rewrite output_script_type_truthy. }
    rewrite Hst, Eb. cbn [bind].
    rewrite (dict_set_same "scriptType" st)
      by (rewrite dict_get_set_neq by discriminate; apply dict_get_set_eq).
    now rewrite dict_set_set.
Qed.

Lemma add_bytes_to_item_kept (item item' : dict) (is_input : bool) (k : string) :
  add_bytes_to_item item is_input = Ret item' ->
  k <> "scriptType" -> k <> "bytes" ->
  dict_get k item' = dict_get k item.
Proof.
  intros H Hst Hb. apply add_bytes_to_item_shape in H as [b ->].
  rewrite dict_get_set_neq by exact Hb.
  destruct is_input; [reflexivity|]. now rewrite dict_get_set_neq.
Qed.

(** X2. Annotating a descriptor writes [bytes] (and, for an output,
    [scriptType]) and nothing else, and annotating the annotated
    descriptor changes nothing, on the input path and on the output
    path. *)
Theorem add_bytes_to_item_idempotent (item item' : dict) (is_input : bool) :
  add_bytes_to_item item is_input = Ret item' ->
  add_bytes_to_item item' is_input = Ret item'
  /\ (forall k, k <> "scriptType" -> k <> "bytes" ->
                dict_get k item' = dict_get k item).
Proof.
  intros H. split.
  - exact (add_bytes_to_item_again item item' is_input H).
  - intros k. exact (add_bytes_to_item_kept item item' is_input k H).
Qed.

Lemma add_bytes_to_item_idempotent_examples :
  (exists item',
     add_bytes_to_item legacy_input_50 true = Ret item'
     /\ add_bytes_to_item item' true = Ret item')
  /\ (exists item',
        add_bytes_to_item p2tr_output false = Ret item'
        /\ add_bytes_to_item item' false = Ret item').
Proof.
  split.
  - eexists. split; [reflexivity|].
    exact (proj1 (add_bytes_to_item_idempotent legacy_input_50 _ true eq_refl)).
  - eexists. split; [reflexivity|].
    exact (proj1 (add_bytes_to_item_idempotent p2tr_output _ false eq_refl)).
Defined.

Lemma witness_loop_raises (items : list json) (acc : Z) (w : json) :
  In w items -> py_len w = Raise TypeError ->
  foldM witness_step items acc = Raise TypeError.
Proof.
  revert acc. induction items as [|x items IH]; intros acc Hin Hw; [destruct Hin|].
  cbn [foldM]. unfold witness_step at 1.
  destruct (py_len x) as [n|e] eqn:Ex; cbn [bind].
  - destruct Hin as [->|Hin]; [congruence|]. now apply IH.
  - now rewrite (py_len_raises x e Ex).
Qed.

(** X3. A witness stack that holds an item without a length (a number, a
    boolean, null) makes the size computation raise TypeError. *)
Theorem calculate_input_bytes_unsized_witness
  (input_item : dict) (items : list json) (w : json) :
  txinwitness input_item = JList items ->
  In w items ->
  py_len w = Raise TypeError ->
  calculate_input_bytes input_item = Raise TypeError.
Proof.
  intros Hwit Hin Hw. unfold calculate_input_bytes. rewrite Hwit.
  destruct items as [|x items]; [destruct Hin|].
  cbn [py_truthy].
  destruct (py_truthy (scriptSig_hex input_item)).
  - destruct (py_len (scriptSig_hex input_item)) as [n|e] eqn:En; cbn [bind].
    + cbn [py_iter bind]. now rewrite (witness_loop_raises _ _ w Hin Hw).
    + now rewrite (py_len_raises _ e En).
  - cbn [bind py_iter]. now rewrite (witness_loop_raises _ _ w Hin Hw).
Qed.

Lemma calculate_input_bytes_unsized_witness_example :
  calculate_input_bytes
    [("txinwitness", JList [JStr "3044"; JInt 7])] = Raise TypeError.
Proof.
  apply (calculate_input_bytes_unsized_witness
           [("txinwitness", JList [JStr "3044"; JInt 7])]
           [JStr "3044"; JInt 7] (JInt 7)).
  - reflexivity.
  - right. left. reflexivity.
  - reflexivity.
Defined.

End SizeAccountantMore.

(** ** The script classifier: outcomes and second passes *)

Section ScriptClassifierMore.

Import Classifier.

Lemma dict_get_default_set_neq (k k' : string) (def v : json) (d : dict) :
  k <> k' ->
  dict_get_default k def (dict_set k' v d) = dict_get_default k def d.
Proof. intros Hne. unfold dict_get_default. now rewrite dict_get_set_neq. Qed.

Lemma scriptSig_field_set (k key : string) (v : json) (utxo : dict) :
  key <> "scriptSig" ->
  scriptSig_field k (dict_set key v utxo) = scriptSig_field k utxo.
Proof.
  intros Hne. unfold scriptSig_field, dict_get_default.
  now rewrite dict_get_set_neq by congruence.
Qed.

Lemma p2sh_tag_cases (asm hex_sig : string) (witness : json) :
  p2sh_tag asm hex_sig witness = "P2SH-P2WPKH"
  \/ p2sh_tag asm hex_sig witness = "P2SH-P2WSH"
  \/ p2sh_tag asm hex_sig witness = "P2SH"
  \/ p2sh_tag asm hex_sig witness = "Non-Standard P2SH".
Proof.
  unfold p2sh_tag.
  repeat match goal with
         | |- context [if ?c then _ else _] => destruct c
         end; auto.
Qed.

Lemma classify_body_p2sh (self : dict -> result string) (utxo : dict)
  (asm hex_sig : string) :
  scriptSig_field "asm" utxo = Ret asm ->
  scriptSig_field "hex" utxo = Ret hex_sig ->
  classify_body self (dict_set "inputHash" (JStr "3") utxo)
  = Ret (p2sh_tag asm hex_sig (dict_get_default "txinwitness" (JList []) utxo)).
Proof.
  intros Hasm Hhex. unfold classify_body.
  rewrite !scriptSig_field_set, Hasm, Hhex by discriminate.
  unfold dict_get_default at 1. rewrite dict_get_set_eq. cbn [as_str bind].
  change (strip "3") with "3".
  change (startswith "3" "1") with false.
  change (startswith "3" "bc1q") with false.
  change (startswith "3" "3") with true. cbv iota.
  unfold dict_get_default at 1 2 3.
  rewrite !dict_get_set_neq by discriminate.
  unfold p2sh_tag, dict_get_default.
  repeat match goal with
         | |- context [if ?c then _ else _] => destruct c
         end; reflexivity.
Qed.

(** X4. [classify_utxo] either answers one of its ten tags, or raises
    AttributeError or TypeError on a descriptor that is not typed as it
    expects; on a typed descriptor it always answers. *)
Theorem classify_utxo_outcome (utxo : dict) :
  match classify_utxo utxo with
  | Ret tag => In tag classifier_tags
  | Raise e =>
      (e = AttributeError \/ e = TypeError) /\ descriptor_typed utxo = false
  end.
Proof.
  destruct (classify_utxo utxo) as [tag|e] eqn:E.
  - eapply classify_utxo_tags, E.
  - split; [eapply classify_utxo_raises, E|].
    destruct (descriptor_typed utxo) eqn:Ht; [exfalso|reflexivity].
    unfold descriptor_typed in Ht.
    apply andb_prop in Ht as [Ht Hw]. apply andb_prop in Ht as [Ht Hst].
    apply andb_prop in Ht as [Haddr Hsig].
    unfold scriptSig_readable in Hsig. apply andb_prop in Hsig as [Hasm Hhex].
    destruct (scriptSig_field "asm" utxo) as [asm|] eqn:Easm; [|discriminate].
    destruct (scriptSig_field "hex" utxo) as [hex_sig|] eqn:Ehex; [|discriminate].
    revert E. unfold classify_utxo, classify_body at 1.
    rewrite Easm, Ehex, (classify_body_p2sh _ utxo asm hex_sig Easm Ehex).
    destruct (dict_get_default "inputHash" (JStr "") utxo); try discriminate.
    destruct (dict_get_default "scriptType" (JStr "") utxo); try discriminate.
    unfold taproot_path.
    destruct (py_len (dict_get_default "txinwitness" (JList []) utxo));
      [|discriminate].
    cbn [as_str bind].
    repeat match goal with
           | |- context [if ?c then _ else _] => destruct c
           end; discriminate.
Qed.

(** X5. On an address with a recognised prefix the stored [scriptType] is
    not read: writing a tag into the descriptor, as the file pass does,
    leaves its classification as it was. *)
Theorem classify_utxo_prefix_ignores_scriptType
  (utxo : dict) (addr : string) (v : json) :
  dict_get_default "inputHash" (JStr "") utxo = JStr addr ->
  recognised_prefix addr = true ->
  classify_utxo (dict_set "scriptType" v utxo) = classify_utxo utxo.
Proof.
  intros Hhash Hp. unfold classify_utxo, classify_body at 1 3.
  rewrite !scriptSig_field_set by discriminate.
  rewrite (dict_get_default_set_neq "inputHash"),
    !(dict_get_default_set_neq "txinwitness") by discriminate.
  rewrite Hhash. cbn [as_str bind].
  destruct (scriptSig_field "asm" utxo) as [asm|]; cbn [bind]; [|reflexivity].
  destruct (scriptSig_field "hex" utxo) as [hex_sig|]; cbn [bind]; [|reflexivity].
  unfold recognised_prefix in Hp.
  destruct (startswith (strip addr) "1"); [reflexivity|].
  destruct (startswith (strip addr) "bc1q"); [reflexivity|].
  destruct (startswith (strip addr) "3"); [reflexivity|].
  destruct (startswith (strip addr) "bc1p"); [reflexivity|].
  discriminate.
Qed.

Lemma classify_utxo_prefix_ignores_scriptType_example :
  classify_utxo (dict_set "scriptType" (JStr "P2TR_key_path") taproot_one_witness)
  = classify_utxo taproot_one_witness.
Proof.
  exact (classify_utxo_prefix_ignores_scriptType taproot_one_witness _
           (JStr "P2TR_key_path") eq_refl eq_refl).
Defined.

Lemma first_char_prefix (c : ascii) (s p : string) :
  startswith s (String c EmptyString) = true ->
  (forall r, p <> String c r) -> p <> EmptyString ->
  startswith s p = false.
Proof.
  unfold startswith. intros Hp Hne Hnil.
  apply prefix_cons_inv in Hp as (s' & -> & _).
  destruct p as [|a p]; [congruence|]. simpl.
  destruct (ascii_dec a c) as [->|]; [|reflexivity].
  now contradiction (Hne p).
Qed.

(** On an address without a recognised prefix the answer comes from the
    stored type. *)
Lemma classify_utxo_fallback (utxo : dict) (addr asm hex_sig : string) :
  dict_get_default "inputHash" (JStr "") utxo = JStr addr ->
  recognised_prefix addr = false ->
  scriptSig_field "asm" utxo = Ret asm ->
  scriptSig_field "hex" utxo = Ret hex_sig ->
  classify_utxo utxo
  = let! st0 := as_str (dict_get_default "scriptType" (JStr "") utxo) in
    if String.eqb (upper st0) "P2SH"
    then Ret (p2sh_tag asm hex_sig (dict_get_default "txinwitness" (JList []) utxo))
    else if String.eqb (upper st0) "P2TR"
    then taproot_path (dict_get_default "txinwitness" (JList []) utxo)
    else Ret "Non-Standard".
Proof.
  intros Hhash Hp Hasm Hhex.
  unfold classify_utxo, classify_body at 1.
  rewrite Hhash, Hasm, Hhex. cbn [as_str bind].
  unfold recognised_prefix in Hp.
  apply orb_false_elim in Hp as [Hp H4]. apply orb_false_elim in Hp as [Hp H3].
  apply orb_false_elim in Hp as [H1 H2].
  rewrite H1, H2, H3, H4.
  now rewrite (classify_body_p2sh _ utxo asm hex_sig Hasm Hhex).
Qed.

(** X6. The fallback on the stored type does not survive its own answer.
    When the address has no recognised prefix, a second pass over the
    descriptor tagged by the first answers [Non-Standard], unless the
    first tag was the plain [P2SH], which is kept. *)
Theorem classify_utxo_fallback_second_pass (utxo : dict) (addr cat : string) :
  dict_get_default "inputHash" (JStr "") utxo = JStr addr ->
  recognised_prefix addr = false ->
  classify_utxo utxo = Ret cat ->
  classify_utxo (dict_set "scriptType" (JStr cat) utxo)
  = Ret (if String.eqb cat "P2SH" then "P2SH" else "Non-Standard").
Proof.
  intros Hhash Hp Hcat.
  destruct (scriptSig_field "asm" utxo) as [asm|] eqn:Easm;
    [|unfold classify_utxo, classify_body in Hcat;
      rewrite Hhash, Easm in Hcat; discriminate].
  destruct (scriptSig_field "hex" utxo) as [hex_sig|] eqn:Ehex;
    [|unfold classify_utxo, classify_body in Hcat;
      rewrite Hhash, Easm, Ehex in Hcat; discriminate].
  rewrite (classify_utxo_fallback utxo addr asm hex_sig) in Hcat by assumption.
  destruct (dict_get_default "scriptType" (JStr "") utxo) as [ |b|z|f|st0|l|d];
    try discriminate.
  cbn [as_str bind] in Hcat.
  rewrite (classify_utxo_fallback (dict_set "scriptType" (JStr cat) utxo)
             addr asm hex_sig).
  2: now rewrite dict_get_default_set_neq by discriminate.
  2: assumption.
  2, 3: now rewrite scriptSig_field_set by discriminate.
  unfold dict_get_default at 1. rewrite dict_get_set_eq. cbn [as_str bind].
  rewrite !(dict_get_default_set_neq "txinwitness") by discriminate.
  set (witness := dict_get_default "txinwitness" (JList []) utxo) in *.
  destruct (String.eqb (upper st0) "P2SH").
  - injection Hcat as Hcat.
    destruct (p2sh_tag_cases asm hex_sig witness) as [Ht|[Ht|[Ht|Ht]]];
      rewrite Ht in Hcat; subst cat; try reflexivity.
    change (upper "P2SH") with "P2SH". cbn [String.eqb Ascii.eqb Bool.eqb].
    now rewrite Ht.
  - destruct (String.eqb (upper st0) "P2TR").
    + unfold taproot_path in Hcat.
      destruct (py_len witness) as [n|]; cbn [bind] in Hcat; [|discriminate].
      injection Hcat as <-. destruct (n =? 1); reflexivity.
    + injection Hcat as <-. reflexivity.
Qed.

Lemma classify_utxo_fallback_second_pass_example :
  classify_utxo stored_taproot_input = Ret "P2TR_key_path"
  /\ classify_utxo
       (dict_set "scriptType" (JStr "P2TR_key_path") stored_taproot_input)
     = Ret "Non-Standard".
Proof.
  split; [reflexivity|].
  exact (classify_utxo_fallback_second_pass stored_taproot_input
           "tb1pxyz" "P2TR_key_path" eq_refl eq_refl eq_refl).
Defined.

(** X7. On an address beginning with [3], the nested SegWit tags are
    answered only with a witness, the plain [P2SH] only without one. *)
Theorem classify_utxo_p2sh_witness (utxo : dict) (addr tag : string) :
  dict_get_default "inputHash" (JStr "") utxo = JStr addr ->
  startswith (strip addr) "3" = true ->
  classify_utxo utxo = Ret tag ->
  let witness := dict_get_default "txinwitness" (JList []) utxo in
  In tag ["P2SH-P2WPKH"; "P2SH-P2WSH"; "P2SH"; "Non-Standard P2SH"]
  /\ (tag = "P2SH-P2WPKH" \/ tag = "P2SH-P2WSH" -> py_truthy witness = true)
  /\ (tag = "P2SH" -> py_truthy witness = false)
  /\ (py_truthy witness = false -> tag = "P2SH" \/ tag = "Non-Standard P2SH").
Proof.
  intros Hhash H3 Hcat witness.
  assert (H1 : startswith (strip addr) "1" = false)
    by (apply (first_char_prefix "3"); [exact H3 | congruence | congruence]).
  assert (H2 : startswith (strip addr) "bc1q" = false)
    by (apply (first_char_prefix "3"); [exact H3 | congruence | congruence]).
  revert Hcat. unfold classify_utxo, classify_body at 1.
  rewrite Hhash. cbn [as_str bind].
  destruct (scriptSig_field "asm" utxo) as [asm|]; cbn [bind]; [|discriminate].
  destruct (scriptSig_field "hex" utxo) as [hex_sig|]; cbn [bind]; [|discriminate].
  rewrite H1, H2, H3. fold witness.
  destruct (py_truthy witness); cbn [negb];
    rewrite ?andb_true_r, ?andb_false_r;
    repeat match goal with
           | |- context [if ?c then _ else _] => destruct c
           end;
    intros [= <-]; (split; [simpl; tauto|]); (split; [|split]); intros Ht;
    try reflexivity; try discriminate Ht;
    try (destruct Ht as [Ht|Ht]; discriminate Ht); auto.
Qed.

Lemma classify_utxo_p2sh_witness_example :
  classify_utxo nested_segwit_input = Ret "P2SH-P2WPKH"
  /\ py_truthy (dict_get_default "txinwitness" (JList []) nested_segwit_input)
     = true.
Proof.
  split; [reflexivity|].
  exact (proj1 (proj2 (classify_utxo_p2sh_witness nested_segwit_input _
                         "P2SH-P2WPKH" eq_refl eq_refl eq_refl))
           (or_introl eq_refl)).
Defined.

(** X8. The two classifiers agree on native addresses: for an address that
    begins with [1] or [bc1q] and carries no surrounding blanks, the
    input classifier answers what the size accountant reads off the
    address. *)
Theorem classifiers_agree_on_native (utxo : dict) (addr : string) :
  dict_get_default "inputHash" (JStr "") utxo = JStr addr ->
  strip addr = addr ->
  scriptSig_readable utxo = true ->
  startswith addr "1" = true \/ startswith addr "bc1q" = true ->
  classify_utxo utxo = Ret (Annotate.identify_script_type (JStr addr)).
Proof.
  intros Hhash Hstrip Hsig Hp.
  unfold scriptSig_readable in Hsig. apply andb_prop in Hsig as [Hasm Hhex].
  unfold classify_utxo, classify_body at 1.
  rewrite Hhash. cbn [as_str bind].
  destruct (scriptSig_field "asm" utxo); [|discriminate].
  destruct (scriptSig_field "hex" utxo); [|discriminate].
  cbn [bind]. rewrite Hstrip. unfold Annotate.identify_script_type.
  destruct Hp as [Hp|Hp].
  - rewrite Hp.
    rewrite (first_char_prefix "1" addr "OP_RETURN" Hp) by congruence.
    destruct (String.eqb_spec addr "") as [->|]; [discriminate|reflexivity].
  - assert (Hb : startswith addr "b" = true).
    { unfold startswith in *. apply prefix_cons_inv in Hp as (s' & Heq & _).
      rewrite Heq. destruct s'; reflexivity. }
    rewrite (first_char_prefix "b" addr "1" Hb) by congruence.
    rewrite (first_char_prefix "b" addr "3" Hb) by congruence.
    rewrite (first_char_prefix "b" addr "OP_RETURN" Hb) by congruence.
    rewrite Hp.
    destruct (String.eqb_spec addr "") as [->|]; [discriminate|reflexivity].
Qed.

Lemma classifiers_agree_on_native_example :
  classify_utxo segwit_input_2x64
  = Ret (Annotate.identify_script_type
           (JStr "bc1qar0srrr7xfkvy5l643lydnw9re59gtzzwf5mdq")).
Proof.
  exact (classifiers_agree_on_native segwit_input_2x64 _
           eq_refl eq_refl eq_refl (or_intror eq_refl)).
Defined.

End ScriptClassifierMore.

(** ** The outlier classifier: counters and thresholds *)

Section OutlierClassifierMore.

Import Dust.

Lemma sub_transactions_set (k : string) (v : json) (d : dict) :
  k <> "sent_utxo_uxns" ->
  sub_transactions (JDict (dict_set k v d)) = sub_transactions (JDict d).
Proof.
  intros Hne. unfold sub_transactions, dict_get_default. cbn [as_dict bind].
  now rewrite dict_get_set_neq by congruence.
Qed.

Lemma annotate_record_shape (upper : pyfloat) (record out : json) (dust : bool) :
  annotate_record upper record = Ret (out, dust) ->
  exists d, record = JDict d
            /\ out = JDict (dict_set "dust_attacker"
                              (JStr (if dust then "1" else "0")) d).
Proof.
  unfold annotate_record.
  destruct record as [ |b|z|f|s|l|d]; try discriminate. cbn [as_dict bind].
  destruct (sub_transactions (JDict d)); cbn [bind]; [|discriminate].
  destruct (is_dust_loop upper _); cbn [bind]; [|discriminate].
  intros [= <- <-]. now exists d.
Qed.

Lemma mapM_length {A B : Type} (f : A -> result B) (l : list A) (out : list B) :
  mapM f l = Ret out -> List.length out = List.length l.
Proof.
  revert out. induction l as [|x l IH]; intros out; simpl.
  - now intros [= <-].
  - destruct (f x); cbn [bind]; [|discriminate].
    destruct (mapM f l); cbn [bind]; [|discriminate].
    intros [= <-]. simpl. f_equal. now apply IH.
Qed.

Lemma labelled_count (upper : pyfloat) (records : list json)
  (labelled : list (json * bool)) :
  mapM (annotate_record upper) records = Ret labelled ->
  List.length (List.filter labelled_non_dust (map fst labelled))
  = List.length (filter (fun r => negb (snd r)) labelled).
Proof.
  revert labelled. induction records as [|r records IH]; intros labelled; simpl.
  - now intros [= <-].
  - destruct (annotate_record upper r) as [[out dust]|] eqn:Er; cbn [bind];
      [|discriminate].
    destruct (mapM _ records) as [rest|]; cbn [bind]; [|discriminate].
    intros [= <-].
    apply annotate_record_shape in Er as (d & -> & ->).
    cbn [map fst List.filter labelled_non_dust]. rewrite dict_get_set_eq.
    rewrite filter_cons. specialize (IH rest eq_refl).
    destruct dust; cbn [snd negb String.eqb Ascii.eqb Bool.eqb];
      case_decide as Hd; simpl in Hd; try tauto; simpl; now rewrite IH.
Qed.

Lemma single_record (data : json) :
  is_list data = false -> records_of data = [data].
Proof. destruct data; try reflexivity; discriminate. Qed.

Lemma list_records (data : json) :
  is_list data = true -> data = JList (records_of data).
Proof. destruct data; try discriminate; reflexivity. Qed.

Lemma records_of_labelled (upper : pyfloat) (data : json)
  (labelled : list (json * bool)) :
  mapM (annotate_record upper) (records_of data) = Ret labelled ->
  records_of (data_of data (map fst labelled)) = map fst labelled.
Proof.
  intros Em. destruct (is_list data) eqn:El.
  - rewrite (list_records data El). reflexivity.
  - rewrite (single_record data El) in Em. cbn [mapM] in Em.
    destruct (annotate_record upper data) as [[out dust]|] eqn:Er;
      cbn [bind] in Em; [|discriminate].
    injection Em as <-.
    apply annotate_record_shape in Er as (d & -> & ->). reflexivity.
Qed.

Lemma data_of_shape (a b : json) (records : list json) :
  is_list a = is_list b -> data_of a records = data_of b records.
Proof. destruct a, b; try discriminate; reflexivity. Qed.

Lemma is_list_labelled (upper : pyfloat) (data : json)
  (labelled : list (json * bool)) :
  mapM (annotate_record upper) (records_of data) = Ret labelled ->
  is_list (data_of data (map fst labelled)) = is_list data.
Proof.
  intros Em. destruct (is_list data) eqn:El.
  - rewrite (list_records data El). reflexivity.
  - rewrite (single_record data El) in Em. cbn [mapM] in Em.
    destruct (annotate_record upper data) as [[out dust]|] eqn:Er;
      cbn [bind] in Em; [|discriminate].
    injection Em as <-.
    apply annotate_record_shape in Er as (d & -> & ->). reflexivity.
Qed.

Lemma label_records_counts
  (upper : pyfloat) (data out : json) (processed filtered_out : Z) :
  label_records upper data = Ret (out, processed, filtered_out) ->
  processed = Z.of_nat (List.length (records_of data))
  /\ filtered_out
     = Z.of_nat (List.length (List.filter labelled_non_dust (records_of out)))
  /\ 0 <= filtered_out <= processed.
Proof.
  unfold label_records.
  destruct (mapM _ (records_of data)) as [labelled|] eqn:Em; cbn [bind];
    [|discriminate].
  intros [= <- <- <-].
  pose proof (mapM_length _ _ _ Em) as Hlen.
  pose proof (labelled_count _ _ _ Em) as Hcount.
  pose proof (length_filter (fun r : json * bool => negb (snd r)) labelled).
  pose proof (records_of_labelled _ _ _ Em) as Hrec.
  rewrite Hrec, Hcount, Hlen. repeat split; lia.
Qed.

Lemma annotate_transactions_run
  (orjson : bool) (upper : pyfloat) (data : json) (w : file_write)
  (processed filtered_out : Z) :
  annotate_transactions orjson upper data = Ret (w, processed, filtered_out) ->
  exists out : json,
    label_records upper data = Ret (out, processed, filtered_out)
    /\ w = write_back orjson out.
Proof.
  unfold annotate_transactions.
  destruct (label_records upper data) as [[[out p] f]|]; cbn [bind];
    [|discriminate].
  intros [= <- <- <-]. now exists out.
Qed.

(** X9. The two counters of a pass and its write: [processed] is the
    number of records of the file and [filtered_out] is at most
    [processed].  With [orjson] imported nothing reaches the file, which
    is left empty; on the [json] fallback the document handed to
    [json.dump] has exactly [filtered_out] records labelled ["0"]. *)
Theorem annotate_transactions_counts
  (orjson : bool) (upper : pyfloat) (data : json) (w : file_write)
  (processed filtered_out : Z) :
  annotate_transactions orjson upper data = Ret (w, processed, filtered_out) ->
  processed = Z.of_nat (List.length (records_of data))
  /\ 0 <= filtered_out <= processed
  /\ (if orjson then w = Truncated
      else exists out : json,
             w = JsonDump out
             /\ filtered_out
                = Z.of_nat (List.length
                              (List.filter labelled_non_dust (records_of out)))).
Proof.
  intros Hrun.
  destruct (annotate_transactions_run _ _ _ _ _ _ Hrun) as (out & Hl & ->).
  destruct (label_records_counts _ _ _ _ _ Hl) as (Hp & Hf & Hle).
  split; [exact Hp|]. split; [exact Hle|].
  destruct orjson; [reflexivity|]. now exists out.
Qed.

Lemma annotate_transactions_counts_example :
  (exists out,
     annotate_transactions false (float_lit 145 10)
       (JList [JDict low_fee_record; JDict high_fee_record])
     = Ret (JsonDump out, 2, 1)
     /\ 1 = Z.of_nat (List.length
                        (List.filter labelled_non_dust (records_of out))))
  /\ annotate_transactions true (float_lit 145 10)
       (JList [JDict low_fee_record; JDict high_fee_record])
     = Ret (Truncated, 2, 1)
  /\ Truncated = Truncated.
Proof.
  split; [|split].
  - destruct (proj2 (proj2 (annotate_transactions_counts false (float_lit 145 10)
                (JList [JDict low_fee_record; JDict high_fee_record])
                _ 2 1 eq_refl))) as (out & Hw & Hc).
    exists out. split; [now rewrite <- Hw|exact Hc].
  - reflexivity.
  - exact (proj2 (proj2 (annotate_transactions_counts true (float_lit 145 10)
                (JList [JDict low_fee_record; JDict high_fee_record])
                _ 2 1 eq_refl))).
Defined.

Lemma annotate_record_relabel (u1 u2 : pyfloat) (record out : json) (dust : bool) :
  annotate_record u1 record = Ret (out, dust) ->
  annotate_record u2 out = annotate_record u2 record.
Proof.
  intros H1. apply annotate_record_shape in H1 as (d & -> & ->).
  unfold annotate_record. cbn [as_dict bind].
  rewrite sub_transactions_set by discriminate.
  destruct (sub_transactions (JDict d)); cbn [bind]; [|reflexivity].
  destruct (is_dust_loop u2 _); cbn [bind]; [|reflexivity].
  now rewrite dict_set_set.
Qed.

Lemma mapM_relabel (u1 u2 : pyfloat) (records : list json)
  (labelled : list (json * bool)) :
  mapM (annotate_record u1) records = Ret labelled ->
  mapM (annotate_record u2) (map fst labelled)
  = mapM (annotate_record u2) records.
Proof.
  revert labelled. induction records as [|r records IH]; intros labelled; simpl.
  - now intros [= <-].
  - destruct (annotate_record u1 r) as [[out dust]|] eqn:Er; cbn [bind];
      [|discriminate].
    destruct (mapM _ records) as [rest|]; cbn [bind]; [|discriminate].
    intros [= <-]. cbn [map fst mapM].
    now rewrite (annotate_record_relabel u1 u2 r out dust Er), (IH rest eq_refl).
Qed.

Lemma label_records_relabel
  (u1 u2 : pyfloat) (data out1 : json) (p1 f1 : Z) :
  label_records u1 data = Ret (out1, p1, f1) ->
  label_records u2 out1 = label_records u2 data.
Proof.
  unfold label_records.
  destruct (mapM _ (records_of data)) as [labelled|] eqn:Em; cbn [bind];
    [|discriminate].
  intros [= <- <- <-].
  rewrite (records_of_labelled _ _ _ Em).
  rewrite (mapM_relabel u1 u2 _ labelled Em).
  destruct (mapM (annotate_record u2) (records_of data)) as [labelled2|];
    cbn [bind]; [|reflexivity].
  now rewrite (data_of_shape _ data _ (is_list_labelled _ _ _ Em)).
Qed.

(** X10. On the [json] fallback, a pass over the document that an
    earlier pass handed to [json.dump] gives what it gives on the
    original document: the old labels are overwritten and play no part.
    With the same threshold the second pass hands over the same document
    and returns the same counters. *)
Theorem annotate_transactions_relabel
  (u1 u2 : pyfloat) (data out1 : json) (p1 f1 : Z) :
  annotate_transactions false u1 data = Ret (JsonDump out1, p1, f1) ->
  (forall orjson : bool,
     annotate_transactions orjson u2 out1 = annotate_transactions orjson u2 data)
  /\ annotate_transactions false u1 out1 = Ret (JsonDump out1, p1, f1).
Proof.
  intros H1.
  destruct (annotate_transactions_run _ _ _ _ _ _ H1) as (out & Hl & Hw).
  injection Hw as ->.
  assert (Hgen : forall orjson u,
             annotate_transactions orjson u out
             = annotate_transactions orjson u data).
  { intros orjson u. unfold annotate_transactions.
    now rewrite (label_records_relabel u1 u data out p1 f1 Hl). }
  split; [intros orjson; apply Hgen|]. now rewrite Hgen.
Qed.

Lemma annotate_transactions_relabel_example :
  (forall orjson : bool,
     annotate_transactions orjson (float_lit 2 1)
       (JList [JDict (dict_set "dust_attacker" (JStr "1") low_fee_record)])
     = annotate_transactions orjson (float_lit 2 1)
         (JList [JDict low_fee_record]))
  /\ annotate_transactions false (float_lit 145 10)
       (JList [JDict (dict_set "dust_attacker" (JStr "1") low_fee_record)])
     = Ret (JsonDump
              (JList [JDict (dict_set "dust_attacker" (JStr "1") low_fee_record)]),
            1, 0).
Proof.
  exact (annotate_transactions_relabel (float_lit 145 10) (float_lit 2 1)
           (JList [JDict low_fee_record]) _ 1 0 eq_refl).
Defined.

Lemma SFcompare_trans_lt (a b c : pyfloat) :
  (SFcompare a b = Some Lt \/ SFcompare a b = Some Eq) ->
  SFcompare b c = Some Lt ->
  SFcompare a c = Some Lt.
Proof.
  destruct a as [sa|sa| |sa ma ea], b as [sb|sb| |sb mb eb],
           c as [sc|sc| |sc mc ec]; simpl;
    try (intros [H|H]; discriminate H);
    try discriminate;
    try (destruct sa, sb, sc; simpl; intros [H|H] H'; congruence).
  destruct sa, sb, sc; simpl; intros [H|H] H'; try congruence;
    injection H as H; injection H' as H'; f_equal;
    destruct (Z.compare_spec ea eb), (Z.compare_spec eb ec),
             (Z.compare_spec ea ec); try discriminate; try reflexivity;
      try lia; subst;
      change (Pos.compare_cont Eq) with Pos.compare in *;
      destruct (Pos.compare_spec ma mb), (Pos.compare_spec mb mc),
               (Pos.compare_spec ma mc); simpl in *;
        try discriminate; try reflexivity; lia.
Qed.

Lemma flt_fle_trans (a b c : pyfloat) :
  fle a b = true -> flt b c = true -> flt a c = true.
Proof.
  unfold fle, flt, SFleb, SFltb. intros Hab Hbc.
  rewrite (SFcompare_trans_lt a b c); [reflexivity| |].
  - destruct (SFcompare a b) as [[]|]; auto; discriminate.
  - destruct (SFcompare b c) as [[]|]; auto; discriminate.
Qed.

Lemma is_dust_loop_monotone (u1 u2 : pyfloat) (subs : list json) :
  fle u1 u2 = true ->
  is_dust_loop u1 subs = Ret true -> is_dust_loop u2 subs = Ret true.
Proof.
  intros Hle. induction subs as [|sub subs IH]; simpl; [auto|].
  destruct (sub_fee_rate sub) as [rate|[]]; auto.
  destruct (flt u1 rate) eqn:E1; [discriminate|].
  destruct (flt u2 rate) eqn:E2; [|exact IH].
  now rewrite (flt_fle_trans u1 u2 rate Hle E2) in E1.
Qed.

(** X11. Raising the threshold never turns a dust record into a non-dust
    one: a record labelled ["1"] under a threshold is labelled ["1"]
    under every greater threshold. *)
Theorem annotate_record_threshold_monotone
  (u1 u2 : pyfloat) (record out : json) :
  fle u1 u2 = true ->
  annotate_record u1 record = Ret (out, true) ->
  annotate_record u2 record = Ret (out, true).
Proof.
  intros Hle. unfold annotate_record.
  destruct (as_dict record) as [d|]; cbn [bind]; [|discriminate].
  destruct (sub_transactions record) as [subs|]; cbn [bind]; [|discriminate].
  destruct (is_dust_loop u1 subs) as [[]|] eqn:E1; cbn [bind]; try discriminate.
  intros [= <-].
  now rewrite (is_dust_loop_monotone u1 u2 subs Hle E1).
Qed.

Lemma annotate_record_threshold_monotone_example :
  annotate_record (float_lit 20 1) (JDict low_fee_record)
  = Ret (JDict (dict_set "dust_attacker" (JStr "1") low_fee_record), true).
Proof.
  exact (annotate_record_threshold_monotone (float_lit 145 10) (float_lit 20 1)
           (JDict low_fee_record) _ eq_refl eq_refl).
Defined.

End OutlierClassifierMore.

(** ** The cost accountant: frame, signs and edge cases *)

Section CostAccountantMore.

Context `{C : JsonCodec}.

Import Cost.

Lemma dict_mem_set (k k' : string) (v : json) (d : dict) :
  dict_mem k d = true -> dict_mem k (dict_set k' v d) = true.
Proof.
  unfold dict_mem. intros H.
  destruct (String.eqb_spec k k') as [->|Hne].
  - now rewrite dict_get_set_eq.
  - now rewrite dict_get_set_neq.
Qed.

Lemma recompute_inputs_keeps (tx d1 : dict) (k : string) :
  recompute_inputs tx = Ret d1 -> dict_mem k tx = true -> dict_mem k d1 = true.
Proof.
  unfold recompute_inputs. intros H Hk. revert H.
  destruct (is_none _).
  - cbn [bind]. intros [= <-]. now apply dict_mem_set.
  - destruct (load_if_str _) as [entries|]; cbn [bind]; [|discriminate].
    destruct (tag_entries _ _ _) as [[entries' total]|]; cbn [bind];
      [|discriminate].
    intros [= <-]. now apply dict_mem_set, dict_mem_set.
Qed.

Lemma recompute_attack_keeps (d1 d2 : dict) (k : string) :
  recompute_attack d1 = Ret d2 -> dict_mem k d1 = true -> dict_mem k d2 = true.
Proof.
  unfold recompute_attack. intros H Hk. revert H.
  destruct (py_iter _) as [items|]; cbn [bind]; [|discriminate].
  destruct (foldM sent_step items _) as [[items' ta]|]; cbn [bind]; [|discriminate].
  intros [= <-]. apply dict_mem_set.
  destruct (dict_get_default "sent_utxo_uxns" (JList []) d1); try assumption.
  destruct (dict_mem "sent_utxo_uxns" d1); [|assumption].
  now apply dict_mem_set.
Qed.

Lemma recompute_effect_keeps (d2 d3 : dict) (k : string) :
  recompute_effect d2 = Ret d3 -> dict_mem k d2 = true -> dict_mem k d3 = true.
Proof.
  unfold recompute_effect. intros H Hk. revert H.
  destruct (dict_item _ d2); cbn [bind]; [|discriminate].
  destruct (py_float _); cbn [bind]; [|discriminate].
  destruct (dict_item _ d2); cbn [bind]; [|discriminate].
  destruct (py_float _); cbn [bind]; [|discriminate].
  intros [= <-]. now apply dict_mem_set.
Qed.

(** X12. The cost pass removes no field of a transaction and rewrites only
    its five cost fields: every other field is handed on as it was. *)
Theorem process_tx_frame (tx out : dict) :
  process_tx (JDict tx) = Ret (JDict out) ->
  (forall k, dict_mem k tx = true -> dict_mem k out = true)
  /\ (forall k, ~ In k cost_fields -> dict_get k out = dict_get k tx).
Proof.
  unfold process_tx. cbn [as_dict bind].
  destruct (recompute_inputs tx) as [d1|] eqn:E1; cbn [bind]; [|discriminate].
  destruct (recompute_attack d1) as [d2|] eqn:E2; cbn [bind]; [|discriminate].
  destruct (recompute_effect d2) as [d3|] eqn:E3; cbn [bind]; [|discriminate].
  intros [= <-]. split.
  - intros k Hk.
    eapply recompute_effect_keeps; [exact E3|].
    eapply recompute_attack_keeps; [exact E2|].
    eapply recompute_inputs_keeps; [exact E1|exact Hk].
  - intros k Hk. unfold cost_fields in Hk. cbn [In] in Hk.
    rewrite (recompute_effect_frame d2 d3 k E3) by intuition congruence.
    rewrite (recompute_attack_frame d1 d2 k E2) by intuition congruence.
    apply (recompute_inputs_frame tx d1 k E1); intuition congruence.
Qed.

Lemma effect_without_attack (vc : pyfloat) :
  format_fixed 2 (effect_value vc fzero) = "0.00".
Proof. reflexivity. Qed.

(** X13. A transaction with no attacker sub-transaction gets the attack
    total [0.00000000] and the effect [0.00]: the quotient is not
    taken. *)
Theorem process_tx_without_attack (tx d1 : dict) :
  recompute_inputs tx = Ret d1 ->
  dict_get "sent_utxo_uxns" tx = None
  \/ dict_get "sent_utxo_uxns" tx = Some (JList []) ->
  process_tx (JDict tx)
  = Ret (JDict (dict_set "attack_effect" (JStr "0.00")
                  (dict_set "total_attack_cost_btc" (JStr "0.00000000") d1))).
Proof.
  intros E1 Hsent.
  destruct (recompute_inputs_total tx d1 E1) as [tv Htv].
  destruct (float_of_string_format 8 tv) as [vc Hvc].
  assert (Hsent1 : dict_get "sent_utxo_uxns" d1 = dict_get "sent_utxo_uxns" tx)
    by (apply (recompute_inputs_frame tx d1 _ E1); discriminate).
  assert (E2 : recompute_attack d1
               = Ret (dict_set "total_attack_cost_btc" (JStr "0.00000000") d1)).
  { unfold recompute_attack, dict_get_default, dict_mem.
    destruct Hsent as [Hsent|Hsent]; rewrite Hsent in Hsent1; rewrite Hsent1;
      cbn [py_iter bind foldM]; [reflexivity|].
    now rewrite (dict_set_same "sent_utxo_uxns" (JList []) d1 Hsent1). }
  unfold process_tx. cbn [as_dict bind]. rewrite E1. cbn [bind].
  rewrite E2. cbn [bind].
  unfold recompute_effect, dict_item.
  rewrite dict_get_set_neq by discriminate. rewrite Htv. cbn [bind py_float].
  rewrite Hvc. cbn [bind]. rewrite dict_get_set_eq. cbn [bind py_float].
  change (float_of_string "0.00000000") with (Ret fzero). cbn [bind].
  now rewrite effect_without_attack.
Qed.

Lemma binary_round_aux_no_minus (m e : Z) (l : location) :
  no_minus (binary_round_aux prec emax false m e l) = true.
Proof.
  unfold binary_round_aux.
  destruct (shr_fexp prec emax m e l) as [mrs e'].
  destruct (shr_fexp prec emax _ e' loc_Exact) as [mrs' e''].
  destruct (shr_m mrs'); [reflexivity| |reflexivity].
  destruct (Z.leb e'' (emax - prec)); reflexivity.
Qed.

Lemma fmul_no_minus (a b : pyfloat) :
  no_minus a = true -> no_minus b = true -> no_minus (fmul a b) = true.
Proof.
  destruct a as [[]|[]| |[] ma ea], b as [[]|[]| |[] mb eb];
    try discriminate; try reflexivity.
  intros _ _. apply binary_round_aux_no_minus.
Qed.

Lemma fdiv_no_minus (a b : pyfloat) :
  no_minus a = true -> no_minus b = true -> no_minus (fdiv a b) = true.
Proof.
  destruct a as [[]|[]| |[] ma ea], b as [[]|[]| |[] mb eb];
    try discriminate; try reflexivity.
  intros _ _. unfold fdiv, SFdiv.
  destruct (SFdiv_core_binary prec emax (Z.pos ma) ea (Z.pos mb) eb) as [[mz ez] lz].
  apply binary_round_aux_no_minus.
Qed.

Lemma float_of_int_no_minus (b : Z) (fb : pyfloat) :
  0 <= b -> float_of_int b = Ret fb -> no_minus fb = true.
Proof.
  unfold float_of_int. intros Hb.
  destruct (is_finite _); [|discriminate]. intros [= <-].
  destruct b as [|p|p]; [reflexivity| |lia].
  unfold binary_normalize, binary_round.
  destruct (shl_align _ _ _) as [mz ez]. apply binary_round_aux_no_minus.
Qed.

Lemma not_below_one_no_minus (r : pyfloat) :
  flt r (float_lit 1 1) = false -> no_minus r = true.
Proof. destruct r as [[]|[]| |[] m e]; try reflexivity; discriminate. Qed.

Lemma format_fixed_no_minus (p : nat) (f : pyfloat) :
  no_minus f = true -> startswith (format_fixed p f) "-" = false.
Proof.
  assert (Hr : forall n, startswith (render_fixed p n) "-" = false).
  { intros n. destruct (render_fixed_cons p n) as (c & rest & -> & Hc).
    unfold startswith. cbn [String.prefix].
    destruct (ascii_dec "-" c) as [<-|]; [discriminate Hc|reflexivity]. }
  destruct f as [[]|[]| |[] m e]; try discriminate; intros _;
    try reflexivity; apply Hr.
Qed.

(** X14. A cost is never printed with a minus sign: with a byte count that
    is not negative, whatever the recorded fee rate (negative, NaN,
    infinite), the string does not begin with [-]. *)
Theorem calculate_cost_btc_not_negative
  (entry : dict) (b : Z) (fee_rate : json) (cost : string) :
  py_int (dict_get_default "bytes" (JInt 0) entry) = Ret b ->
  0 <= b ->
  calculate_cost_btc (JDict entry) fee_rate = Some cost ->
  startswith cost "-" = false.
Proof.
  intros Hb Hpos. unfold calculate_cost_btc, calculate_cost_btc_body.
  cbn [bind]. rewrite Hb. cbn [bind].
  destruct (py_float _) as [r|]; cbn [bind try_except]; [|discriminate].
  unfold cost_value.
  destruct (float_of_int b) as [fb|] eqn:Efb; cbn [bind try_except];
    [|discriminate].
  pose proof (float_of_int_no_minus b fb Hpos Efb) as Hfb.
  destruct (flt r (float_lit DEFAULT_FEE_RATE 1)) eqn:Er;
    cbn [bind try_except]; intros [= <-]; apply format_fixed_no_minus.
  - now apply fdiv_no_minus.
  - apply fdiv_no_minus; [|reflexivity].
    apply fmul_no_minus; [exact Hfb|]. now apply not_below_one_no_minus.
Qed.

(** X15. An output typed [OP_RETURN] costs the attacker nothing: its size is
    0, so at every finite fee rate the cost is [0.00000000]. *)
Theorem op_return_output_costs_nothing
  (item : dict) (fee_rate : json) (r : pyfloat) :
  Annotate.output_script_type item = JStr "OP_RETURN" ->
  py_float (py_or fee_rate (JInt 0)) = Ret r ->
  is_finite r = true ->
  exists item',
    Annotate.add_bytes_to_item item false = Ret item'
    /\ calculate_cost_btc (JDict item') fee_rate = Some "0.00000000".
Proof.
  intros Hst Hr Hfin. unfold Annotate.add_bytes_to_item. rewrite Hst.
  cbn [Annotate.script_type_bytes bind].
  change (match Annotate.table_get "OP_RETURN" Annotate.SCRIPT_TYPE_BYTES with
          | Some b => b
          | None => 43
          end) with 0.
  eexists. split; [reflexivity|].
  unfold calculate_cost_btc, calculate_cost_btc_body. cbn [bind].
  unfold dict_get_default. rewrite dict_get_set_eq. cbn [py_int bind].
  rewrite Hr. cbn [bind]. unfold cost_value.
  change (float_of_int 0) with (Ret fzero). cbn [bind].
  destruct (flt r (float_lit DEFAULT_FEE_RATE 1)) eqn:Er; [reflexivity|].
  cbn [bind try_except].
  destruct r as [[]|[]| |[] m e]; try discriminate; reflexivity.
Qed.

End CostAccountantMore.

Section CostAccountantExamples.

Import Cost.

#[local] Existing Instance ReferenceCodec.codec.

Lemma calculate_cost_btc_not_negative_example :
  startswith "0.00000250" "-" = false.
Proof.
  exact (calculate_cost_btc_not_negative [("bytes", JStr "250")] 250
           (JInt (-7)) "0.00000250" eq_refl ltac:(lia) eq_refl).
Defined.

Lemma process_tx_frame_example :
  exists out,
    process_tx (JDict example_tx) = Ret (JDict out)
    /\ (forall k, dict_mem k example_tx = true -> dict_mem k out = true)
    /\ (forall k, ~ In k cost_fields -> dict_get k out = dict_get k example_tx).
Proof.
  eexists. split; [vm_compute; reflexivity|].
  apply (process_tx_frame example_tx). vm_compute. reflexivity.
Defined.

Lemma process_tx_without_attack_example :
  exists d1,
    recompute_inputs lone_tx = Ret d1
    /\ process_tx (JDict lone_tx)
       = Ret (JDict (dict_set "attack_effect" (JStr "0.00")
                       (dict_set "total_attack_cost_btc" (JStr "0.00000000") d1))).
Proof.
  eexists. split; [vm_compute; reflexivity|].
  apply (process_tx_without_attack lone_tx); [vm_compute; reflexivity|].
  left. reflexivity.
Defined.

Lemma op_return_output_costs_nothing_example :
  exists item',
    Annotate.add_bytes_to_item op_return_output false = Ret item'
    /\ calculate_cost_btc (JDict item') (JInt 25) = Some "0.00000000".
Proof.
  exact (op_return_output_costs_nothing op_return_output (JInt 25) _
           eq_refl eq_refl eq_refl).
Defined.

End CostAccountantExamples.

Section JsonStringEntries.

Context `{C : JsonCodec} {L : JsonRoundTrip C}.

Import Cost.

(** X16. An entry handed over as a JSON string costs what the object it
    encodes costs. *)
Theorem calculate_cost_btc_json_string (entry fee_rate : json) :
  json_wf entry = true ->
  is_str entry = false ->
  calculate_cost_btc (JStr (dumps entry)) fee_rate
  = calculate_cost_btc entry fee_rate.
Proof.
  intros Hwf Hstr. unfold calculate_cost_btc, calculate_cost_btc_body, json_loads.
  rewrite (loads_dumps entry Hwf). cbn [bind].
  destruct entry; try reflexivity. discriminate.
Qed.

End JsonStringEntries.

Lemma calculate_cost_btc_json_string_example :
  Cost.calculate_cost_btc (H := ReferenceCodec.codec)
    (JStr (ReferenceCodec.ref_dumps (JDict [("bytes", JInt 100)]))) (JInt 3)
  = Cost.calculate_cost_btc (H := ReferenceCodec.codec)
      (JDict [("bytes", JInt 100)]) (JInt 3).
Proof.
  exact (calculate_cost_btc_json_string (C := ReferenceCodec.codec)
           (L := codec_round_trip)
           (JDict [("bytes", JInt 100)]) (JInt 3) eq_refl eq_refl).
Defined.

(** ** The annotation of detail fields *)

Section AnnotateDetailsFacts.

Import Annotate AnnotateDetails.

Lemma tag_entry_kept (key : string) (is_input : bool) (entry : json) :
  entry_kept entry (fst (tag_entry key is_input entry)).
Proof.
  destruct entry as [ |b|z|f|s|l|d]; try reflexivity.
  unfold tag_entry.
  destruct (add_bytes_to_item _ is_input) as [d2|e] eqn:E; cbn [fst entry_kept];
    intros k Hst Hb.
  - rewrite (add_bytes_to_item_kept _ _ _ k E Hst Hb).
    now rewrite dict_get_set_neq.
  - now rewrite dict_get_set_neq.
Qed.

Lemma entry_kept_refl (entry : json) : entry_kept entry entry.
Proof. destruct entry; simpl; auto. Qed.

Lemma annotate_entry_kept (ti to : bool) (entry : json) :
  entry_kept entry (fst (annotate_entry ti to entry)).
Proof.
  unfold annotate_entry.
  destruct (if ti then _ else _) as [[]|]; try apply entry_kept_refl;
    try apply tag_entry_kept.
  destruct (if to then _ else _) as [[]|]; try apply entry_kept_refl;
    apply tag_entry_kept.
Qed.

Lemma annotate_entries_kept (ti to : bool) (entries : list json) :
  Forall2 entry_kept entries (fst (annotate_entries ti to entries)).
Proof.
  induction entries as [|entry rest IH]; cbn [annotate_entries]; [constructor|].
  pose proof (annotate_entry_kept ti to entry) as He.
  destruct (annotate_entry ti to entry) as [entry' [e|]]; cbn [fst] in *.
  - constructor; [exact He|].
    clear. induction rest; constructor; auto using entry_kept_refl.
  - destruct (annotate_entries ti to rest) as [rest' e]. cbn [fst] in *.
    now constructor.
Qed.

Section WithCodec.
Context `{C : JsonCodec}.

(** X17. On a list held as a Python list, [process_utxo_details] drops, adds
    and moves no entry, leaves every entry that is not an object as it
    is, and changes nothing of an object but [scriptType] and [bytes];
    this holds as well when an entry makes the annotation stop. *)
Theorem process_utxo_details_list_frame (entries : list json) :
  exists entries',
    process_utxo_details (JList entries) = JList entries'
    /\ Forall2 entry_kept entries entries'.
Proof.
  unfold process_utxo_details, process_details.
  destruct entries as [|entry rest]; [exists []; split; [reflexivity|constructor]|].
  cbn [py_truthy negb annotate_object].
  pose proof (annotate_entries_kept true true (entry :: rest)) as Hk.
  destruct (annotate_entries true true (entry :: rest)) as [l' e].
  exists l'. split; [reflexivity|exact Hk].
Qed.

Lemma annotate_entries_inputs (ds : list dict) (sizes : list Z) :
  Forall2 (fun d n => dict_mem "inputHash" d = true
                      /\ calculate_input_bytes d = Ret n) ds sizes ->
  annotate_entries true true (map JDict ds)
  = (map (fun dn => annotated_input (fst dn) (snd dn)) (combine ds sizes), None).
Proof.
  induction 1 as [|d n ds sizes [Hmem Hsize] _ IH]; [reflexivity|].
  cbn [map combine annotate_entries fst snd].
  unfold annotate_entry. cbn [py_in]. rewrite Hmem.
  unfold tag_entry, add_bytes_to_item.
  rewrite calculate_input_bytes_set, Hsize by discriminate. cbn [bind].
  now rewrite IH.
Qed.

(** X18. A list of input descriptors, each with an address field and a size
    that can be computed, comes back with every descriptor typed from
    its address and sized by [calculate_input_bytes], in the same
    order. *)
Theorem process_utxo_details_inputs (ds : list dict) (sizes : list Z) :
  ds <> [] ->
  Forall2 (fun d n => dict_mem "inputHash" d = true
                      /\ calculate_input_bytes d = Ret n) ds sizes ->
  process_utxo_details (JList (map JDict ds))
  = JList (map (fun dn => annotated_input (fst dn) (snd dn)) (combine ds sizes)).
Proof.
  intros Hne Hall. unfold process_utxo_details, process_details.
  destruct ds as [|d ds]; [congruence|].
  cbn [map py_truthy negb annotate_object].
  change (JDict d :: map JDict ds) with (map JDict (d :: ds)).
  now rewrite (annotate_entries_inputs _ _ Hall).
Qed.

End WithCodec.

(** The entry as the two statements leave it: typed, and sized unless
    sizing raised. *)
Lemma tag_entry_dict (key : string) (is_input : bool) (d : dict) :
  let d1 :=
    dict_set "scriptType"
      (JStr (identify_script_type (dict_get_default key (JStr "") d))) d in
  (exists e, add_bytes_to_item d1 is_input = Raise e
             /\ tag_entry key is_input (JDict d) = (JDict d1, Some e))
  \/ (exists b, add_bytes_to_item d1 is_input
                = Ret (dict_set "bytes" (JInt b) d1)
                /\ tag_entry key is_input (JDict d)
                   = (JDict (dict_set "bytes" (JInt b) d1), None)).
Proof.
  intros d1. unfold tag_entry. fold d1.
  destruct (add_bytes_to_item d1 is_input) as [d2|e] eqn:E.
  - right. destruct (add_bytes_to_item_shape _ _ _ E) as [b Hb].
    exists b. replace d2 with (dict_set "bytes" (JInt b) d1); [now split|].
    rewrite Hb. destruct is_input; [reflexivity|].
    f_equal. symmetry.
    apply (dict_set_same "scriptType" (output_script_type d1) d1).
    unfold output_script_type, dict_get_none, dict_get_default, d1.
    rewrite dict_get_set_eq. unfold py_or.
    now rewrite identify_script_type_truthy.
  - left. now exists e.
Qed.

Lemma tag_entry_again (key : string) (is_input : bool) (entry : json) :
  key <> "scriptType" -> key <> "bytes" ->
  tag_entry key is_input (fst (tag_entry key is_input entry))
  = tag_entry key is_input entry.
Proof.
  intros Hk1 Hk2. destruct entry as [ |b|z|f|s|l|d]; try reflexivity.
  destruct (tag_entry_dict key is_input d) as [(e & Hadd & ->)|(b & Hadd & ->)];
    cbn [fst].
  - unfold tag_entry.
    rewrite !(dict_get_default_set_neq key) by assumption.
    now rewrite dict_set_set, Hadd.
  - unfold tag_entry.
    rewrite !(dict_get_default_set_neq key) by assumption.
    rewrite (dict_set_same "scriptType")
      by (rewrite dict_get_set_neq by discriminate; apply dict_get_set_eq).
    now rewrite (add_bytes_to_item_again _ _ _ Hadd).
Qed.

Lemma py_in_kept (k : string) (entry entry' : json) :
  entry_kept entry entry' -> k <> "scriptType" -> k <> "bytes" ->
  is_ret (py_in k entry) = true ->
  py_in k entry' = py_in k entry.
Proof.
  destruct entry as [ |b|z|f|s|l|d]; simpl; try (now intros ->).
  destruct entry' as [ |b|z|f|s|l|d']; try discriminate.
  intros H H1 H2 _. cbn [py_in]. unfold dict_mem. now rewrite H.
Qed.

Lemma tag_entry_dict_shape (key : string) (is_input : bool) (entry : json) :
  match entry, fst (tag_entry key is_input entry) with
  | JDict _, JDict _ => True
  | JDict _, _ => False
  | _, entry' => entry' = entry
  end.
Proof.
  destruct entry as [ |b|z|f|s|l|d]; try reflexivity.
  unfold tag_entry. now destruct (add_bytes_to_item _ _).
Qed.

Lemma annotate_entry_again (ti to : bool) (entry : json) :
  annotate_entry ti to (fst (annotate_entry ti to entry))
  = annotate_entry ti to entry.
Proof.
  unfold annotate_entry at 2 3.
  destruct (if ti then py_in "inputHash" entry else Ret false) as [[]|e] eqn:Ei.
  - pose proof (tag_entry_kept "inputHash" true entry) as Hk.
    unfold annotate_entry.
    destruct ti; [|discriminate].
    rewrite (py_in_kept "inputHash" _ _ Hk) by (try discriminate; now rewrite Ei).
    rewrite Ei. apply tag_entry_again; discriminate.
  - destruct (if to then py_in "outputHash" entry else Ret false) as [[]|e] eqn:Eo.
    + pose proof (tag_entry_kept "outputHash" false entry) as Hk.
      unfold annotate_entry.
      assert (Hi : (if ti then py_in "inputHash" (fst (tag_entry "outputHash" false entry))
                    else Ret false) = Ret false).
      { destruct ti; [|reflexivity].
        rewrite (py_in_kept "inputHash" _ _ Hk) by (try discriminate; now rewrite Ei).
        exact Ei. }
      rewrite Hi. destruct to; [|discriminate].
      rewrite (py_in_kept "outputHash" _ _ Hk) by (try discriminate; now rewrite Eo).
      rewrite Eo. apply tag_entry_again; discriminate.
    + cbn [fst]. unfold annotate_entry. now rewrite Ei, Eo.
    + cbn [fst]. unfold annotate_entry. now rewrite Ei, Eo.
  - cbn [fst]. unfold annotate_entry. now rewrite Ei.
Qed.

Lemma annotate_entries_again (ti to : bool) (entries : list json) :
  annotate_entries ti to (fst (annotate_entries ti to entries))
  = annotate_entries ti to entries.
Proof.
  induction entries as [|entry rest IH]; [reflexivity|].
  cbn [annotate_entries].
  pose proof (annotate_entry_again ti to entry) as He.
  destruct (annotate_entry ti to entry) as [entry' [e|]] eqn:E; cbn [fst] in *.
  - cbn [annotate_entries]. now rewrite He.
  - destruct (annotate_entries ti to rest) as [rest' e] eqn:Er. cbn [fst] in *.
    cbn [annotate_entries]. now rewrite He, IH.
Qed.

Lemma annotate_entries_length (ti to : bool) (entries : list json) :
  List.length (fst (annotate_entries ti to entries)) = List.length entries.
Proof.
  pose proof (annotate_entries_kept ti to entries) as H.
  symmetry. eapply Forall2_length, H.
Qed.

Lemma tag_entry_wf (key : string) (is_input : bool) (entry : json) :
  json_wf entry = true -> json_wf (fst (tag_entry key is_input entry)) = true.
Proof.
  destruct entry as [ |b|z|f|s|l|d]; try (intros Hwf; exact Hwf); intros Hwf.
  destruct (tag_entry_dict key is_input d) as [(e & _ & ->)|(b & _ & ->)];
    cbn [fst]; repeat apply json_wf_dict_set; auto.
Qed.

Lemma annotate_entry_wf (ti to : bool) (entry : json) :
  json_wf entry = true -> json_wf (fst (annotate_entry ti to entry)) = true.
Proof.
  intros Hwf. unfold annotate_entry.
  destruct (if ti then _ else _) as [[]|]; auto using tag_entry_wf.
  destruct (if to then _ else _) as [[]|]; auto using tag_entry_wf.
Qed.

Lemma annotate_entries_wf (ti to : bool) (entries : list json) :
  forallb json_wf entries = true ->
  forallb json_wf (fst (annotate_entries ti to entries)) = true.
Proof.
  induction entries as [|entry rest IH]; [reflexivity|].
  cbn [forallb annotate_entries]. intros H. apply andb_prop in H as [He Hr].
  pose proof (annotate_entry_wf ti to entry He) as He'.
  destruct (annotate_entry ti to entry) as [entry' [e|]]; cbn [fst] in *.
  - cbn [forallb]. now rewrite He', Hr.
  - specialize (IH Hr).
    destruct (annotate_entries ti to rest) as [rest' e]. cbn [fst forallb] in *.
    now rewrite He', IH.
Qed.

Lemma nonempty_length {A : Type} (l l' : list A) :
  List.length l' = List.length l ->
  match l' with [] => false | _ => true end
  = match l with [] => false | _ => true end.
Proof. destruct l, l'; simpl; congruence. Qed.

Lemma annotate_list_stable (is_input : bool) : stable (annotate_list is_input).
Proof.
  intros obj.
  destruct obj as [ |b|z|f|s|l|d]; try (repeat split; auto; reflexivity).
  unfold annotate_list.
  pose proof (annotate_entries_again is_input (negb is_input) l) as Ha.
  pose proof (annotate_entries_wf is_input (negb is_input) l) as Hw.
  pose proof (annotate_entries_length is_input (negb is_input) l) as Hl.
  destruct (annotate_entries is_input (negb is_input) l) as [l' e].
  cbn [fst] in *. rewrite Ha.
  repeat split; auto. cbn [py_truthy]. now rewrite (nonempty_length l l' Hl).
Qed.

Lemma dict_mem_set_neq (k k' : string) (v : json) (d : dict) :
  k <> k' -> dict_mem k (dict_set k' v d) = dict_mem k d.
Proof. intros Hne. unfold dict_mem. now rewrite dict_get_set_neq. Qed.

Lemma dict_set_truthy (k : string) (v : json) (d : dict) :
  py_truthy (JDict (dict_set k v d)) = true.
Proof. destruct d as [|[k' v'] d]; simpl; [reflexivity|]. now destruct (String.eqb k k'). Qed.

Lemma annotate_object_stable : stable annotate_object.
Proof.
  intros obj.
  destruct obj as [ |b|z|f|s|l|d]; try (repeat split; auto; reflexivity).
  - unfold annotate_object.
    pose proof (annotate_entries_again true true l) as Ha.
    pose proof (annotate_entries_wf true true l) as Hw.
    pose proof (annotate_entries_length true true l) as Hl.
    destruct (annotate_entries true true l) as [l' e].
    cbn [fst] in *. rewrite Ha.
    repeat split; auto. cbn [py_truthy]. now rewrite (nonempty_length l l' Hl).
  - cbn [annotate_object].
    set (is_input := dict_mem "inputHash" d).
    set (key := if is_input then "inputHash" else "outputHash").
    assert (Hkey : key <> "scriptType" /\ key <> "bytes")
      by (subst key; destruct is_input; split; discriminate).
    pose proof (tag_entry_again key is_input (JDict d) (proj1 Hkey) (proj2 Hkey)) as Ha.
    pose proof (tag_entry_wf key is_input (JDict d)) as Hw.
    destruct (tag_entry_dict key is_input d) as [(e & _ & Ht)|(b & _ & Ht)];
      rewrite Ht in *; cbn [fst] in *; cbn [annotate_object].
    + rewrite dict_mem_set_neq by discriminate.
      fold is_input. fold key. rewrite Ha.
      repeat split; auto. intros _. apply dict_set_truthy.
    + rewrite !dict_mem_set_neq by discriminate.
      fold is_input. fold key. rewrite Ha.
      repeat split; auto. intros _. apply dict_set_truthy.
Qed.

Section RoundTrip.
Context `{C : JsonCodec} {L : JsonRoundTrip C}.

Lemma process_details_again (annotate : json -> json * option exn)
  (details : json) :
  stable annotate ->
  process_details annotate (process_details annotate details)
  = process_details annotate details.
Proof.
  intros Hst. unfold process_details at 2 3.
  destruct (py_truthy details) eqn:Et; cbn [negb].
  2: { unfold process_details. now rewrite Et. }
  assert (Hother : is_str details = false ->
            process_details annotate (fst (annotate details))
            = fst (annotate details)).
  { intros Hs. destruct (Hst details) as (Ha & _ & Hs' & Hp).
    unfold process_details. rewrite (Hp Et). cbn [negb].
    rewrite Hs in Hs'.
    assert (Hfix : fst (annotate (fst (annotate details)))
                   = fst (annotate details)) by now rewrite Ha.
    destruct (fst (annotate details)); try discriminate Hs'; exact Hfix. }
  destruct details as [ |b|z|f|s|l|d]; try (apply Hother; reflexivity).
  clear Hother.
  destruct (loads s) as [obj|] eqn:El.
  2: { unfold process_details. now rewrite Et, El. }
  destruct (Hst obj) as (Ha & Hw & _ & _).
  destruct (annotate obj) as [obj' [e|]] eqn:Ea; cbn [fst] in *.
  - unfold process_details. now rewrite Et, El, Ea.
  - unfold process_details.
    destruct (py_truthy (JStr (dumps obj'))); cbn [negb]; [|reflexivity].
    rewrite (loads_dumps obj' (Hw (loads_wf s obj El))). now rewrite Ha.
Qed.

(** X19. The two annotation passes over a detail field are idempotent: on
    every value, a second pass over the answer of the first hands it
    back unchanged, also when the first pass stopped on an entry it
    could not annotate. *)
Theorem process_details_idempotent (details : json) (is_input : bool) :
  process_utxo_details (process_utxo_details details)
  = process_utxo_details details
  /\ process_transaction_list (process_transaction_list details is_input) is_input
     = process_transaction_list details is_input.
Proof.
  split.
  - apply process_details_again, annotate_object_stable.
  - apply process_details_again, annotate_list_stable.
Qed.

End RoundTrip.

End AnnotateDetailsFacts.

Lemma process_details_idempotent_example :
  AnnotateDetails.process_utxo_details (H := ReferenceCodec.codec)
    (AnnotateDetails.process_utxo_details (H := ReferenceCodec.codec)
       (JStr encoded_inputs))
  = AnnotateDetails.process_utxo_details (H := ReferenceCodec.codec)
      (JStr encoded_inputs)
  /\ AnnotateDetails.process_transaction_list (H := ReferenceCodec.codec)
       (AnnotateDetails.process_transaction_list (H := ReferenceCodec.codec)
          (JList [JDict legacy_input_50; JInt 7; JDict segwit_input_2x64]) true)
       true
     = AnnotateDetails.process_transaction_list (H := ReferenceCodec.codec)
         (JList [JDict legacy_input_50; JInt 7; JDict segwit_input_2x64]) true.
Proof.
  split.
  - exact (proj1 (process_details_idempotent (C := ReferenceCodec.codec)
                    (L := codec_round_trip) (JStr encoded_inputs) true)).
  - exact (proj2 (process_details_idempotent (C := ReferenceCodec.codec)
                    (L := codec_round_trip)
                    (JList [JDict legacy_input_50; JInt 7;
                            JDict segwit_input_2x64]) true)).
Defined.


Lemma process_utxo_details_inputs_example :
  AnnotateDetails.process_utxo_details (H := ReferenceCodec.codec)
    (JList [JDict legacy_input_50; JDict segwit_input_2x64])
  = JList [annotated_input legacy_input_50 91;
           annotated_input segwit_input_2x64 74].
Proof.
  apply (process_utxo_details_inputs (C := ReferenceCodec.codec)
           [legacy_input_50; segwit_input_2x64] [91; 74]).
  - discriminate.
  - repeat constructor.
Defined.

(** ** The classifier pass over a file *)

Section ClassifierFileFacts.

Import Classifier ClassifierFile.

Context `{C : JsonCodec}.

Lemma count_tag_exists (a cat : string) (counts : list (string * Z)) :
  existsb (String.eqb a) (map fst (count_tag cat counts))
  = existsb (String.eqb a) (map fst counts) || String.eqb a cat.
Proof.
  induction counts as [|[c n] counts IH]; simpl.
  - now rewrite orb_false_r.
  - destruct (String.eqb_spec cat c) as [->|Hc]; simpl.
    + destruct (String.eqb a c); simpl; [reflexivity|now rewrite orb_false_r].
    + rewrite IH. now rewrite orb_assoc.
Qed.

Lemma count_tag_nodup (cat : string) (counts : list (string * Z)) :
  nodup_keys (map fst counts) = true ->
  nodup_keys (map fst (count_tag cat counts)) = true.
Proof.
  induction counts as [|[c n] counts IH]; simpl; [reflexivity|].
  intros H. apply andb_prop in H as [Hc Hd].
  destruct (String.eqb_spec cat c) as [->|Hne]; simpl.
  - now rewrite Hc, Hd.
  - rewrite count_tag_exists, (IH Hd).
    apply negb_true_iff in Hc. rewrite Hc. simpl.
    destruct (String.eqb_spec c cat); [congruence|reflexivity].
Qed.

Lemma count_tag_sum (cat : string) (counts : list (string * Z)) :
  counts_sum (count_tag cat counts) = counts_sum counts + 1.
Proof.
  unfold counts_sum.
  induction counts as [|[c n] counts IH]; simpl; [reflexivity|].
  destruct (String.eqb cat c); simpl; lia.
Qed.

Lemma count_tag_all (P : string -> Prop) (cat : string)
  (counts : list (string * Z)) :
  P cat ->
  Forall (fun cn => P (fst cn) /\ 0 < snd cn) counts ->
  Forall (fun cn => P (fst cn) /\ 0 < snd cn) (count_tag cat counts).
Proof.
  intros Hcat. induction 1 as [|[c n] counts [Hc Hn] Hall IH]; simpl.
  - constructor; [split; [exact Hcat|simpl; lia]|constructor].
  - destruct (String.eqb cat c).
    + constructor; [split; [exact Hc|simpl in *; lia]|exact Hall].
    + constructor; [now split|exact IH].
Qed.

Lemma count_tag_ok (cat : string) (counts : list (string * Z)) (total : Z) :
  In cat classifier_tags ->
  tally_ok (counts, total) -> tally_ok (count_tag cat counts, total + 1).
Proof.
  intros Hcat (Hall & Hnd & Hsum). cbn [fst snd] in *.
  split; [|split]; cbn [fst snd].
  - now apply (count_tag_all (fun c => In c classifier_tags)).
  - now apply count_tag_nodup.
  - rewrite count_tag_sum. lia.
Qed.

Lemma classify_entries_ok (items : list json) :
  forall (updated : list json) (t : tally) (updated' : list json) (t' : tally),
    foldM classify_entry items (updated, t) = Ret (updated', t') ->
    tally_ok t -> tally_ok t'.
Proof.
  induction items as [|utxo items IH]; intros updated t updated' t'; simpl.
  - now intros [= <- <-].
  - destruct t as [counts total].
    destruct utxo as [ |b|z|f|s|l|d]; cbn [bind]; try (apply IH).
    destruct (classify_utxo d) as [cat|] eqn:Ec; cbn [bind]; [|discriminate].
    intros Hrun Hok. eapply IH; [exact Hrun|].
    apply count_tag_ok; [|exact Hok]. eapply classify_utxo_tags, Ec.
Qed.

Lemma classify_field_ok (key : string) (tx tx' : dict) (t t' : tally) :
  classify_field key (tx, t) = Ret (tx', t') -> tally_ok t -> tally_ok t'.
Proof.
  unfold classify_field.
  destruct (match dict_get_default key (JStr "[]") tx with
            | JStr s => loads s
            | _ => Some (dict_get_default key (JStr "[]") tx)
            end) as [arr|].
  - destruct (py_iter arr) as [items|]; cbn [bind]; [|discriminate].
    destruct (foldM classify_entry items ([], t)) as [[updated t1]|] eqn:Ef;
      cbn [bind]; [|discriminate].
    intros [= _ <-]. eapply classify_entries_ok, Ef.
  - now intros [= _ <-].
Qed.

Lemma classify_records_ok (records : list json) :
  forall (done : list json) (t : tally) (done' : list json) (t' : tally),
    foldM classify_record records (done, t) = Ret (done', t') ->
    tally_ok t -> tally_ok t'.
Proof.
  induction records as [|tx records IH]; intros done t done' t';
    cbn [foldM].
  - now intros [= <- <-].
  - unfold classify_record at 1.
    destruct (as_dict tx) as [d|]; cbn [bind]; [|discriminate].
    destruct (classify_field "Txn Input Details" (d, t)) as [[d1 t1]|] eqn:E1;
      cbn [bind]; [|discriminate].
    destruct (classify_field "Txn Input UTXO Details" (d1, t1)) as [[d2 t2]|] eqn:E2;
      cbn [bind]; [|discriminate].
    intros Hrun Hok. eapply IH; [exact Hrun|].
    eapply classify_field_ok; [exact E2|].
    eapply classify_field_ok; [exact E1|exact Hok].
Qed.

(** X20. The summary a file pass returns is consistent: every counted tag is
    one of the ten tags of the classifier, with a positive count, no tag
    appears twice, and the counts add up to the total. *)
Theorem process_file_tally
  (text : string) (out : option json) (counts : list (string * Z)) (total : Z) :
  process_file text = Ret (out, (counts, total)) ->
  Forall (fun cn => In (fst cn) classifier_tags /\ 0 < snd cn) counts
  /\ nodup_keys (map fst counts) = true
  /\ counts_sum counts = total.
Proof.
  unfold process_file.
  destruct (loads text) as [data|].
  - destruct (foldM classify_record (records_of data) _) as [[records t]|] eqn:Ef;
      cbn [bind]; [|discriminate].
    intros [= _ ->].
    apply (classify_records_ok _ _ _ _ _ Ef).
    repeat split; cbn; constructor.
  - intros [= _ <- <-]. repeat split; cbn; constructor.
Qed.

Lemma py_iter_raises (v : json) (e : exn) :
  py_iter v = Raise e -> e = TypeError.
Proof. destruct v; simpl; congruence. Qed.

Lemma foldM_raises {A B : Type} (f : B -> A -> result B) (l : list A) (x : A) :
  In x l ->
  (forall acc : B, exists e : exn, f acc x = Raise e) ->
  forall acc : B, exists e : exn, foldM f l acc = Raise e.
Proof.
  intros Hin Hx. induction l as [|y l IH]; [destruct Hin|].
  intros acc. cbn [foldM]. destruct Hin as [->|Hin].
  - destruct (Hx acc) as [e ->]. now exists e.
  - destruct (f acc y) as [acc'|e]; cbn [bind]; [now apply IH|now exists e].
Qed.

Lemma classify_field_not_iterable (key : string) (tx : dict) (t : tally) :
  not_iterable (dict_get_default key (JStr "[]") tx) = true ->
  classify_field key (tx, t) = Raise TypeError.
Proof.
  unfold classify_field.
  now destruct (dict_get_default key (JStr "[]") tx).
Qed.

Lemma classify_field_other (key k : string) (tx tx' : dict) (t t' : tally) :
  classify_field key (tx, t) = Ret (tx', t') ->
  k <> key ->
  dict_get_default k (JStr "[]") tx' = dict_get_default k (JStr "[]") tx.
Proof.
  unfold classify_field.
  destruct (match dict_get_default key (JStr "[]") tx with
            | JStr s => loads s
            | _ => Some (dict_get_default key (JStr "[]") tx)
            end) as [arr|]; [|now intros [= <- _]].
  destruct (py_iter arr) as [items|]; cbn [bind]; [|discriminate].
  destruct (foldM classify_entry items ([], t)) as [[updated t1]|];
    cbn [bind]; [|discriminate].
  intros [= <- _] Hne. unfold dict_get_default.
  now rewrite dict_get_set_neq.
Qed.

Lemma classify_record_ill_typed (r : json) :
  ill_typed_record r = true ->
  forall acc : list json * tally,
  exists e : exn, classify_record acc r = Raise e.
Proof.
  intros Hr [done t]. unfold classify_record.
  destruct r as [ |b|z|f|str|l|d]; cbn [as_dict bind];
    try (now exists AttributeError).
  cbn [ill_typed_record] in Hr.
  destruct (classify_field "Txn Input Details" _) as [[d1 t1]|e] eqn:E1;
    cbn [bind].
  2:{ exists e. reflexivity. }
  apply orb_true_iff in Hr as [Hr|Hr].
  - rewrite (classify_field_not_iterable _ _ _ Hr) in E1. discriminate.
  - rewrite classify_field_not_iterable.
    + exists TypeError. reflexivity.
    + now rewrite (classify_field_other _ "Txn Input UTXO Details" _ _ _ _ E1)
        by discriminate.
Qed.

(** X21. One record the classifier pass cannot read (a record that is
    not an object, or whose descriptors are a number, a boolean or
    null) loses the whole file: [process_file] raises, returns no
    counts, and the file is not rewritten. *)
Theorem process_file_raises (text : string) (data r : json) :
  loads text = Some data ->
  In r (records_of data) ->
  ill_typed_record r = true ->
  exists e : exn, process_file text = Raise e.
Proof.
  intros Hload Hin Hr. unfold process_file. rewrite Hload.
  destruct (foldM_raises classify_record (records_of data) r Hin
              (classify_record_ill_typed r Hr) ([], ([], 0))) as [e ->].
  now exists e.
Qed.

Lemma classify_entries_tagged (ds : list dict) (cats : list string) :
  Forall2 (fun d cat => classify_utxo d = Ret cat) ds cats ->
  forall (updated : list json) (counts : list (string * Z)) (total : Z),
    foldM classify_entry (map JDict ds) (updated, (counts, total))
    = Ret ((updated ++ map (fun dc => tagged (fst dc) (snd dc)) (combine ds cats))%list,
           (fold_left (fun c cat => count_tag cat c) cats counts,
            total + Z.of_nat (List.length ds))).
Proof.
  induction 1 as [|d cat ds cats Hd _ IH]; intros updated counts total.
  - cbn. rewrite app_nil_r. do 3 f_equal. lia.
  - cbn [map foldM classify_entry combine fst snd fold_left List.length].
    rewrite Hd. cbn [bind]. rewrite IH, <- app_assoc. cbn [app].
    do 3 f_equal. lia.
Qed.

(** X22. A field that holds a list of descriptors comes back with every
    descriptor tagged by [classify_utxo], in the same order; each tag is
    counted once and the total grows by the number of descriptors. *)
Theorem classify_field_list
  (key : string) (tx : dict) (ds : list dict) (cats : list string)
  (counts : list (string * Z)) (total : Z) :
  dict_get key tx = Some (JList (map JDict ds)) ->
  Forall2 (fun d cat => classify_utxo d = Ret cat) ds cats ->
  classify_field key (tx, (counts, total))
  = Ret (dict_set key
           (JList (map (fun dc => tagged (fst dc) (snd dc)) (combine ds cats))) tx,
         (fold_left (fun c cat => count_tag cat c) cats counts,
          total + Z.of_nat (List.length ds))).
Proof.
  intros Hget Hall. unfold classify_field, dict_get_default. rewrite Hget.
  cbn [py_iter bind].
  now rewrite (classify_entries_tagged ds cats Hall).
Qed.

Lemma classify_entries_strings (keys : list string) :
  forall (updated : list json) (t : tally),
    foldM classify_entry (map JStr keys) (updated, t)
    = Ret ((updated ++ map JStr keys)%list, t).
Proof.
  induction keys as [|k keys IH]; intros updated [counts total]; cbn.
  - now rewrite app_nil_r.
  - rewrite IH, <- app_assoc. reflexivity.
Qed.

(** X23. A field that holds a single descriptor object instead of a list is
    not classified: the loop runs over the names of its fields, and the
    field is replaced by the list of these names. *)
Theorem classify_field_single_object
  (key : string) (tx d : dict) (t : tally) :
  dict_get key tx = Some (JDict d) ->
  classify_field key (tx, t)
  = Ret (dict_set key (JList (map (fun kv => JStr (fst kv)) d)) tx, t).
Proof.
  intros Hget. unfold classify_field, dict_get_default. rewrite Hget.
  cbn [py_iter bind].
  rewrite <- (map_map fst JStr), classify_entries_strings. reflexivity.
Qed.

End ClassifierFileFacts.

Lemma classify_field_list_example :
  ClassifierFile.classify_field (H := ReferenceCodec.codec) "Txn Input Details"
    ([("Txn Input Details",
       JList [JDict taproot_one_witness; JDict segwit_input_2x64])], ([], 0))
  = Ret ([("Txn Input Details",
           JList [tagged taproot_one_witness "P2TR_key_path";
                  tagged segwit_input_2x64 "P2WPKH"])],
         ([("P2TR_key_path", 1); ("P2WPKH", 1)], 2)).
Proof.
  exact (classify_field_list (C := ReferenceCodec.codec) "Txn Input Details"
           [("Txn Input Details",
             JList [JDict taproot_one_witness; JDict segwit_input_2x64])]
           [taproot_one_witness; segwit_input_2x64]
           ["P2TR_key_path"; "P2WPKH"] [] 0 eq_refl
           ltac:(repeat constructor)).
Defined.

Lemma classify_field_single_object_example :
  ClassifierFile.classify_field (H := ReferenceCodec.codec)
    "Txn Input UTXO Details" (single_descriptor_tx, ([], 0))
  = Ret ([("Txn Hash", JStr "d4");
          ("Txn Input UTXO Details", JList [JStr "inputHash"; JStr "amount"])],
         ([], 0)).
Proof.
  exact (classify_field_single_object (C := ReferenceCodec.codec)
           "Txn Input UTXO Details" single_descriptor_tx _ ([], 0) eq_refl).
Defined.

Lemma classified_file_run :
  ClassifierFile.process_file (H := ReferenceCodec.codec) classified_file_text
  = Ret (classified_file_out, ([("P2TR_key_path", 1); ("P2WPKH", 1)], 2)).
Proof. vm_compute. reflexivity. Qed.

Lemma process_file_tally_example :
  Forall (fun cn => In (fst cn) classifier_tags /\ 0 < snd cn)
    [("P2TR_key_path", 1); ("P2WPKH", 1)]
  /\ nodup_keys (map fst [("P2TR_key_path", 1); ("P2WPKH", 1)]) = true
  /\ counts_sum [("P2TR_key_path", 1); ("P2WPKH", 1)] = 2.
Proof.
  exact (process_file_tally (C := ReferenceCodec.codec)
           classified_file_text classified_file_out
           [("P2TR_key_path", 1); ("P2WPKH", 1)] 2 classified_file_run).
Defined.

Lemma ill_typed_file_loads :
  loads (JsonCodec := ReferenceCodec.codec) ill_typed_file_text
  = Some ill_typed_file.
Proof. vm_compute. reflexivity. Qed.

Lemma process_file_raises_example :
  exists e : exn,
    ClassifierFile.process_file (H := ReferenceCodec.codec) ill_typed_file_text
    = Raise e.
Proof.
  apply (process_file_raises (C := ReferenceCodec.codec)
           ill_typed_file_text ill_typed_file
           (JDict [("Txn Hash", JStr "a2"); ("Txn Input UTXO Details", JInt 7)])).
  - exact ill_typed_file_loads.
  - right. left. reflexivity.
  - reflexivity.
Defined.

Section AnnotateFileFacts.

Import Annotate AnnotateDetails AnnotateFile.

Context `{C : JsonCodec}.

Lemma mapping_keys_raise (keys : list (string * json)) (m : mapping) :
  keys <> [] ->
  foldM mapping_step (map (fun kv => JStr (fst kv)) keys) m = Raise AttributeError.
Proof. destruct keys as [|kv keys]; [congruence|reflexivity]. Qed.

Lemma dict_set_nonempty (k : string) (v : json) (d : dict) :
  dict_set k v d <> [].
Proof.
  destruct d as [|[k' v'] d]; simpl; [discriminate|].
  destruct (String.eqb k k'); discriminate.
Qed.

Lemma update_field_other (key k : string) (f : json -> json) (tx : dict) :
  k <> key -> dict_get k (update_field key f tx) = dict_get k tx.
Proof.
  intros Hne. unfold update_field.
  destruct (dict_get key tx); [|reflexivity]. now rewrite dict_get_set_neq.
Qed.

Lemma update_field_same (key : string) (f : json -> json) (tx : dict) (v : json) :
  dict_get key tx = Some v ->
  dict_get key (update_field key f tx) = Some (f v).
Proof.
  intros Hget. unfold update_field. rewrite Hget. apply dict_get_set_eq.
Qed.

(** A transaction whose input field holds a single descriptor object
    stops the pass over it: the loop that collects the amounts runs over
    the names of the object's fields. *)
Lemma process_record_single_object (tx d : dict) (sent : list json) :
  dict_get "Txn Input UTXO Details" tx = Some (JDict d) ->
  d <> [] ->
  dict_get_default "sent_utxo_uxns" (JList []) tx = JList sent ->
  process_record (JDict tx) = Raise AttributeError.
Proof.
  intros Hin Hd Hsent. unfold process_record. cbn [as_record bind].
  set (tx1 := update_field "Txn Input UTXO Details" process_utxo_details tx).
  set (tx2 := update_field "Txn Input Details" _ tx1).
  set (tx3 := annotate_outputs tx2).
  assert (Hs3 : dict_get_default "sent_utxo_uxns" (JList []) tx3 = JList sent).
  { unfold dict_get_default, tx3, annotate_outputs, tx2, tx1.
    rewrite !update_field_other by discriminate. exact Hsent. }
  assert (Hi3 : dict_get "Txn Input UTXO Details" tx3
                = Some (process_utxo_details (JDict d))).
  { unfold tx3, annotate_outputs, tx2. rewrite !update_field_other by discriminate.
    now apply update_field_same. }
  rewrite Hs3.
  unfold input_utxos, dict_get_default. rewrite Hi3.
  unfold process_utxo_details, process_details.
  assert (Ht : py_truthy (JDict d) = true) by (destruct d; [congruence|reflexivity]).
  rewrite Ht. cbn [negb annotate_object].
  destruct (tag_entry_dict
              (if dict_mem "inputHash" d then "inputHash" else "outputHash")
              (dict_mem "inputHash" d) d)
    as [(e & _ & ->)|(b & _ & ->)]; cbn [fst py_iter bind];
    rewrite mapping_keys_raise; try reflexivity; apply dict_set_nonempty.
Qed.

(** *** The rebuilt sub-transaction *)

Lemma dict_get_absent (k : string) (d : dict) :
  existsb (String.eqb k) (map fst d) = false <-> dict_get k d = None.
Proof.
  induction d as [|[k' v] d IH]; simpl; [tauto|].
  destruct (String.eqb k k'); simpl; [split; discriminate|exact IH].
Qed.

Lemma dict_get_in (kv : string * json) (d : dict) :
  In kv d -> dict_get (fst kv) d <> None.
Proof.
  induction d as [|[k' v] d IH]; simpl; [tauto|].
  intros [<-|Hin]; cbn [fst].
  - now rewrite String.eqb_refl.
  - destruct (String.eqb (fst kv) k'); [discriminate|now apply IH].
Qed.

Lemma dict_set_fresh (k : string) (v : json) (d : dict) :
  dict_get k d = None -> dict_set k v d = (d ++ [(k, v)])%list.
Proof.
  induction d as [|[k' v'] d IH]; simpl; [reflexivity|].
  destruct (String.eqb k k'); [discriminate|]. intros Hd. now rewrite IH.
Qed.

Lemma dict_get_app (k : string) (d d' : dict) :
  dict_get k (d ++ d')%list
  = match dict_get k d with Some v => Some v | None => dict_get k d' end.
Proof.
  induction d as [|[k' v] d IH]; simpl; [reflexivity|].
  destruct (String.eqb k k'); auto.
Qed.

Lemma dict_set_keys (k : string) (v : json) (d : dict) :
  dict_mem k d = true -> map fst (dict_set k v d) = map fst d.
Proof.
  unfold dict_mem. induction d as [|[k' v'] d IH]; simpl; [discriminate|].
  destruct (String.eqb k k') eqn:E; simpl; [reflexivity|].
  intros Hm. now rewrite IH.
Qed.

Lemma update_field_keys (key : string) (f : json -> json) (tx : dict) :
  map fst (update_field key f tx) = map fst tx.
Proof.
  unfold update_field. destruct (dict_get key tx) eqn:E; [|reflexivity].
  apply dict_set_keys. unfold dict_mem. now rewrite E.
Qed.

Lemma update_field_mem (key k : string) (f : json -> json) (tx : dict) :
  dict_mem k (update_field key f tx) = dict_mem k tx.
Proof.
  unfold update_field. destruct (dict_get key tx) eqn:E; [|reflexivity].
  unfold dict_mem. destruct (String.eqb_spec k key) as [->|Hne].
  - now rewrite dict_get_set_eq, E.
  - now rewrite dict_get_set_neq.
Qed.

(** Fields that follow the output field are copied. *)
Lemma rebuild_copy (tod utxo : json) (rest : dict) :
  forall acc : dict,
    dict_get "Txn Output Details" rest = None ->
    nodup_keys (map fst rest) = true ->
    (forall kv, In kv rest -> dict_get (fst kv) acc = None) ->
    fold_left (rebuild_step tod utxo) rest acc = (acc ++ rest)%list.
Proof.
  induction rest as [|[k v] rest IH]; intros acc Hno Hnd Hfresh.
  - simpl. now rewrite app_nil_r.
  - cbn [map fst nodup_keys] in Hnd. apply andb_prop in Hnd as [Hk Hnd].
    apply negb_true_iff, dict_get_absent in Hk.
    cbn [dict_get] in Hno.
    destruct (String.eqb_spec "Txn Output Details" k) as [He|Hne];
      [discriminate|].
    cbn [fold_left]. unfold rebuild_step at 2. cbn [fst snd].
    destruct (String.eqb_spec k "Txn Output Details") as [He|_];
      [congruence|].
    rewrite (dict_set_fresh k v acc) by (apply (Hfresh (k, v)); now left).
    rewrite IH; [now rewrite <- app_assoc|exact Hno|exact Hnd|].
    intros kv Hin. rewrite dict_get_app, (Hfresh kv) by (now right).
    cbn [dict_get]. destruct (String.eqb_spec (fst kv) k) as [He|_];
      [|reflexivity].
    exfalso. apply (dict_get_in kv rest Hin). now rewrite He.
Qed.

(** The loop over [s.items()] of a sub-transaction with distinct keys,
    none of them the new field. *)
Lemma rebuild_fold (tod utxo : json) (s : dict) :
  forall acc : dict,
    nodup_keys (map fst s) = true ->
    dict_get "Txn Output UTXO Details" s = None ->
    (forall kv, In kv s -> dict_get (fst kv) acc = None) ->
    dict_get "Txn Output UTXO Details" acc = None ->
    fold_left (rebuild_step tod utxo) s acc
    = (acc ++ rebuilt tod utxo s)%list.
Proof.
  induction s as [|[k v] s IH]; intros acc Hnd Hnew Hfresh Hacc.
  - simpl. now rewrite app_nil_r.
  - cbn [map fst nodup_keys] in Hnd. apply andb_prop in Hnd as [Hk Hnd].
    apply negb_true_iff, dict_get_absent in Hk.
    cbn [dict_get] in Hnew.
    destruct (String.eqb_spec "Txn Output UTXO Details" k) as [He|Hk'];
      [discriminate|].
    pose proof (Hfresh (k, v) (or_introl eq_refl)) as Hkacc. cbn [fst] in Hkacc.
    cbn [fold_left rebuilt]. unfold rebuild_step at 2. cbn [fst snd].
    destruct (String.eqb_spec k "Txn Output Details") as [->|Hne].
    + rewrite (dict_set_fresh "Txn Output Details" tod acc Hkacc).
      rewrite dict_set_fresh
        by (rewrite dict_get_app, Hacc; reflexivity).
      rewrite rebuild_copy; [now rewrite <- !app_assoc|exact Hk|exact Hnd|].
      intros kv Hin. rewrite !dict_get_app, (Hfresh kv) by (now right).
      cbn [dict_get].
      destruct (String.eqb_spec (fst kv) "Txn Output Details") as [He|_].
      { exfalso. apply (dict_get_in kv s Hin). now rewrite He. }
      destruct (String.eqb_spec (fst kv) "Txn Output UTXO Details") as [He|_];
        [|reflexivity].
      exfalso. apply (dict_get_in kv s Hin). now rewrite He.
    + rewrite (dict_set_fresh k v acc Hkacc).
      rewrite IH; [now rewrite <- app_assoc|exact Hnd|exact Hnew| |].
      * intros kv Hin. rewrite dict_get_app, (Hfresh kv) by (now right).
        cbn [dict_get]. destruct (String.eqb_spec (fst kv) k) as [He|_];
          [|reflexivity].
        exfalso. apply (dict_get_in kv s Hin). now rewrite He.
      * rewrite dict_get_app, Hacc. cbn [dict_get].
        destruct (String.eqb_spec "Txn Output UTXO Details" k); congruence.
Qed.

Lemma rebuilt_keys (tod utxo : json) (s : dict) :
  map fst (rebuilt tod utxo s) = with_utxo_field (map fst s).
Proof.
  induction s as [|[k v] s IH]; [reflexivity|]. cbn [rebuilt map fst with_utxo_field].
  destruct (String.eqb k "Txn Output Details"); cbn [map fst]; [reflexivity|].
  now rewrite IH.
Qed.

Lemma rebuilt_get_other (tod utxo : json) (s : dict) (k : string) :
  k <> "Txn Output Details" -> k <> "Txn Output UTXO Details" ->
  dict_get k (rebuilt tod utxo s) = dict_get k s.
Proof.
  intros H1 H2. induction s as [|[k' v] s IH]; [reflexivity|].
  cbn [rebuilt]. destruct (String.eqb_spec k' "Txn Output Details") as [->|Hne].
  - cbn [dict_get].
    destruct (String.eqb_spec k "Txn Output Details"); [congruence|].
    destruct (String.eqb_spec k "Txn Output UTXO Details"); [congruence|].
    reflexivity.
  - cbn [dict_get]. now rewrite IH.
Qed.

Lemma rebuilt_get_tod (tod utxo : json) (s : dict) :
  dict_get "Txn Output Details" (rebuilt tod utxo s)
  = if dict_mem "Txn Output Details" s then Some tod else None.
Proof.
  unfold dict_mem. induction s as [|[k' v] s IH]; [reflexivity|].
  cbn [rebuilt dict_get].
  destruct (String.eqb_spec k' "Txn Output Details") as [->|Hne].
  - reflexivity.
  - cbn [dict_get].
    destruct (String.eqb_spec "Txn Output Details" k'); [congruence|exact IH].
Qed.

Lemma rebuilt_get_utxo (tod utxo : json) (s : dict) :
  dict_get "Txn Output UTXO Details" s = None ->
  dict_get "Txn Output UTXO Details" (rebuilt tod utxo s)
  = if dict_mem "Txn Output Details" s then Some utxo else None.
Proof.
  unfold dict_mem. induction s as [|[k' v] s IH]; [reflexivity|].
  cbn [rebuilt dict_get].
  destruct (String.eqb_spec "Txn Output UTXO Details" k') as [<-|Hk];
    [discriminate|].
  intros Hnew.
  destruct (String.eqb_spec k' "Txn Output Details") as [->|Hne].
  - reflexivity.
  - cbn [dict_get].
    destruct (String.eqb_spec "Txn Output UTXO Details" k'); [congruence|].
    destruct (String.eqb_spec "Txn Output Details" k'); [congruence|].
    exact (IH Hnew).
Qed.

Lemma annotate_outputs_keys (s : dict) :
  map fst (annotate_outputs s) = map fst s.
Proof. apply update_field_keys. Qed.

Lemma annotate_outputs_other (s : dict) (k : string) :
  k <> "Txn Output Details" ->
  dict_get k (annotate_outputs s) = dict_get k s.
Proof. intros Hne. now apply update_field_other. Qed.

(** What a pass over a sub-transaction answers, when it answers. *)
Lemma process_sent_shape (m : mapping) (s : dict) (out : json) :
  process_sent m (JDict s) = Ret out ->
  exists (tod : json) (u : string),
    out = JDict (fold_left (rebuild_step tod (JStr u)) (annotate_outputs s) []).
Proof.
  unfold process_sent. cbn [as_record bind].
  destruct (py_iter _) as [outs|e]; cbn [bind]; [|discriminate].
  destruct (find_matched _ _ _ _) as [[[i o]|]|e]; cbn [bind];
    [| |discriminate].
  - destruct (py_truthy (JDict o)).
    + destruct (annotate_matched o) as [o'|e]; cbn [bind]; [|discriminate].
      intros [= <-]. eauto.
    + cbn [bind]. intros [= <-]. eauto.
  - intros [= <-]. eauto.
Qed.

(** X24. A pass over a sub-transaction with distinct keys that does not
    hold the new field yet keeps the fields in their order, puts the new
    field, a string, right behind the output field, and leaves every
    other field as it was. *)
Theorem process_sent_frame (m : mapping) (s : dict) (out : json) :
  nodup_keys (map fst s) = true ->
  dict_get "Txn Output UTXO Details" s = None ->
  process_sent m (JDict s) = Ret out ->
  exists s' : dict,
    out = JDict s'
    /\ map fst s' = with_utxo_field (map fst s)
    /\ (dict_mem "Txn Output Details" s = true ->
        exists u : string,
          dict_get "Txn Output UTXO Details" s' = Some (JStr u))
    /\ (forall k : string,
          k <> "Txn Output Details" -> k <> "Txn Output UTXO Details" ->
          dict_get k s' = dict_get k s).
Proof.
  intros Hnd Hnew Hrun.
  destruct (process_sent_shape m s out Hrun) as (tod & u & ->).
  rewrite rebuild_fold;
    [|now rewrite annotate_outputs_keys
     |now rewrite annotate_outputs_other by discriminate
     |reflexivity|reflexivity].
  cbn [app]. eexists. split; [reflexivity|]. split; [|split].
  - now rewrite rebuilt_keys, annotate_outputs_keys.
  - intros Hmem. exists u. rewrite rebuilt_get_utxo
      by (now rewrite annotate_outputs_other by discriminate).
    unfold annotate_outputs. now rewrite update_field_mem, Hmem.
  - intros k H1 H2. rewrite rebuilt_get_other by assumption.
    now apply annotate_outputs_other.
Qed.

Lemma find_matched_no_amount (m : mapping) (tid : json) (outs : list json) :
  forall i : nat,
    hashable tid = true -> mapping_get tid m = [] ->
    find_matched m tid outs i = Ret None.
Proof.
  induction outs as [|o outs IH]; intros i Hh Hm; [reflexivity|].
  cbn [find_matched]. rewrite Hh. cbn [bind]. rewrite Hm.
  cbn [amount_matches bind]. now apply IH.
Qed.

(** X25. When no input amount is recorded under the id of a
    sub-transaction whose outputs can be iterated, the pass answers
    whatever the outputs are: the new field is the placeholder "[]" and
    the other fields are those of the sub-transaction with its output
    field annotated. *)
Theorem process_sent_no_amount (m : mapping) (s : dict) (outs : list json) :
  nodup_keys (map fst s) = true ->
  dict_get "Txn Output UTXO Details" s = None ->
  hashable (dict_get_none "Txn Hash" s) = true ->
  mapping_get (dict_get_none "Txn Hash" s) m = [] ->
  py_iter (output_list (annotate_outputs s)) = Ret outs ->
  exists s' : dict,
    process_sent m (JDict s) = Ret (JDict s')
    /\ map fst s' = with_utxo_field (map fst s)
    /\ (dict_mem "Txn Output Details" s = true ->
        dict_get "Txn Output UTXO Details" s' = Some (JStr "[]"))
    /\ (forall k : string,
          k <> "Txn Output UTXO Details" ->
          dict_get k s' = dict_get k (annotate_outputs s)).
Proof.
  intros Hnd Hnew Hh Hm Hit.
  assert (Htid : dict_get_none "Txn Hash" (annotate_outputs s)
                 = dict_get_none "Txn Hash" s).
  { unfold dict_get_none, dict_get_default.
    now rewrite annotate_outputs_other by discriminate. }
  unfold process_sent. cbn [as_record bind]. rewrite Hit. cbn [bind].
  rewrite Htid, (find_matched_no_amount m _ outs 0 Hh Hm). cbn [bind].
  rewrite rebuild_fold;
    [|now rewrite annotate_outputs_keys
     |now rewrite annotate_outputs_other by discriminate
     |reflexivity|reflexivity].
  cbn [app]. eexists. split; [reflexivity|]. split; [|split].
  - now rewrite rebuilt_keys, annotate_outputs_keys.
  - intros Hmem. rewrite rebuilt_get_utxo
      by (now rewrite annotate_outputs_other by discriminate).
    unfold annotate_outputs. now rewrite update_field_mem, Hmem.
  - intros k Hk. destruct (String.eqb_spec k "Txn Output Details") as [->|Hne].
    + rewrite rebuilt_get_tod. unfold dict_get_none, dict_get_default, dict_mem.
      now destruct (dict_get "Txn Output Details" (annotate_outputs s)).
    + now apply rebuilt_get_other.
Qed.

Lemma amount_matches_some (cand : list pyfloat) (o : json) (d : dict) :
  amount_matches cand o = Ret (Some d) ->
  o = JDict d
  /\ exists a x : pyfloat,
       py_float (dict_get_default "amount" (JInt 0) d) = Ret a
       /\ In x cand /\ amount_close a x = true.
Proof.
  unfold amount_matches. destruct cand as [|c cand]; [discriminate|].
  destruct o as [ |b|z|f|str|l|d0]; try discriminate. cbn [as_dict bind].
  destruct (py_float _) as [a|e] eqn:Ea; cbn [bind]; [|discriminate].
  destruct (existsb (amount_close a) (c :: cand)) eqn:Ex; [|discriminate].
  intros [= <-]. split; [reflexivity|].
  apply existsb_exists in Ex as (x & Hin & Hx). now exists a, x.
Qed.

Lemma amount_matches_none (cand : list pyfloat) (o : json) :
  cand <> [] ->
  amount_matches cand o = Ret None ->
  exists (d : dict) (a : pyfloat),
    o = JDict d
    /\ py_float (dict_get_default "amount" (JInt 0) d) = Ret a
    /\ forall x : pyfloat, In x cand -> amount_close a x = false.
Proof.
  unfold amount_matches. destruct cand as [|c cand]; [congruence|]. intros _.
  destruct o as [ |b|z|f|str|l|d0]; try discriminate. cbn [as_dict bind].
  destruct (py_float _) as [a|e] eqn:Ea; cbn [bind]; [|discriminate].
  destruct (existsb (amount_close a) (c :: cand)) eqn:Ex; [discriminate|].
  intros _. exists d0, a. split; [reflexivity|]. split; [exact Ea|].
  intros x Hin. destruct (amount_close a x) eqn:Hx; [|reflexivity].
  assert (existsb (amount_close a) (c :: cand) = true)
    by (apply existsb_exists; now exists x).
  congruence.
Qed.

Lemma find_matched_spec (m : mapping) (tid : json) (outs : list json) :
  forall (i0 i : nat) (o : dict),
    find_matched m tid outs i0 = Ret (Some (i, o)) ->
    (i0 <= i)%nat
    /\ nth_error outs (i - i0) = Some (JDict o)
    /\ amount_matches (mapping_get tid m) (JDict o) = Ret (Some o)
    /\ forall (j : nat) (o' : json),
         (j < i - i0)%nat -> nth_error outs j = Some o' ->
         amount_matches (mapping_get tid m) o' = Ret None.
Proof.
  induction outs as [|x outs IH]; intros i0 i o; [discriminate|].
  cbn [find_matched]. destruct (hashable tid); cbn [bind]; [|discriminate].
  destruct (amount_matches (mapping_get tid m) x) as [[d|]|e] eqn:Ex;
    cbn [bind]; [| |discriminate].
  - intros [= <- <-]. rewrite Nat.sub_diag.
    destruct (amount_matches_some _ _ _ Ex) as [-> _].
    split; [lia|]. split; [reflexivity|]. split; [exact Ex|].
    intros j o' Hj. lia.
  - intros Hrun. destruct (IH _ _ _ Hrun) as (Hle & Hnth & Hm & Hbefore).
    split; [lia|].
    replace (i - i0)%nat with (S (i - S i0)) by lia.
    split; [exact Hnth|]. split; [exact Hm|].
    intros [|j] o' Hj; cbn [nth_error].
    + now intros [= <-].
    + apply Hbefore. lia.
Qed.

(** X26. The output matched for a sub-transaction is the first one of
    the list whose amount lies within 1e-8 of an amount recorded under
    the id: it has such an amount, and every output before it is an
    object whose amount is a number that is not that close to any
    recorded amount. *)
Theorem find_matched_first
  (m : mapping) (tid : json) (outs : list json) (i : nat) (o : dict) :
  find_matched m tid outs 0 = Ret (Some (i, o)) ->
  nth_error outs i = Some (JDict o)
  /\ (exists a x : pyfloat,
        py_float (dict_get_default "amount" (JInt 0) o) = Ret a
        /\ In x (mapping_get tid m) /\ amount_close a x = true)
  /\ (forall (j : nat) (o' : json),
        (j < i)%nat -> nth_error outs j = Some o' ->
        exists (d : dict) (a : pyfloat),
          o' = JDict d
          /\ py_float (dict_get_default "amount" (JInt 0) d) = Ret a
          /\ forall x : pyfloat,
               In x (mapping_get tid m) -> amount_close a x = false).
Proof.
  intros Hrun.
  destruct (find_matched_spec m tid outs 0 i o Hrun)
    as (_ & Hnth & Hm & Hbefore).
  rewrite Nat.sub_0_r in *.
  destruct (amount_matches_some _ _ _ Hm) as (_ & a & x & Ha & Hin & Hx).
  split; [exact Hnth|]. split; [now exists a, x|].
  intros j o' Hj Ho'. apply amount_matches_none; [|now apply (Hbefore j)].
  intros Hnil. rewrite Hnil in Hin. destruct Hin.
Qed.

Lemma nodup_keys_app (pre post : dict) (k : string) (x : json) :
  nodup_keys (map fst (pre ++ (k, x) :: post)%list) = true ->
  dict_get k pre = None /\ dict_get k post = None
  /\ nodup_keys (map fst post) = true.
Proof.
  induction pre as [|[k' v'] pre IH]; cbn [app map fst nodup_keys].
  - intros H. apply andb_prop in H as [Hk Hnd].
    apply negb_true_iff, dict_get_absent in Hk. auto.
  - intros H. apply andb_prop in H as [Hk Hnd].
    apply negb_true_iff, dict_get_absent in Hk.
    destruct (IH Hnd) as (Hpre & Hpost & Hnd'). split; [|now split].
    cbn [dict_get]. destruct (String.eqb_spec k k') as [->|_]; [|exact Hpre].
    rewrite dict_get_app, Hpre in Hk. cbn [dict_get] in Hk.
    now rewrite String.eqb_refl in Hk.
Qed.

Lemma dict_set_middle (pre post : dict) (k : string) (x v : json) :
  dict_get k pre = None ->
  dict_set k v (pre ++ (k, x) :: post)%list = (pre ++ (k, v) :: post)%list.
Proof.
  induction pre as [|[k' v'] pre IH]; cbn [app dict_set dict_get].
  - now rewrite String.eqb_refl.
  - destruct (String.eqb k k'); [discriminate|]. intros Hpre. now rewrite IH.
Qed.

(** A field that follows the output field keeps the value it has. *)
Lemma rebuild_get_after (tod utxo : json) (rest : dict) (k : string) :
  forall acc : dict,
    dict_get "Txn Output Details" rest = None ->
    nodup_keys (map fst rest) = true ->
    dict_get k (fold_left (rebuild_step tod utxo) rest acc)
    = match dict_get k rest with
      | Some v => Some v
      | None => dict_get k acc
      end.
Proof.
  induction rest as [|[k' v'] rest IH]; intros acc Hno Hnd; [reflexivity|].
  cbn [map fst nodup_keys] in Hnd. apply andb_prop in Hnd as [Hk Hnd].
  apply negb_true_iff, dict_get_absent in Hk.
  cbn [dict_get] in Hno.
  destruct (String.eqb_spec "Txn Output Details" k') as [He|Hne];
    [discriminate|].
  cbn [fold_left]. unfold rebuild_step at 2. cbn [fst snd].
  destruct (String.eqb_spec k' "Txn Output Details") as [He|_]; [congruence|].
  rewrite (IH _ Hno Hnd). cbn [dict_get].
  destruct (String.eqb_spec k k') as [->|Hkk].
  - now rewrite Hk, dict_get_set_eq.
  - now rewrite dict_get_set_neq.
Qed.

(** X27. A sub-transaction that already holds the new field behind its
    output field keeps the value it holds: the pass writes the new
    field, and the copy of the old one overwrites it. *)
Theorem process_sent_keeps_old_field
  (m : mapping) (pre post : dict) (x v out : json) :
  nodup_keys (map fst (pre ++ ("Txn Output Details", x) :: post)%list) = true ->
  dict_get "Txn Output UTXO Details" post = Some v ->
  process_sent m (JDict (pre ++ ("Txn Output Details", x) :: post)%list)
  = Ret out ->
  exists s' : dict,
    out = JDict s' /\ dict_get "Txn Output UTXO Details" s' = Some v.
Proof.
  intros Hnd Hold Hrun.
  destruct (nodup_keys_app _ _ _ _ Hnd) as (Hpre & Hpost & Hndpost).
  destruct (process_sent_shape m _ out Hrun) as (tod & u & ->).
  eexists. split; [reflexivity|].
  unfold annotate_outputs, update_field.
  rewrite dict_get_app, Hpre. cbn [dict_get]. rewrite String.eqb_refl.
  rewrite dict_set_middle by exact Hpre.
  rewrite fold_left_app. cbn [fold_left].
  now rewrite rebuild_get_after, Hold by assumption.
Qed.

Lemma process_transaction_list_list (l : list json) (is_input : bool) :
  exists l1 : list json,
    process_transaction_list (JList l) is_input = JList l1
    /\ List.length l1 = List.length l.
Proof.
  unfold process_transaction_list, process_details.
  destruct l as [|x l]; [now exists []|].
  cbn [py_truthy negb annotate_list].
  pose proof (annotate_entries_length is_input (negb is_input) (x :: l)) as Hlen.
  destruct (annotate_entries is_input (negb is_input) (x :: l)) as [l1 e].
  now exists l1.
Qed.

Lemma list_set_length (l : list json) (i : nat) (v : json) :
  List.length (list_set l i v) = List.length l.
Proof.
  revert i. induction l as [|x l IH]; intros [|i]; cbn [list_set List.length];
    auto.
Qed.

Lemma list_set_in (l : list json) (i : nat) (v y : json) :
  nth_error l i = Some y -> In v (list_set l i v).
Proof.
  revert i. induction l as [|x l IH]; intros [|i]; cbn [nth_error list_set];
    try discriminate.
  - intros _. now left.
  - intros Hn. right. now apply (IH i).
Qed.

(** The matched output is typed from its address and sized from the
    table; nothing raises. *)
Lemma annotate_matched_shape (o : dict) :
  exists o' : dict,
    annotate_matched o = Ret o'
    /\ let st := identify_script_type (dict_get_default "outputHash" (JStr "") o') in
       dict_get "scriptType" o' = Some (JStr st)
       /\ exists b : Z,
            script_type_bytes (JStr st) = Ret b
            /\ dict_get "bytes" o' = Some (JInt b).
Proof.
  unfold annotate_matched, add_bytes_to_item.
  set (t := identify_script_type (dict_get_default "outputHash" (JStr "") o)).
  set (d1 := dict_set "scriptType" (JStr t) o).
  assert (Hst : output_script_type d1 = JStr t).
  { unfold output_script_type, dict_get_none, dict_get_default, d1.
    rewrite dict_get_set_eq. unfold py_or, t.
    now rewrite identify_script_type_truthy. }
  rewrite Hst. cbn [script_type_bytes bind]. eexists. split; [reflexivity|].
  assert (Hh : dict_get_default "outputHash" (JStr "")
                 (dict_set "bytes"
                    (JInt match table_get t SCRIPT_TYPE_BYTES with
                          | Some b => b
                          | None => 43
                          end)
                    (dict_set "scriptType" (JStr t) d1))
               = dict_get_default "outputHash" (JStr "") o).
  { unfold dict_get_default, d1.
    now rewrite !dict_get_set_neq by discriminate. }
  cbv zeta. rewrite Hh. fold t. split.
  - rewrite dict_get_set_neq by discriminate. apply dict_get_set_eq.
  - eexists. split; [reflexivity|]. apply dict_get_set_eq.
Qed.

Lemma rebuilt_fields (tod utxo : json) (s : dict) :
  nodup_keys (map fst s) = true ->
  dict_get "Txn Output UTXO Details" s = None ->
  dict_mem "Txn Output Details" s = true ->
  let s' := fold_left (rebuild_step tod utxo) (annotate_outputs s) [] in
  dict_get "Txn Output Details" s' = Some tod
  /\ dict_get "Txn Output UTXO Details" s' = Some utxo.
Proof.
  intros Hnd Hnew Hmem s'. unfold s'.
  rewrite rebuild_fold;
    [|now rewrite annotate_outputs_keys
     |now rewrite annotate_outputs_other by discriminate
     |reflexivity|reflexivity].
  cbn [app].
  rewrite rebuilt_get_tod, rebuilt_get_utxo
    by (now rewrite annotate_outputs_other by discriminate).
  unfold annotate_outputs. now rewrite update_field_mem, Hmem.
Qed.

(** X28. For a sub-transaction whose outputs are a list, the new field
    and the list agree: the list keeps its length, and the new field is
    either the placeholder "[]" or the text of one of the outputs of the
    list as the pass leaves it, typed from its address and sized from the
    table. *)
Theorem process_sent_field_of_list
  (m : mapping) (s : dict) (l : list json) (out : json) :
  nodup_keys (map fst s) = true ->
  dict_get "Txn Output UTXO Details" s = None ->
  dict_get "Txn Output Details" s = Some (JList l) ->
  process_sent m (JDict s) = Ret out ->
  exists (s' : dict) (l' : list json) (u : string),
    out = JDict s'
    /\ dict_get "Txn Output Details" s' = Some (JList l')
    /\ List.length l' = List.length l
    /\ dict_get "Txn Output UTXO Details" s' = Some (JStr u)
    /\ (u = "[]"
        \/ exists (o' : dict) (b : Z),
             u = dumps (JDict o')
             /\ In (JDict o') l'
             /\ dict_get "scriptType" o'
                = Some (JStr (identify_script_type
                                (dict_get_default "outputHash" (JStr "") o')))
             /\ script_type_bytes
                  (JStr (identify_script_type
                           (dict_get_default "outputHash" (JStr "") o')))
                = Ret b
             /\ dict_get "bytes" o' = Some (JInt b)).
Proof.
  intros Hnd Hnew Hl Hrun.
  destruct (process_transaction_list_list l false) as (l1 & Hl1 & Hlen).
  assert (Hmem : dict_mem "Txn Output Details" s = true)
    by (unfold dict_mem; now rewrite Hl).
  assert (Hs1 : dict_get "Txn Output Details" (annotate_outputs s)
                = Some (JList l1)).
  { unfold annotate_outputs.
    rewrite (update_field_same _ _ _ _ Hl). now rewrite Hl1. }
  unfold process_sent in Hrun. cbn [as_record bind] in Hrun.
  assert (Hraw : dict_get_none "Txn Output Details" (annotate_outputs s)
                 = JList l1)
    by (unfold dict_get_none, dict_get_default; now rewrite Hs1).
  unfold output_list in Hrun.
  rewrite Hraw, Hs1 in Hrun. cbn [py_iter bind] in Hrun.
  destruct (find_matched _ _ _ _) as [[[i o]|]|e] eqn:Ef; cbn [bind] in Hrun;
    [| |discriminate].
  - destruct (find_matched_spec _ _ _ _ _ _ Ef) as (_ & Hnth & _).
    rewrite Nat.sub_0_r in Hnth.
    destruct (py_truthy (JDict o)).
    + destruct (annotate_matched_shape o) as (o' & Ho' & Hst & b & Hb & Hbytes).
      rewrite Ho' in Hrun. cbn [bind] in Hrun. injection Hrun as <-.
      destruct (rebuilt_fields (JList (list_set l1 i (JDict o')))
                  (JStr (dumps (JDict o'))) s Hnd Hnew Hmem) as [Htod Hutxo].
      eexists. exists (list_set l1 i (JDict o')), (dumps (JDict o')).
      split; [reflexivity|]. split; [exact Htod|].
      split; [now rewrite list_set_length|]. split; [exact Hutxo|].
      right. exists o', b. split; [reflexivity|].
      split; [exact (list_set_in _ _ _ _ Hnth)|]. now split.
    + cbn [bind] in Hrun. injection Hrun as <-.
      destruct (rebuilt_fields (JList l1) (JStr "[]") s Hnd Hnew Hmem)
        as [Htod Hutxo].
      eexists. exists l1, "[]". split; [reflexivity|].
      split; [exact Htod|]. split; [exact Hlen|]. split; [exact Hutxo|].
      now left.
  - injection Hrun as <-.
    destruct (rebuilt_fields (JList l1) (JStr "[]") s Hnd Hnew Hmem)
      as [Htod Hutxo].
    eexists. exists l1, "[]". split; [reflexivity|].
    split; [exact Htod|]. split; [exact Hlen|]. split; [exact Hutxo|].
    now left.
Qed.

Lemma process_record_frame (tx : dict) (out : json) :
  process_record (JDict tx) = Ret out -> kept_record (JDict tx) out.
Proof.
  unfold kept_record, process_record. cbn [as_record bind].
  set (tx1 := update_field "Txn Input UTXO Details" process_utxo_details tx).
  set (tx2 := update_field "Txn Input Details" _ tx1).
  set (tx3 := annotate_outputs tx2).
  assert (Hkeys : map fst tx3 = map fst tx).
  { unfold tx3, annotate_outputs, tx2, tx1. now rewrite !update_field_keys. }
  assert (Hother : forall k : string,
             k <> "Txn Input UTXO Details" -> k <> "Txn Input Details" ->
             k <> "Txn Output Details" ->
             dict_get k tx3 = dict_get k tx).
  { intros k H1 H2 H3. unfold tx3, annotate_outputs, tx2, tx1.
    now rewrite !update_field_other by assumption. }
  assert (Hsent : dict_get "sent_utxo_uxns" tx3 = dict_get "sent_utxo_uxns" tx)
    by (apply Hother; discriminate).
  unfold dict_get_default, dict_mem. rewrite Hsent.
  destruct (dict_get "sent_utxo_uxns" tx) as [v|] eqn:Ev.
  - destruct v as [ |b|z|f|str|sent|d];
      try (intros [= <-]; exists tx3; repeat split;
           [exact Hkeys|intros; now apply Hother|exact Hsent]).
    destruct (py_iter _) as [inp|e]; cbn [bind]; [|discriminate].
    destruct (foldM _ _ _) as [m|e]; cbn [bind]; [|discriminate].
    destruct (mapM _ _) as [sent'|e] eqn:Em; cbn [bind]; [|discriminate].
    intros [= <-]. eexists. split; [reflexivity|]. split; [|split].
    + rewrite dict_set_keys; [exact Hkeys|]. unfold dict_mem. now rewrite Hsent.
    + intros k H1 H2 H3 H4. rewrite dict_get_set_neq by exact H4.
      now apply Hother.
    + exists sent'. split; [apply dict_get_set_eq|].
      exact (mapM_length _ _ _ Em).
  - cbn [py_iter bind mapM].
    destruct (py_iter _) as [inp|e]; cbn [bind]; [|discriminate].
    destruct (foldM _ _ _) as [m|e]; cbn [bind]; [|discriminate].
    intros [= <-]. exists tx3. repeat split;
      [exact Hkeys|intros; now apply Hother|exact Hsent].
Qed.

Lemma mapM_raises {A B : Type} (f : A -> result B) (l : list A) (x : A) (e : exn) :
  In x l -> f x = Raise e -> exists e' : exn, mapM f l = Raise e'.
Proof.
  induction l as [|y l IH]; [intros []|].
  intros [->|Hin] Hx; cbn [mapM].
  - rewrite Hx. now exists e.
  - destruct (f y) as [y'|e']; cbn [bind]; [|now exists e'].
    destruct (IH Hin Hx) as [e' ->]. now exists e'.
Qed.

Lemma mapM_Forall2 {A B : Type} (f : A -> result B) (R : A -> B -> Prop)
  (l : list A) :
  (forall x y, f x = Ret y -> R x y) ->
  forall out : list B, mapM f l = Ret out -> Forall2 R l out.
Proof.
  intros HR. induction l as [|x l IH]; intros out; cbn [mapM].
  - intros [= <-]. constructor.
  - destruct (f x) as [y|e] eqn:Ex; cbn [bind]; [|discriminate].
    destruct (mapM f l) as [ys|e]; cbn [bind]; [|discriminate].
    intros [= <-]. constructor; [now apply HR|now apply IH].
Qed.

Lemma as_record_ok (keys : list string) (v : json) (d : dict) :
  as_record keys v = Ret d -> v = JDict d.
Proof.
  revert d. induction keys as [|k keys IH]; intros d;
    destruct v as [ |b|z|f|s|l|d0]; cbn [as_record py_in bind];
    try discriminate; try (now intros [= ->]).
  - destruct (contains k s); [discriminate|]. intros Hr.
    now specialize (IH d Hr).
  - destruct (existsb _ l); [discriminate|]. intros Hr.
    now specialize (IH d Hr).
Qed.

Lemma process_record_dict (r out : json) :
  process_record r = Ret out -> exists tx : dict, r = JDict tx.
Proof.
  unfold process_record.
  destruct (as_record _ r) as [d|e] eqn:Er; cbn [bind]; [|discriminate].
  intros _. exists d. now apply (as_record_ok _ _ _ Er).
Qed.

(** X29. One transaction whose input field holds a single descriptor
    object (not a list of them) loses the whole file: the pass raises
    and nothing is written. *)
Theorem process_file_single_object
  (text : string) (data : json) (tx d : dict) (sent : list json) :
  loads text = Some data ->
  In (JDict tx) (records_of data) ->
  dict_get "Txn Input UTXO Details" tx = Some (JDict d) ->
  d <> [] ->
  dict_get_default "sent_utxo_uxns" (JList []) tx = JList sent ->
  exists e : exn, process_file text = Raise e.
Proof.
  intros Hload Hin Hd Hne Hsent. unfold process_file. rewrite Hload.
  destruct (mapM_raises process_record _ _ _ Hin
              (process_record_single_object tx d sent Hd Hne Hsent))
    as [e ->].
  now exists e.
Qed.

(** X30. A file that goes through the pass keeps its shape: a list
    stays a list of as many transactions, and every transaction keeps
    its fields in their order, with four of them touched at most, a
    list of sub-transactions of the same length, and sub-transactions
    held as anything but a list left alone. *)
Theorem process_file_frame (text : string) (data out : json) :
  loads text = Some data ->
  process_file text = Ret (Some out) ->
  is_list out = is_list data
  /\ Forall2 kept_record (records_of data) (records_of out).
Proof.
  intros Hload. unfold process_file. rewrite Hload.
  destruct (mapM process_record (records_of data)) as [records|e] eqn:Em;
    cbn [bind]; [|discriminate].
  intros [= <-].
  assert (HF : Forall2 kept_record (records_of data) records).
  { apply (mapM_Forall2 process_record kept_record _); [|exact Em].
    intros x y Hxy. destruct (process_record_dict x y Hxy) as [tx ->].
    now apply process_record_frame. }
  destruct data as [ |b|z|f|s|l|d]; cbn [data_of records_of is_list] in *;
    try (split; [reflexivity|exact HF]);
    inversion HF as [|x y l0 l0' Hxy Hrest]; subst;
    try (destruct Hxy; fail).
  inversion Hrest; subst. cbn [kept_record] in Hxy.
  destruct Hxy as (tx' & -> & Hk). cbn [is_list records_of].
  split; [reflexivity|]. constructor; [|constructor].
  cbn [kept_record]. now exists tx'.
Qed.

End AnnotateFileFacts.

Lemma single_input_file_loads :
  loads (JsonCodec := ReferenceCodec.codec) single_input_file_text
  = Some (JList [JDict funded_tx; JDict single_input_tx]).
Proof. vm_compute. reflexivity. Qed.

Lemma process_file_single_object_example :
  exists e : exn,
    AnnotateFile.process_file (H := ReferenceCodec.codec)
      single_input_file_text = Raise e.
Proof.
  apply (process_file_single_object (C := ReferenceCodec.codec)
           single_input_file_text
           (JList [JDict funded_tx; JDict single_input_tx])
           single_input_tx
           [("txid", JStr "a1"); ("amount", JStr "0.5");
            ("inputHash", JStr "1BoatSLRHtKNngkdXEeobR76b53LETtpyT")] []).
  - exact single_input_file_loads.
  - right. left. reflexivity.
  - reflexivity.
  - discriminate.
  - reflexivity.
Defined.

Lemma sub_tx_run :
  AnnotateFile.process_sent (H := ReferenceCodec.codec)
    sub_tx_mapping (JDict sub_tx)
  = Ret sub_tx_out.
Proof. vm_compute. reflexivity. Qed.

Lemma sub_tx_stale_run :
  AnnotateFile.process_sent (H := ReferenceCodec.codec)
    sub_tx_mapping (JDict sub_tx_stale)
  = Ret sub_tx_stale_out.
Proof. vm_compute. reflexivity. Qed.

Lemma funded_file_loads :
  loads (JsonCodec := ReferenceCodec.codec) funded_file_text
  = Some (JList [JDict funded_tx]).
Proof. vm_compute. reflexivity. Qed.

Lemma funded_file_run :
  AnnotateFile.process_file (H := ReferenceCodec.codec) funded_file_text
  = Ret (Some funded_file_out).
Proof. vm_compute. reflexivity. Qed.

Lemma sub_tx_outs_run :
  py_iter (AnnotateFile.output_list (H := ReferenceCodec.codec)
             (AnnotateFile.annotate_outputs (H := ReferenceCodec.codec) sub_tx))
  = Ret sub_tx_outs.
Proof. vm_compute. reflexivity. Qed.

Lemma sub_tx_matched_run :
  AnnotateFile.find_matched sub_tx_mapping (JStr "a1") sub_tx_outs 0
  = Ret (Some (1%nat, sub_tx_matched)).
Proof. vm_compute. reflexivity. Qed.

Lemma process_file_frame_example :
  is_list funded_file_out = true
  /\ Forall2 kept_record [JDict funded_tx] (records_of funded_file_out).
Proof.
  exact (process_file_frame (C := ReferenceCodec.codec)
           funded_file_text (JList [JDict funded_tx]) funded_file_out
           funded_file_loads funded_file_run).
Defined.

Lemma process_sent_frame_example :
  exists s' : dict,
    sub_tx_out = JDict s'
    /\ map fst s'
       = ["Txn Hash"; "Txn Output Details"; "Txn Output UTXO Details";
          "Txn Fee Rate"]
    /\ (dict_mem "Txn Output Details" sub_tx = true ->
        exists u : string,
          dict_get "Txn Output UTXO Details" s' = Some (JStr u))
    /\ (forall k : string,
          k <> "Txn Output Details" -> k <> "Txn Output UTXO Details" ->
          dict_get k s' = dict_get k sub_tx).
Proof.
  exact (process_sent_frame (C := ReferenceCodec.codec)
           sub_tx_mapping sub_tx sub_tx_out eq_refl eq_refl sub_tx_run).
Defined.

Lemma process_sent_no_amount_example :
  exists s' : dict,
    AnnotateFile.process_sent (H := ReferenceCodec.codec) [] (JDict sub_tx)
    = Ret (JDict s')
    /\ map fst s'
       = ["Txn Hash"; "Txn Output Details"; "Txn Output UTXO Details";
          "Txn Fee Rate"]
    /\ (dict_mem "Txn Output Details" sub_tx = true ->
        dict_get "Txn Output UTXO Details" s' = Some (JStr "[]"))
    /\ (forall k : string,
          k <> "Txn Output UTXO Details" ->
          dict_get k s'
          = dict_get k (AnnotateFile.annotate_outputs
                          (H := ReferenceCodec.codec) sub_tx)).
Proof.
  exact (process_sent_no_amount (C := ReferenceCodec.codec)
           [] sub_tx sub_tx_outs eq_refl eq_refl eq_refl eq_refl
           sub_tx_outs_run).
Defined.

Lemma find_matched_first_example :
  nth_error sub_tx_outs 1 = Some (JDict sub_tx_matched)
  /\ (exists a x : pyfloat,
        py_float (dict_get_default "amount" (JInt 0) sub_tx_matched) = Ret a
        /\ In x (AnnotateFile.mapping_get (JStr "a1") sub_tx_mapping)
        /\ AnnotateFile.amount_close a x = true)
  /\ (forall (j : nat) (o' : json),
        (j < 1)%nat -> nth_error sub_tx_outs j = Some o' ->
        exists (d : dict) (a : pyfloat),
          o' = JDict d
          /\ py_float (dict_get_default "amount" (JInt 0) d) = Ret a
          /\ forall x : pyfloat,
               In x (AnnotateFile.mapping_get (JStr "a1") sub_tx_mapping) ->
               AnnotateFile.amount_close a x = false).
Proof.
  exact (find_matched_first sub_tx_mapping (JStr "a1") sub_tx_outs 1
           sub_tx_matched sub_tx_matched_run).
Defined.

Lemma process_sent_keeps_old_field_example :
  exists s' : dict,
    sub_tx_stale_out = JDict s'
    /\ dict_get "Txn Output UTXO Details" s' = Some (JStr "[]").
Proof.
  exact (process_sent_keeps_old_field (C := ReferenceCodec.codec)
           sub_tx_mapping [("Txn Hash", JStr "a1")]
           [("Txn Output UTXO Details", JStr "[]")] _ (JStr "[]")
           sub_tx_stale_out eq_refl eq_refl sub_tx_stale_run).
Defined.

Lemma process_sent_field_of_list_example :
  exists (s' : dict) (l' : list json) (u : string),
    sub_tx_out = JDict s'
    /\ dict_get "Txn Output Details" s' = Some (JList l')
    /\ List.length l' = 2%nat
    /\ dict_get "Txn Output UTXO Details" s' = Some (JStr u)
    /\ (u = "[]"
        \/ exists (o' : dict) (b : Z),
             u = ReferenceCodec.ref_dumps (JDict o')
             /\ In (JDict o') l'
             /\ dict_get "scriptType" o'
                = Some (JStr (Annotate.identify_script_type
                                (dict_get_default "outputHash" (JStr "") o')))
             /\ Annotate.script_type_bytes
                  (JStr (Annotate.identify_script_type
                           (dict_get_default "outputHash" (JStr "") o')))
                = Ret b
             /\ dict_get "bytes" o' = Some (JInt b)).
Proof.
  exact (process_sent_field_of_list (C := ReferenceCodec.codec)
           sub_tx_mapping sub_tx _ sub_tx_out eq_refl eq_refl eq_refl
           sub_tx_run).
Defined.
